(** * CarbonLens: the four-layer query pipeline, embedded and verified

    A shallow embedding of the deterministic core of the CarbonLens
    emissions assistant:

    - [api/schema.py]: the enums, [YearFilter], [QueryIntent] and
      [ExecutionResult], with the checks their pydantic declarations run;
    - [api/intent_extraction_layer.py]: [extract_intent], its heuristic
      path and its provider path;
    - [api/validation_layer.py]: [validate_intent];
    - [api/execution_layer.py]: [execute], [_get_column_name], [_get_unit];
    - [api/conversation_layer.py]: [is_underspecified];
    - [api/views_refactored.py]: the routing part of [QueryView.post].

    Conventions of the embedding.

    - Python [str] is [string]; a text is read as its UTF-8 bytes.  The
      embedding is exact on ASCII text only: [lower] folds [A-Z] and
      nothing else, and the regular-expression classes [\s], [\d], [\w]
      are the ASCII parts of Python's, which also accept Unicode white
      space, digits and letters.  Every statement about the reading of
      a query text therefore assumes [Str.is_ascii] of it; the lemmas
      about the scanners themselves hold for every string.
    - Python [float] is the kernel's binary64 [float].
    - [None] is [None]; a dict key that may be missing is an [option].
    - A Python exception is a value of [exn]; code that may raise returns
      a [result]. *)

From Stdlib Require Import ZArith List String Ascii Bool Lia.
From Stdlib Require Import Floats.PrimFloat.
From Stdlib Require Import DecimalString.
From Stdlib Require Import Sorting.Sorted.
Import ListNotations.

Open Scope string_scope.
Open Scope Z_scope.

Set Implicit Arguments.

(* ================================================================= *)
(** * Strings *)

Module Str.

(** [str.lower()] on one character of an ASCII text. *)
Definition lower_ascii (c : ascii) : ascii :=
  let n := nat_of_ascii c in
  if (Nat.leb 65 n && Nat.leb n 90)%bool then ascii_of_nat (n + 32) else c.

(** [s.lower()], for an ASCII text [s]: on other texts Python also folds
    the letters outside ASCII. *)
Fixpoint lower (s : string) : string :=
  match s with
  | EmptyString => EmptyString
  | String c s' => String (lower_ascii c) (lower s')
  end.

(** What follows the literal [w] at the head of [s]. *)
Fixpoint strip_prefix (w s : string) : option string :=
  match w with
  | EmptyString => Some s
  | String a w' =>
      match s with
      | String b s' => if Ascii.eqb a b then strip_prefix w' s' else None
      | EmptyString => None
      end
  end.

(** [s.startswith(p)] *)
Definition startswith (p s : string) : bool :=
  match strip_prefix p s with Some _ => true | None => false end.

(** [sub in s] *)
Fixpoint contains (sub s : string) : bool :=
  startswith sub s ||
  match s with
  | EmptyString => false
  | String _ s' => contains sub s'
  end.

(** [s.endswith(suf)] *)
Fixpoint endswith (suf s : string) : bool :=
  String.eqb suf s ||
  match s with
  | EmptyString => false
  | String _ s' => endswith suf s'
  end.

(** [x in l] for a list of strings. *)
Definition mem (x : string) (l : list string) : bool :=
  existsb (String.eqb x) l.

(** [any(w in s for w in ws)] *)
Definition any_in (ws : list string) (s : string) : bool :=
  existsb (fun w => contains w s) ws.

(** The characters [str.isspace] accepts below 128; [\s] and [strip()]
    use the same test.  Above 128 Python accepts more (U+00A0 and the
    like): the scanners are those of the code on ASCII texts. *)
Definition is_space (c : ascii) : bool :=
  let n := nat_of_ascii c in
  (Nat.leb 9 n && Nat.leb n 13) || (Nat.leb 28 n && Nat.leb n 32).

(** [\d] on an ASCII text. *)
Definition is_digit (c : ascii) : bool :=
  let n := nat_of_ascii c in Nat.leb 48 n && Nat.leb n 57.

(** [\w] on an ASCII text. *)
Definition is_word (c : ascii) : bool :=
  let n := nat_of_ascii c in
  is_digit c || (Nat.leb 65 n && Nat.leb n 90)
  || (Nat.leb 97 n && Nat.leb n 122) || Nat.eqb n 95.

Fixpoint lstrip (s : string) : string :=
  match s with
  | EmptyString => EmptyString
  | String c s' => if is_space c then lstrip s' else s
  end.

Fixpoint all_chars (p : ascii -> bool) (s : string) : bool :=
  match s with
  | EmptyString => true
  | String c s' => p c && all_chars p s'
  end.

(** Drops the trailing whitespace. *)
Fixpoint rstrip (s : string) : string :=
  match s with
  | EmptyString => EmptyString
  | String c s' => if all_chars is_space s then EmptyString else String c (rstrip s')
  end.

(** [s.strip()] *)
Definition strip (s : string) : string := rstrip (lstrip s).

(** [str(n)] and the [{n}] of an f-string, for an [int]. *)
Definition of_Z (n : Z) : string := NilZero.string_of_int (Z.to_int n).

(** [s.isascii()]: every character is below 128.  On such a text
    [lower], [is_space], [is_digit] and [is_word] are Python's
    [str.lower], [\s], [\d] and [\w]. *)
Definition is_ascii (s : string) : bool :=
  all_chars (fun c => Nat.ltb (nat_of_ascii c) 128) s.

End Str.

(* ================================================================= *)
(** * [api/schema.py] *)

Inductive Gas := CO2 | METHANE | N2O.

Inductive Sector := TOTAL | CEMENT | TRANSPORT | ENERGY | AGRICULTURE.

Inductive Metric :=
  SUM | AVERAGE | MEDIAN | MIN | MAX | STD | VARIANCE | RANGE | CHANGE | TREND.

(** The [.value] of each enum member. *)
Definition Gas_value (g : Gas) : string :=
  match g with CO2 => "co2" | METHANE => "methane" | N2O => "n2o" end.

Definition Sector_value (s : Sector) : string :=
  match s with
  | TOTAL => "total" | CEMENT => "cement" | TRANSPORT => "transport"
  | ENERGY => "energy" | AGRICULTURE => "agriculture"
  end.

Definition Metric_value (m : Metric) : string :=
  match m with
  | SUM => "sum" | AVERAGE => "average" | MEDIAN => "median" | MIN => "min"
  | MAX => "max" | STD => "std" | VARIANCE => "variance" | RANGE => "range"
  | CHANGE => "change" | TREND => "trend"
  end.

Definition all_gases : list Gas := [CO2; METHANE; N2O].
Definition all_sectors : list Sector := [TOTAL; CEMENT; TRANSPORT; ENERGY; AGRICULTURE].
Definition all_metrics : list Metric :=
  [SUM; AVERAGE; MEDIAN; MIN; MAX; STD; VARIANCE; RANGE; CHANGE; TREND].

(** [Gas(s)], [Sector(s)], [Metric(s)]: the member whose value is [s]. *)
Definition Gas_of_value (s : string) : option Gas :=
  find (fun g => String.eqb (Gas_value g) s) all_gases.

Definition Sector_of_value (s : string) : option Sector :=
  find (fun g => String.eqb (Sector_value g) s) all_sectors.

Definition Metric_of_value (s : string) : option Metric :=
  find (fun g => String.eqb (Metric_value g) s) all_metrics.

Record YearFilter := mkYearFilter {
  year : option Z;
  year_min : option Z;
  year_max : option Z
}.

Record QueryIntent := mkQueryIntent {
  country : option string;
  gas : option Gas;
  sector : option Sector;
  metric : option Metric;
  metrics : option (list Metric);
  year_filter : option YearFilter;
  is_greeting : bool;
  is_small_talk : bool;
  is_explanatory : bool;
  low_confidence : bool;
  needs_clarification : bool;
  clarification_question : option string
}.

(** [QueryIntent()] with every field at its default. *)
Definition QueryIntent_default : QueryIntent :=
  mkQueryIntent None None None None None None false false false false false None.

(** Python exceptions, by class; the payload is a short description (the
    literal text of a library's message is not reproduced). *)
Inductive exn :=
| ValidationError (what : string)
| KeyError (key : string)
| JSONDecodeError
| TypeError (what : string)
| RuntimeError (what : string)
| ValueError (what : string)
| OtherError (what : string).

Definition exn_str (e : exn) : string :=
  match e with
  | ValidationError w => "validation error: " ++ w
  | KeyError k => "'" ++ k ++ "'"
  | JSONDecodeError => "json decode error"
  | TypeError w | RuntimeError w | ValueError w | OtherError w => w
  end.

Inductive result (A : Type) :=
| Ok (a : A)
| Raise (e : exn).

Arguments Ok {A} a.
Arguments Raise {A} e.

Definition bind {A B} (m : result A) (k : A -> result B) : result B :=
  match m with
  | Ok a => k a
  | Raise e => Raise e
  end.

Notation "x <- m ;; k" := (bind m (fun x => k))
  (at level 61, m at next level, right associativity).

(** [try: body except Exception as e: handler(e)] *)
Definition try_except {A} (body : result A) (handler : exn -> A) : A :=
  match body with
  | Ok a => a
  | Raise e => handler e
  end.

(** Truth value of an [Optional[str]]: set and not empty. *)
Definition truthy_str (s : option string) : bool :=
  match s with
  | Some (String _ _) => true
  | _ => false
  end.

(** Truth value of an [Optional[int]]: set and not zero. *)
Definition truthy_int (n : option Z) : bool :=
  match n with
  | Some v => negb (v =? 0)
  | None => false
  end.

(** Truth value of an optional list: set and not empty. *)
Definition truthy_list {A} (l : option (list A)) : bool :=
  match l with
  | Some (_ :: _) => true
  | _ => false
  end.

Definition is_some {A} (o : option A) : bool :=
  match o with Some _ => true | None => false end.

(** [YearFilter.validate_year] *)
Definition validate_year (v : option Z) : result (option Z) :=
  match v with
  | Some y =>
      if (y <? 1800) || (y >? 2100)
      then Raise (ValidationError "Year must be between 1800 and 2100")
      else Ok v
  | None => Ok v
  end.

(** [YearFilter(year=.., year_min=.., year_max=..)]: the field validator
    runs on each of the three fields. *)
Definition YearFilter_new (y ymin ymax : option Z) : result YearFilter :=
  y' <- validate_year y ;;
  ymin' <- validate_year ymin ;;
  ymax' <- validate_year ymax ;;
  Ok (mkYearFilter y' ymin' ymax').

(** Python dicts keep insertion order: an association list in which
    [dict_set] overwrites an existing key in place and appends a new one. *)
Definition dict (V : Type) := list (string * V).

Fixpoint dict_get {V} (d : dict V) (k : string) : option V :=
  match d with
  | [] => None
  | (k', v) :: d' => if String.eqb k' k then Some v else dict_get d' k
  end.

Fixpoint dict_set {V} (d : dict V) (k : string) (v : V) : dict V :=
  match d with
  | [] => [(k, v)]
  | (k', v') :: d' =>
      if String.eqb k' k then (k', v) :: d' else (k', v') :: dict_set d' k v
  end.

Definition dict_has {V} (d : dict V) (k : string) : bool := is_some (dict_get d k).

(** The values an [applied_filters] entry takes: a string or an int. *)
Inductive FilterVal :=
| FStr (s : string)
| FInt (n : Z).

Module ExecutionResult.

Record t := mk {
  value : option float;
  values : option (dict float);
  unit : option string;
  applied_filters : dict FilterVal;
  record_count : Z;
  incomputable_metrics : option (list string);
  error : option string
}.

End ExecutionResult.

(** pydantic checks [values: Optional[Dict[str, float]]] when an
    [ExecutionResult] is constructed: every entry has to be a number, and
    [None] is not one. *)
Fixpoint validate_values (d : dict (option float)) : result (dict float) :=
  match d with
  | [] => Ok []
  | (k, Some v) :: d' => d'' <- validate_values d' ;; Ok ((k, v) :: d'')
  | (k, None) :: _ =>
      Raise (ValidationError ("values." ++ k ++ ": Input should be a valid number"))
  end.

(** [ExecutionResult(value=.., values=.., unit=.., ...)] *)
Definition ExecutionResult_new
    (value : option float) (values : option (dict (option float)))
    (unit : option string) (applied_filters : dict FilterVal)
    (record_count : Z) (incomputable_metrics : option (list string))
    (error : option string) : result ExecutionResult.t :=
  match values with
  | None =>
      Ok (ExecutionResult.mk value None unit applied_filters record_count
            incomputable_metrics error)
  | Some d =>
      d' <- validate_values d ;;
      Ok (ExecutionResult.mk value (Some d') unit applied_filters record_count
            incomputable_metrics error)
  end.

(* ================================================================= *)
(** * [api/execution_layer.py] *)

(** The dataframe after [_prepare_dataframe]: [columns] lists every column
    name; a row carries its [country] cell, its numeric [year] cell ([None]
    for a missing value) and its numeric cells by column name.  A cell that
    is missing or NaN is null for [dropna]. *)
Record Row := mkRow {
  row_country : option string;
  row_year : option Z;
  row_cells : dict float
}.

Record DataFrame := mkDataFrame {
  columns : list string;
  rows : list Row
}.

(** The non-null value of column [c] in row [r]. *)
Definition cell (c : string) (r : Row) : option float :=
  match dict_get (row_cells r) c with
  | Some v => if PrimFloat.is_nan v then None else Some v
  | None => None
  end.

(** The numeric kernels of pandas and numpy the execution layer calls, on
    a series without nulls.  [np_polyfit_slope years vals] is
    [np.polyfit(years, vals, 1)[0]], [None] when numpy raises. *)
Record Numerics := mkNumerics {
  pd_sum : list float -> float;
  pd_mean : list float -> float;
  pd_median : list float -> float;
  pd_min : list float -> float;
  pd_max : list float -> float;
  pd_std0 : list float -> float;
  pd_var0 : list float -> float;
  np_polyfit_slope : list Z -> list float -> option float
}.

(** First column, in dataframe order, that [p] accepts. *)
Definition first_col (p : string -> bool) (cols : list string) : option string :=
  find p cols.

(** [for candidate in cands: for col in cols: if col.lower() ==
    candidate.lower(): return col] *)
Fixpoint first_candidate (cands cols : list string) : option string :=
  match cands with
  | [] => None
  | cand :: cands' =>
      match first_col (fun col => String.eqb (Str.lower col) (Str.lower cand)) cols with
      | Some col => Some col
      | None => first_candidate cands' cols
      end
  end.

Definition or_else {A} (a b : option A) : option A :=
  match a with Some _ => a | None => b end.

(** The fallback test of [_get_column_name] on a lower-cased name. *)
Definition total_fallback (gas_str col_lower : string) : bool :=
  (String.eqb col_lower gas_str
   || Str.startswith (gas_str ++ "_") col_lower
   || Str.endswith ("_" ++ gas_str) col_lower)
  && (negb (Str.contains "cement" col_lower)
      && negb (Str.contains "coal" col_lower)
      && negb (Str.contains "oil" col_lower)
      && negb (Str.contains "gas" col_lower)).

(** [ExecutionLayer._get_column_name], over [self.df.columns]. *)
Definition _get_column_name (cols : list string)
    (gas : option Gas) (sector : option Sector) : option string :=
  match gas with
  | None => None
  | Some g =>
      let gas_str := Str.lower (Gas_value g) in
      let by_sector :=
        match sector with
        | Some TOTAL | None =>
            or_else
              (first_col (fun col => String.eqb (Str.lower col) gas_str) cols)
              (first_candidate
                 (map (fun suffix => gas_str ++ suffix) [""; "_emissions"; "_per_capita"])
                 cols)
        | Some CEMENT =>
            or_else
              (first_candidate ["cement_co2"; "cement_co2_per_capita"] cols)
              (first_col (fun col => Str.contains "cement" (Str.lower col)
                                     && Str.contains gas_str (Str.lower col)) cols)
        | Some TRANSPORT =>
            first_col (fun col => Str.contains "transport" (Str.lower col)
                                  && Str.contains gas_str (Str.lower col)) cols
        | Some ENERGY =>
            first_col (fun col => Str.contains "energy" (Str.lower col)
                                  && Str.contains gas_str (Str.lower col)) cols
        | Some AGRICULTURE =>
            first_col (fun col => (Str.contains "agriculture" (Str.lower col)
                                   || Str.contains "agricultural" (Str.lower col))
                                  && Str.contains gas_str (Str.lower col)) cols
        end in
      match by_sector with
      | Some col => Some col
      | None =>
          match sector with
          | Some TOTAL | None =>
              first_col (fun col => total_fallback gas_str (Str.lower col)) cols
          | _ => None
          end
      end
  end.

(** [ExecutionLayer._get_unit] *)
Definition _get_unit (column_name : string) : string :=
  if Str.contains "per_capita" (Str.lower column_name) then "tonnes per capita"
  else if Str.contains "co2" (Str.lower column_name) then "million tonnes"
  else "tonnes".

(** An [Optional[int]] read for its truth value: [None] and [0] are both
    false, as in [if intent.year_filter.year:]. *)
Definition nonzero (n : option Z) : option Z :=
  match n with
  | Some v => if v =? 0 then None else Some v
  | None => None
  end.

Definition country_is (c : string) (r : Row) : bool :=
  match row_country r with
  | Some c' => String.eqb c' c
  | None => false
  end.

(** A comparison of the [year] cell; a missing year compares false. *)
Definition year_cmp (cmp : Z -> bool) (r : Row) : bool :=
  match row_year r with
  | Some y => cmp y
  | None => false
  end.

(** The country filter of [execute]; [result_df['country']] raises
    [KeyError] when the dataframe has no such column.  The first component
    is [applied_filters] as the statement leaves it. *)
Definition apply_country_filter (cols : list string) (intent : QueryIntent)
    (result_df : list Row) (applied_filters : dict FilterVal)
  : dict FilterVal * result (list Row) :=
  match country intent with
  | Some (String _ _ as c) =>
      if Str.mem "country" cols
      then (dict_set applied_filters "country" (FStr c),
            Ok (filter (country_is c) result_df))
      else (applied_filters, Raise (KeyError "country"))
  | _ => (applied_filters, Ok result_df)
  end.

(** The year filter of [execute]: the [if]/[elif] chain on [year], then
    [year_min and year_max], then [year_min], then [year_max]. *)
Definition apply_year_filter (cols : list string) (intent : QueryIntent)
    (result_df : list Row) (applied_filters : dict FilterVal)
  : dict FilterVal * result (list Row) :=
  match year_filter intent with
  | None => (applied_filters, Ok result_df)
  | Some yf =>
      let on_year (p : Row -> bool) (k : string) (v : FilterVal) :=
        if Str.mem "year" cols
        then (dict_set applied_filters k v, Ok (filter p result_df))
        else (applied_filters, Raise (KeyError "year")) in
      match nonzero (year yf), nonzero (year_min yf), nonzero (year_max yf) with
      | Some y, _, _ =>
          on_year (year_cmp (fun v => v =? y)) "year" (FInt y)
      | None, Some lo, Some hi =>
          on_year (year_cmp (fun v => (v >=? lo) && (v <=? hi))) "year_range"
                  (FStr (Str.of_Z lo ++ "-" ++ Str.of_Z hi))
      | None, Some lo, None =>
          on_year (year_cmp (fun v => v >=? lo)) "year_min" (FInt lo)
      | None, None, Some hi =>
          on_year (year_cmp (fun v => v <=? hi)) "year_max" (FInt hi)
      | None, None, None => (applied_filters, Ok result_df)
      end
  end.

Fixpoint filter_map {A B} (f : A -> option B) (l : list A) : list B :=
  match l with
  | [] => []
  | a :: l' =>
      match f a with
      | Some b => b :: filter_map f l'
      | None => filter_map f l'
      end
  end.

(** [result_df[column_name].dropna()] *)
Definition column_values (c : string) (result_df : list Row) : list float :=
  filter_map (cell c) result_df.

(** [result_df[[column_name, 'year']].dropna(subset=[column_name, 'year'])] *)
Definition series_df (c : string) (result_df : list Row) : list (Z * float) :=
  filter_map (fun r =>
                match cell c r, row_year r with
                | Some v, Some y => Some (y, v)
                | _, _ => None
                end) result_df.

(** One row entering [groupby('year')], the groups kept in year order. *)
Fixpoint group_insert (y : Z) (v : float) (g : list (Z * list float))
  : list (Z * list float) :=
  match g with
  | [] => [(y, [v])]
  | (y', vs) :: g' =>
      if y <? y' then (y, [v]) :: g
      else if y =? y' then (y', (vs ++ [v])%list) :: g'
      else (y', vs) :: group_insert y v g'
  end.

Definition groupby_year (s : list (Z * float)) : list (Z * list float) :=
  fold_left (fun g yv => group_insert (fst yv) (snd yv) g) s [].

(** [series_df.groupby('year')[column_name].mean().sort_index()] *)
Definition time_series (K : Numerics) (c : string) (result_df : list Row)
  : list (Z * float) :=
  map (fun g => (fst g, pd_mean K (snd g))) (groupby_year (series_df c result_df)).

(** [v is None or (isinstance(v, float) and pd.isna(v))] *)
Definition is_null (v : option float) : bool :=
  match v with
  | Some x => PrimFloat.is_nan x
  | None => true
  end.

(** One turn of the loop [for m in metrics_to_compute]: the state is the
    pair of [results] and [incomputable]. *)
Definition metric_step (K : Numerics) (values : list float)
    (ts : option (list (Z * float)))
    (st : dict (option float) * list string) (m : Metric)
  : dict (option float) * list string :=
  let '(results, incomputable) := st in
  let metric_name := Metric_value m in
  let '(v, results) :=
    match m with
    | SUM => (Some (pd_sum K values), results)
    | AVERAGE => (Some (pd_mean K values), results)
    | MEDIAN => (Some (pd_median K values), results)
    | MIN => (Some (pd_min K values), results)
    | MAX => (Some (pd_max K values), results)
    | STD => (Some (pd_std0 K values), results)
    | VARIANCE => (Some (pd_var0 K values), results)
    | RANGE => (Some (pd_max K values - pd_min K values)%float, results)
    | CHANGE =>
        match ts with
        | Some (((_, first) :: _ :: _) as t) =>
            let last := snd (List.last t (0, first)) in
            let v := (last - first)%float in
            let pct :=
              if negb (PrimFloat.eqb first 0)
              then Some ((last - first) / first * 100)%float
              else None in
            (Some v,
             match pct with
             | Some p => dict_set results (metric_name ++ "_pct") (Some p)
             | None => results
             end)
        | _ => (None, results)
        end
    | TREND =>
        match ts with
        | Some ((_ :: _ :: _) as t) =>
            (np_polyfit_slope K (map fst t) (map snd t), results)
        | _ => (None, results)
        end
    end in
  if is_null v
  then (dict_set results metric_name None, (incomputable ++ [metric_name])%list)
  else (dict_set results metric_name v, incomputable).

(** The whole loop, from empty [results] and [incomputable]. *)
Definition compute_metrics (K : Numerics) (values : list float)
    (ts : option (list (Z * float))) (metrics_to_compute : list Metric)
  : dict (option float) * list string :=
  fold_left (metric_step K values ts) metrics_to_compute ([], []).

(** [intent.metrics] when it is a non-empty list, else [[intent.metric]],
    else [[Metric.SUM]]. *)
Definition metrics_to_compute (intent : QueryIntent) : list Metric :=
  match metrics intent with
  | Some ((_ :: _) as ms) => ms
  | _ =>
      match metric intent with
      | Some m => [m]
      | None => [SUM]
      end
  end.

Definition len {A} (l : list A) : Z := Z.of_nat (List.length l).

(** The result of the outer [except Exception as e] of [execute]. *)
Definition execution_failed (e : exn) (applied_filters : dict FilterVal)
  : ExecutionResult.t :=
  ExecutionResult.mk None None None applied_filters 0 None
    (Some ("Execution failed: " ++ exn_str e)).

Definition column_not_found (shown : string) (applied_filters : dict FilterVal)
    (record_count : Z) : ExecutionResult.t :=
  ExecutionResult.mk None None None applied_filters record_count None
    (Some ("Column '" ++ shown ++ "' not found in dataset")).

Definition no_data (applied_filters : dict FilterVal) : ExecutionResult.t :=
  ExecutionResult.mk None None None applied_filters 0 None
    (Some "No data available for the specified filters").

(** The tail of [execute]: build the [ExecutionResult] from the loop's
    [results] and mirror a single entry into [value]. *)
Definition build_result (results : dict (option float)) (incomputable : list string)
    (unit : string) (applied_filters : dict FilterVal) (record_count : Z)
  : result ExecutionResult.t :=
  exec_result <-
    ExecutionResult_new None (Some results) (Some unit) applied_filters record_count
      (match incomputable with [] => None | _ => Some incomputable end) None ;;
  match results with
  | [(_, single_val)] =>
      Ok (ExecutionResult.mk single_val
            (ExecutionResult.values exec_result)
            (ExecutionResult.unit exec_result)
            (ExecutionResult.applied_filters exec_result)
            (ExecutionResult.record_count exec_result)
            (ExecutionResult.incomputable_metrics exec_result)
            (ExecutionResult.error exec_result))
  | _ => Ok exec_result
  end.

(** Both filters of [execute], one after the other: [applied_filters] as
    the last statement run leaves it, and the filtered rows unless a
    column lookup raised. *)
Definition apply_filters (df : DataFrame) (intent : QueryIntent)
  : dict FilterVal * result (list Row) :=
  let '(applied_filters, r) := apply_country_filter (columns df) intent (rows df) [] in
  match r with
  | Raise e => (applied_filters, Raise e)
  | Ok result_df => apply_year_filter (columns df) intent result_df applied_filters
  end.

(** [execute] from the column lookup on, over the filtered rows. *)
Definition aggregate (K : Numerics) (df : DataFrame) (intent : QueryIntent)
    (applied_filters : dict FilterVal) (result_df : list Row) : ExecutionResult.t :=
  match _get_column_name (columns df) (gas intent) (sector intent) with
  | None => column_not_found "None" applied_filters (len result_df)
  | Some column_name =>
  if negb (Str.mem column_name (columns df))
  then column_not_found column_name applied_filters (len result_df)
  else
    let values := column_values column_name result_df in
    if len values =? 0 then no_data applied_filters
    else
      let unit := _get_unit column_name in
      let ts :=
        if Str.mem "year" (columns df)
        then Some (time_series K column_name result_df)
        else None in
      let '(results, incomputable) :=
        compute_metrics K values ts (metrics_to_compute intent) in
      try_except
        (build_result results incomputable unit applied_filters (len values))
        (fun e => execution_failed e applied_filters)
  end.

(** [ExecutionLayer.execute] *)
Definition execute (K : Numerics) (df : DataFrame) (intent : QueryIntent)
  : ExecutionResult.t :=
  let '(applied_filters, r) := apply_filters df intent in
  match r with
  | Raise e => execution_failed e applied_filters
  | Ok result_df => aggregate K df intent applied_filters result_df
  end.

(* ================================================================= *)
(** * [api/validation_layer.py] *)

(** The [normalized_intent] dict of a successful validation. *)
Inductive Normalized :=
| NType (type : string)
| NExplanatory (country : option string) (gas : option Gas) (sector : Sector)
    (metric : option Metric) (year_filter : option YearFilter)
| NData (country : option string) (gas : option Gas) (sector : Sector)
    (metric : option Metric) (metrics : option (list Metric))
    (year_filter : option YearFilter) (low_confidence : bool).

(** The dict [validate_intent] returns: a failure carries [errors],
    [needs_clarification] and [clarification_question]; a success carries
    [normalized_intent]. *)
Inductive Validation :=
| VFailure (errors : list string) (needs_clarification : bool)
    (clarification_question : string)
| VSuccess (normalized_intent : Normalized).

Definition sector_or_total (s : option Sector) : Sector :=
  match s with Some x => x | None => TOTAL end.

Definition join_comma (l : list string) : string := String.concat ", " l.

(** The text of a list of strings inside an f-string. *)
Definition repr_list (l : list string) : string :=
  "[" ++ join_comma (map (fun s => "'" ++ s ++ "'") l) ++ "]".

(** [ValidationLayer.validate_intent], on an intent that is a
    [QueryIntent] (the two type checks in front cannot fire on one). *)
Definition validate_intent (intent : QueryIntent) : Validation :=
  if is_greeting intent
     && negb (truthy_str (country intent) || is_some (gas intent)
              || is_some (metric intent) || truthy_list (metrics intent)
              || is_some (year_filter intent))
  then VSuccess (NType "greeting")
  else if is_small_talk intent then VSuccess (NType "small_talk")
  else if is_explanatory intent then
    VSuccess (NExplanatory (country intent) (gas intent)
                (sector_or_total (sector intent)) (metric intent)
                (year_filter intent))
  else if needs_clarification intent then
    VFailure ["needs clarification"] true
      (match clarification_question intent with
       | Some (String _ _ as q) => q
       | _ => "could you clarify your request?"
       end)
  else
    let missing :=
      ((if is_some (country intent) then [] else ["country"])
       ++ (if is_some (gas intent) then [] else ["gas"]))%list in
    if negb (Nat.eqb (List.length missing) 0) && needs_clarification intent then
      VFailure ["missing required fields: " ++ repr_list missing] true
        ("please specify the following: " ++ join_comma missing ++ ".")
    else
      let low_confidence := negb (Nat.eqb (List.length missing) 0) in
      VSuccess (NData (country intent) (gas intent)
                  (sector_or_total (sector intent)) (metric intent)
                  (metrics intent) (year_filter intent) low_confidence).

(** [QueryIntent] built from the unpacked [normalized] dict: keys the model
    does not declare are ignored, the other fields take their defaults. *)
Definition QueryIntent_of_normalized (n : Normalized) : QueryIntent :=
  match n with
  | NType _ => QueryIntent_default
  | NExplanatory c g s m yf =>
      mkQueryIntent c g (Some s) m None yf false false false false false None
  | NData c g s m ms yf lc =>
      mkQueryIntent c g (Some s) m ms yf false false false lc false None
  end.

(** [bool(normalized.get('low_confidence'))] *)
Definition low_confidence_flag (n : Normalized) : bool :=
  match n with
  | NData _ _ _ _ _ _ lc => lc
  | _ => false
  end.

(* ================================================================= *)
(** * [api/conversation_layer.py] *)

(** [is_underspecified] *)
Definition is_underspecified (intent : QueryIntent) : bool :=
  let has_country := truthy_str (country intent) in
  let has_year :=
    match year_filter intent with
    | Some yf =>
        is_some (year yf) || (is_some (year_min yf) || is_some (year_max yf))
    | None => false
    end in
  let has_metric := is_some (metric intent) || truthy_list (metrics intent) in
  let has_sector := is_some (sector intent) in
  negb (has_country || has_year || has_metric || has_sector).

Definition greeting_text : string :=
  "Hello! I'm CarbonLens, your emissions data assistant. "
  ++ "I can help you explore CO2 emissions data by country, sector, and time period. "
  ++ "What would you like to know?".

Definition small_talk_text : string :=
  "I can chat about climate topics and help with emissions data. "
  ++ "If you want a quick data look, ask for a country or comparison "
  ++ "— otherwise feel free to ask why something might be happening.".

(* ================================================================= *)
(** * [api/views_refactored.py]: the routing of [QueryView.post] *)

(** The branch [post] takes once an [ExecutionResult] is at hand. *)
Inductive RouterState :=
| ExecutionError
| LowConfidenceData
| LowConfidenceFallback
| IncomputableFallback
| EmptyFallback
| Data.

(** The [if] cascade of [post] after [executor.execute(qi)]. *)
Definition route (low_confidence_flag : bool) (result : ExecutionResult.t)
  : RouterState :=
  if truthy_str (ExecutionResult.error result) then ExecutionError
  else if low_confidence_flag then
    let values :=
      match ExecutionResult.values result with Some d => d | None => [] end in
    let has_computed := existsb (fun _ => true) values in
    if (ExecutionResult.record_count result >? 0) && has_computed
    then LowConfidenceData
    else LowConfidenceFallback
  else if truthy_list (ExecutionResult.incomputable_metrics result)
  then IncomputableFallback
  else if ExecutionResult.record_count result =? 0 then EmptyFallback
  else Data.

(** What [post] answers. *)
Inductive Response :=
| GreetingResponse (text : string)
| SmallTalkResponse (text : string)
| ExplanatoryResponse (text : string)
| ClarificationResponse (question : string)
| BadRequest (error : string)
| BadGateway (error : string)
| FallbackResponse (state : RouterState) (explanation : string)
| DataResponse (state : RouterState) (result : ExecutionResult.t).

(** The layers [post] calls, in call order. *)
Inductive Call :=
| CallExplain
| CallValidate
| CallExecute.

Definition underspecified_question : string :=
  "I need a bit more detail to answer. Please specify at least one of: "
  ++ "a country, a year or year range, an aggregation metric "
  ++ "(e.g. sum, average, standard deviation), or a sector.".

Definition gateway_error : string :=
  "external model failure: no response from Gemini".

(** The follow-up merge of [post]: an explanatory intent takes the
    country, gas and sector it lacks from the last intent. *)
Definition merge_followup (last_intent : option QueryIntent) (intent : QueryIntent)
  : QueryIntent :=
  match last_intent with
  | Some li =>
      if is_explanatory intent then
        mkQueryIntent
          (if negb (truthy_str (country intent)) && truthy_str (country li)
           then country li else country intent)
          (if negb (is_some (gas intent)) && is_some (gas li)
           then gas li else gas intent)
          (if negb (is_some (sector intent)) && is_some (sector li)
           then sector li else sector intent)
          (metric intent) (metrics intent) (year_filter intent)
          (is_greeting intent) (is_small_talk intent) (is_explanatory intent)
          (low_confidence intent) (needs_clarification intent)
          (clarification_question intent)
      else intent
  | None => intent
  end.

Section View.

(** The numeric kernels, and the expert-explanation collaborator
    [ConversationLayer.generate_expert_explanation]: [None] stands for its
    [ExternalModelError]. *)
Variable K : Numerics.
Variable generate_expert_explanation : string -> QueryIntent -> option string.

Definition explain_or_502 (state : RouterState) (user_query : string)
    (qi : QueryIntent) : Response :=
  match generate_expert_explanation user_query qi with
  | Some text => FallbackResponse state text
  | None => BadGateway gateway_error
  end.

(** [QueryView.post] from the extracted intent on: the calls it makes and
    the response it returns. *)
Definition post (df : DataFrame) (last_intent : option QueryIntent)
    (user_query : string) (extracted : QueryIntent) : list Call * Response :=
  let intent := merge_followup last_intent extracted in
  if is_greeting intent then ([], GreetingResponse greeting_text)
  else if is_small_talk intent then ([], SmallTalkResponse small_talk_text)
  else if is_explanatory intent then
    ([CallExplain],
     match generate_expert_explanation user_query intent with
     | Some text => ExplanatoryResponse text
     | None => BadGateway gateway_error
     end)
  else if is_underspecified intent then
    ([], ClarificationResponse underspecified_question)
  else
    match validate_intent intent with
    | VFailure errors needs_clar question =>
        ([CallValidate],
         if needs_clar then ClarificationResponse question
         else BadRequest (String.concat "; " errors))
    | VSuccess normalized =>
        let qi := QueryIntent_of_normalized normalized in
        let result := execute K df qi in
        match route (low_confidence_flag normalized) result with
        | (LowConfidenceData | Data) as state =>
            ([CallValidate; CallExecute], DataResponse state result)
        | state =>
            ([CallValidate; CallExecute; CallExplain],
             explain_or_502 state user_query qi)
        end
    end.

End View.

(* ================================================================= *)
(** * [api/intent_extraction_layer.py]: the heuristic path *)

(** What [get_schema_metadata] hands to the extractor: the country names
    and the year range of the dataset.  Its ["gases"] entry is always the
    list of the [Gas] values. *)
Record SchemaMetadata := mkSchemaMetadata {
  countries : list string;
  year_range : option (Z * Z)
}.

Definition gases : list string := map Gas_value all_gases.

(** ** Regular expressions

    Each pattern of the extractor is a scanner: it reads a prefix of the
    text and returns its captures with the rest.  None of the patterns
    needs backtracking: a greedy [\s+] or [\d+] is always followed by a
    character outside its class. *)
Definition scanner (A : Type) := string -> option (A * string).

Definition lit (w : string) : scanner unit :=
  fun s =>
    match Str.strip_prefix w s with
    | Some s' => Some (tt, s')
    | None => None
    end.

(** [\s+] *)
Definition spaces1 : scanner unit :=
  fun s =>
    match s with
    | String c s' => if Str.is_space c then Some (tt, Str.lstrip s') else None
    | EmptyString => None
    end.

Definition digit_val (c : ascii) : Z := Z.of_nat (nat_of_ascii c) - 48.

(** [(\d)], one digit, with the number read so far. *)
Definition digit (acc : Z) : scanner Z :=
  fun s =>
    match s with
    | String c s' => if Str.is_digit c then Some (10 * acc + digit_val c, s') else None
    | EmptyString => None
    end.

Definition then_ {A B} (p : scanner A) (q : A -> scanner B) : scanner B :=
  fun s =>
    match p s with
    | Some (a, s') => q a s'
    | None => None
    end.

Notation "x <~ p ; q" := (then_ p (fun x => q))
  (at level 61, p at next level, right associativity).

Definition yield {A} (a : A) : scanner A := fun s => Some (a, s).

(** [(\d{4})] and its [int(...)] *)
Definition digits4 : scanner Z :=
  a <~ digit 0 ; b <~ digit a ; c <~ digit b ; digit c.

(** The rest of a greedy [\d+], after its first digit. *)
Fixpoint more_digits (acc : Z) (s : string) : Z * string :=
  match s with
  | String c s' =>
      if Str.is_digit c then more_digits (10 * acc + digit_val c) s' else (acc, s)
  | EmptyString => (acc, s)
  end.

(** [(\d+)] and its [int(...)] *)
Definition digits1 : scanner Z :=
  d <~ digit 0 ; fun s => Some (more_digits d s).

(** [re.search]: the leftmost position where the pattern matches. *)
Fixpoint search {A} (p : scanner A) (s : string) : option A :=
  match p s with
  | Some (a, _) => Some a
  | None =>
      match s with
      | EmptyString => None
      | String _ s' => search p s'
      end
  end.

(** [from\s+(\d{4})\s+to\s+(\d{4})] *)
Definition re_from_to : scanner (Z * Z) :=
  _ <~ lit "from" ; _ <~ spaces1 ; y1 <~ digits4 ; _ <~ spaces1 ;
  _ <~ lit "to" ; _ <~ spaces1 ; y2 <~ digits4 ; yield (y1, y2).

(** [between\s+(\d{4})\s+and\s+(\d{4})] *)
Definition re_between_and : scanner (Z * Z) :=
  _ <~ lit "between" ; _ <~ spaces1 ; y1 <~ digits4 ; _ <~ spaces1 ;
  _ <~ lit "and" ; _ <~ spaces1 ; y2 <~ digits4 ; yield (y1, y2).

(** [last\s+(\d+)\s+years?]: the optional [s] never decides the match. *)
Definition re_last_n_years : scanner Z :=
  _ <~ lit "last" ; _ <~ spaces1 ; n <~ digits1 ; _ <~ spaces1 ;
  _ <~ lit "year" ; yield n.

(** The [\b] after a word character: the end of the text or a character
    that is not a word character. *)
Definition boundary_after (s : string) : bool :=
  match s with
  | EmptyString => true
  | String c _ => negb (Str.is_word c)
  end.

(** [(19|20)\d{2}\b] at the head of [s], with [int(m3.group(0))]. *)
Definition bare_year_here (s : string) : option Z :=
  match s with
  | String a (String b (String c (String d rest))) =>
      if ((Ascii.eqb a "1" && Ascii.eqb b "9") || (Ascii.eqb a "2" && Ascii.eqb b "0"))
         && Str.is_digit c && Str.is_digit d && boundary_after rest
      then Some (1000 * digit_val a + 100 * digit_val b + 10 * digit_val c + digit_val d)
      else None
  | _ => None
  end.

(** [re.search(r'\b(19|20)\d{2}\b', ...)]: [prev_word] tells whether the
    character before [s] is a word character, where the leading [\b]
    cannot hold. *)
Fixpoint search_bare_year (prev_word : bool) (s : string) : option Z :=
  match s with
  | EmptyString => None
  | String c s' =>
      match (if prev_word then None else bare_year_here s) with
      | Some y => Some y
      | None => search_bare_year (Str.is_word c) s'
      end
  end.

Definition greeting_words : list string :=
  ["hi"; "hello"; "hey"; "good morning"; "good afternoon"; "good evening"].

Definition is_greeting_tail (c : ascii) : bool :=
  Ascii.eqb c "." || Ascii.eqb c "!" || Ascii.eqb c "?" || Str.is_space c.

(** [greeting_re.match]: one of the greeting words, then only characters
    of [[\.!?\s]] up to the end.  No greeting word is a prefix of another,
    so the alternatives need no backtracking. *)
Definition greeting_re_match (s : string) : bool :=
  existsb (fun w =>
             match lit w s with
             | Some (_, rest) => Str.all_chars is_greeting_tail rest
             | None => false
             end) greeting_words.

(** ** The candidate dict and its validation *)

(** The [year_filter] entry of [intent_dict]. *)
Record YearFilterDict := mkYearFilterDict {
  yfd_year : option Z;
  yfd_year_min : option Z;
  yfd_year_max : option Z
}.

(** [intent_dict] as the heuristic path fills it: a key that was never
    set is [None]. *)
Record IntentDict := mkIntentDict {
  d_country : option string;
  d_gas : option string;
  d_sector : option string;
  d_metric : option string;
  d_metrics : option (list string);
  d_year_filter : option YearFilterDict;
  d_is_explanatory : option bool;
  d_is_small_talk : option bool;
  d_is_greeting : option bool;
  d_needs_clarification : option bool;
  d_clarification_question : option string
}.

(** An enum field: the member with that value, or a validation error. *)
Definition validate_enum {A} (field : string) (of_value : string -> option A)
    (v : option string) : result (option A) :=
  match v with
  | None => Ok None
  | Some s =>
      match of_value s with
      | Some a => Ok (Some a)
      | None => Raise (ValidationError (field ++ ": Input should be one of the enum values"))
      end
  end.

Fixpoint validate_metric_list (l : list string) : result (list Metric) :=
  match l with
  | [] => Ok []
  | s :: l' =>
      match Metric_of_value s with
      | Some m => ms <- validate_metric_list l' ;; Ok (m :: ms)
      | None => Raise (ValidationError "metrics: Input should be one of the enum values")
      end
  end.

Definition flag (b : option bool) : bool :=
  match b with Some x => x | None => false end.

(** [QueryIntent] built from the unpacked [intent_dict]: pydantic turns
    the strings into enum members and the [year_filter] dict into a
    [YearFilter], running [validate_year]. *)
Definition QueryIntent_of_dict (d : IntentDict) : result QueryIntent :=
  g <- validate_enum "gas" Gas_of_value (d_gas d) ;;
  s <- validate_enum "sector" Sector_of_value (d_sector d) ;;
  m <- validate_enum "metric" Metric_of_value (d_metric d) ;;
  ms <- match d_metrics d with
        | None => Ok None
        | Some l => l' <- validate_metric_list l ;; Ok (Some l')
        end ;;
  yf <- match d_year_filter d with
        | None => Ok None
        | Some y =>
            y' <- YearFilter_new (yfd_year y) (yfd_year_min y) (yfd_year_max y) ;;
            Ok (Some y')
        end ;;
  Ok (mkQueryIntent (d_country d) g s m ms yf
        (flag (d_is_greeting d)) (flag (d_is_small_talk d))
        (flag (d_is_explanatory d)) false
        (flag (d_needs_clarification d)) (d_clarification_question d)).

(** ** The heuristics *)

Definition nonempty (s : string) : bool :=
  match s with EmptyString => false | String _ _ => true end.

(** The country loop: the first of the first 200 names found in the query. *)
Definition infer_country (names : list string) (uq : string) : option string :=
  find (fun c => nonempty c && Str.contains (Str.lower c) uq) (firstn 200 names).

(** The alias written with a subscript two. *)
Definition co2_subscript : string := "co₂".

(** The gas loop, then the aliases with [setdefault]. *)
Definition infer_gas (uq : string) : option string :=
  or_else
    (find (fun g => nonempty g && Str.contains (Str.lower g) uq) gases)
    (if Str.contains "carbon dioxide" uq || Str.contains co2_subscript uq
        || Str.contains "co2" uq
     then Some "co2" else None).

Definition metric_map : list (string * string) :=
  [("average", "average"); ("avg", "average"); ("mean", "average");
   ("sum", "sum"); ("total", "sum");
   ("median", "median");
   ("max", "max"); ("maximum", "max"); ("highest", "max");
   ("min", "min"); ("minimum", "min"); ("lowest", "min");
   ("std", "std"); ("standard deviation", "std"); ("spread", "std");
   ("variance", "variance"); ("variation", "variance");
   ("trend", "trend"); ("over time", "trend");
   ("change", "change"); ("growth", "change"); ("increase", "change");
   ("range", "range"); ("difference", "range")].

(** [detected_metrics]: the metrics whose phrase occurs, in table order,
    each once. *)
Definition detect_metrics (uq : string) : list string :=
  fold_left
    (fun detected pm =>
       if Str.contains (fst pm) uq && negb (Str.mem (snd pm) detected)
       then (detected ++ [snd pm])%list else detected)
    metric_map [].

(** The year references, in the order the extractor tries them. *)
Definition parse_year_filter (yrmax : option Z) (uq : string) : option YearFilterDict :=
  match or_else (search re_from_to uq) (search re_between_and uq) with
  | Some (y1, y2) => Some (mkYearFilterDict None (Some (Z.min y1 y2)) (Some (Z.max y1 y2)))
  | None =>
      match search re_last_n_years uq, nonzero yrmax with
      | Some n, Some ymax =>
          Some (mkYearFilterDict None (Some (Z.max (ymax - n + 1) 0)) (Some ymax))
      | _, _ =>
          if Str.contains "last year" uq && is_some (nonzero yrmax)
          then Some (mkYearFilterDict yrmax None None)
          else
            match search_bare_year false uq with
            | Some y => Some (mkYearFilterDict (Some y) None None)
            | None => None
            end
      end
  end.

Definition compute_kw : list string :=
  ["average"; "avg"; "mean"; "sum"; "total"; "trend"; "compare"; "versus"; "vs";
   "per capita"; "rate"; "highest"; "lowest"; "max"; "min"; "median"; "std";
   "variance"; "change"; "range"].

Definition explain_kw : list string :=
  ["why"; "how"; "cause"; "causes"; "explain"; "reason"; "because"; "impact";
   "affect"; "describe"; "what are"; "what is"; "tell me about"; "types of";
   "define"].

Definition general_question_phrases : list string :=
  ["what are"; "what is"; "tell me about"; "describe"; "types of"].

(** The dict the heuristic path builds from the query. *)
Definition heuristic_intent_dict (schema_metadata : SchemaMetadata)
    (user_query : string) : IntentDict :=
  let uq := Str.lower user_query in
  let country := infer_country (countries schema_metadata) uq in
  let gas := infer_gas uq in
  let detected_metrics := detect_metrics uq in
  let metrics := match detected_metrics with [] => None | _ => Some detected_metrics end in
  let metric := match detected_metrics with [] => None | m :: _ => Some m end in
  let sector :=
    match gas with
    | Some g => if String.eqb (Str.lower g) "co2" then Some "total" else None
    | None => None
    end in
  let yrmax := match year_range schema_metadata with
               | Some (_, ymax) => Some ymax
               | None => None
               end in
  let year_filter := parse_year_filter yrmax uq in
  let is_explanatory :=
    Str.any_in explain_kw uq && negb (Str.any_in compute_kw uq) in
  let is_general :=
    Str.any_in general_question_phrases uq
    && negb (Str.any_in (["co2"; "methane"; "n2o"] ++ compute_kw)%list uq) in
  let has_data_tokens :=
    is_some country || is_some gas || is_some metric || is_some metrics
    || is_some year_filter in
  let is_greeting := greeting_re_match (Str.strip uq) && negb has_data_tokens in
  let needs_clar :=
    Str.any_in compute_kw uq && (negb (is_some country) || negb (is_some gas)) in
  mkIntentDict country gas sector metric metrics year_filter
    (Some (is_explanatory || is_general)) (Some false) (Some is_greeting)
    (Some needs_clar) None.

(** [extract_intent] when no provider is available. *)
Definition extract_intent_heuristic (schema_metadata : SchemaMetadata)
    (user_query : string) : result QueryIntent :=
  QueryIntent_of_dict (heuristic_intent_dict schema_metadata user_query).

(* ================================================================= *)
(** * [api/intent_extraction_layer.py]: the provider path *)

(** An entry of the dict a provider proposes: the key is missing, holds
    JSON [null], or holds a value. *)
Inductive entry (T : Type) :=
| Absent
| Null
| Val (v : T).

Arguments Absent {T}.
Arguments Null {T}.
Arguments Val {T} v.

(** [d.get(k)] for its truth value, on strings and lists. *)
Definition entry_str (e : entry string) : option string :=
  match e with
  | Val (String _ _ as s) => Some s
  | _ => None
  end.

Definition entry_truthy_list {A} (e : entry (list A)) : bool :=
  match e with
  | Val (_ :: _) => true
  | _ => false
  end.

(** [d.setdefault(k, v)]: only a missing key takes the default. *)
Definition setdefault {T} (e : entry T) (v : entry T) : entry T :=
  match e with
  | Absent => v
  | _ => e
  end.

Record YearFilterProposal := mkYearFilterProposal {
  yp_year : entry Z;
  yp_year_min : entry Z;
  yp_year_max : entry Z
}.

(** The proposals covered: JSON objects whose entries, when present and
    not null, have the JSON type of the [QueryIntent] field. *)
Record Proposal := mkProposal {
  p_country : entry string;
  p_gas : entry string;
  p_sector : entry string;
  p_metric : entry string;
  p_metrics : entry (list string);
  p_year_filter : entry YearFilterProposal;
  p_is_greeting : entry bool;
  p_is_small_talk : entry bool;
  p_is_explanatory : entry bool;
  p_low_confidence : entry bool;
  p_needs_clarification : entry bool;
  p_clarification_question : entry string
}.

(** What [self.llm.generate] gives back, as far as [extract_intent] tells
    the cases apart. *)
Inductive LLMReply :=
| GenerateRaises (e : exn)
| NotADict
| Unsuccessful (error : string)
| NoResponse
| InvalidResponseType
| Unparsable
| NotAnObject
| Proposed (p : Proposal).

(** [intent_dict.setdefault('year_filter', {})[k] = v]: item assignment
    on [None] raises. *)
Definition update_year_filter (f : YearFilterProposal -> YearFilterProposal)
    (e : entry YearFilterProposal) : result (entry YearFilterProposal) :=
  match e with
  | Absent => Ok (Val (f (mkYearFilterProposal Absent Absent Absent)))
  | Null => Raise (TypeError "'NoneType' object does not support item assignment")
  | Val yp => Ok (Val (f yp))
  end.

Definition set_yp_year (v : Z) (yp : YearFilterProposal) : YearFilterProposal :=
  mkYearFilterProposal (Val v) (yp_year_min yp) (yp_year_max yp).

Definition set_yp_range (lo hi : Z) (yp : YearFilterProposal) : YearFilterProposal :=
  mkYearFilterProposal (yp_year yp) (Val lo) (Val hi).

(** The year references on the provider path. *)
Definition patch_year_filter (yrmax : option Z) (uq : string)
    (e : entry YearFilterProposal) : result (entry YearFilterProposal) :=
  match or_else (search re_from_to uq) (search re_between_and uq) with
  | Some (y1, y2) => update_year_filter (set_yp_range (Z.min y1 y2) (Z.max y1 y2)) e
  | None =>
      match search re_last_n_years uq, nonzero yrmax with
      | Some n, Some ymax =>
          update_year_filter (set_yp_range (Z.max (ymax - n + 1) 0) ymax) e
      | _, _ =>
          match (if Str.contains "last year" uq then nonzero yrmax else None) with
          | Some ymax => update_year_filter (set_yp_year ymax) e
          | None =>
              match search_bare_year false uq with
              | Some y => update_year_filter (set_yp_year y) e
              | None => Ok e
              end
          end
      end
  end.

Definition explain_kw_provider : list string :=
  ["why"; "how"; "cause"; "causes"; "explain"; "reason"; "because"; "impact"; "affect"].

(** An optional field: missing and [null] both give [None]. *)
Definition optional {T} (e : entry T) : option T :=
  match e with
  | Val v => Some v
  | _ => None
  end.

(** A [bool] field with default [False]: [null] is not a bool. *)
Definition validate_flag (field : string) (e : entry bool) : result bool :=
  match e with
  | Absent => Ok false
  | Val b => Ok b
  | Null => Raise (ValidationError (field ++ ": Input should be a valid boolean"))
  end.

(** [QueryIntent] built from the unpacked proposal. *)
Definition QueryIntent_of_proposal (p : Proposal) : result QueryIntent :=
  g <- validate_enum "gas" Gas_of_value (optional (p_gas p)) ;;
  s <- validate_enum "sector" Sector_of_value (optional (p_sector p)) ;;
  m <- validate_enum "metric" Metric_of_value (optional (p_metric p)) ;;
  ms <- match optional (p_metrics p) with
        | None => Ok None
        | Some l => l' <- validate_metric_list l ;; Ok (Some l')
        end ;;
  yf <- match optional (p_year_filter p) with
        | None => Ok None
        | Some y =>
            y' <- YearFilter_new (optional (yp_year y)) (optional (yp_year_min y))
                    (optional (yp_year_max y)) ;;
            Ok (Some y')
        end ;;
  gr <- validate_flag "is_greeting" (p_is_greeting p) ;;
  st <- validate_flag "is_small_talk" (p_is_small_talk p) ;;
  ex <- validate_flag "is_explanatory" (p_is_explanatory p) ;;
  lc <- validate_flag "low_confidence" (p_low_confidence p) ;;
  nc <- validate_flag "needs_clarification" (p_needs_clarification p) ;;
  Ok (mkQueryIntent (optional (p_country p)) g s m ms yf gr st ex lc nc
        (optional (p_clarification_question p))).

(** The heuristic normalization of a proposal, then its validation. *)
Definition normalize_proposal (schema_metadata : SchemaMetadata)
    (user_query : string) (p : Proposal) : result QueryIntent :=
  let uq := Str.lower user_query in
  let country :=
    match entry_str (p_country p) with
    | Some _ => p_country p
    | None =>
        match infer_country (countries schema_metadata) uq with
        | Some c => Val c
        | None => p_country p
        end
    end in
  let gas :=
    match entry_str (p_gas p) with
    | Some _ => p_gas p
    | None =>
        match infer_gas uq with
        | Some g => Val g
        | None => p_gas p
        end
    end in
  let detected_metrics :=
    match entry_str (p_metric p) with
    | Some _ => []
    | None => detect_metrics uq
    end in
  let metrics :=
    match detected_metrics with [] => p_metrics p | _ => Val detected_metrics end in
  let metric :=
    match detected_metrics with [] => p_metric p | m :: _ => Val m end in
  let sector :=
    match entry_str (p_sector p), entry_str gas with
    | None, Some g => if String.eqb (Str.lower g) "co2" then Val "total" else p_sector p
    | _, _ => p_sector p
    end in
  let yrmax := match year_range schema_metadata with
               | Some (_, ymax) => Some ymax
               | None => None
               end in
  year_filter <- patch_year_filter yrmax uq (p_year_filter p) ;;
  let is_explanatory :=
    Str.any_in explain_kw_provider uq && negb (Str.any_in compute_kw uq) in
  let has_data_tokens :=
    is_some (entry_str country) || is_some (entry_str gas)
    || is_some (entry_str metric) || entry_truthy_list metrics
    || match year_filter with
       | Val yp =>
           negb (match yp_year yp, yp_year_min yp, yp_year_max yp with
                 | Absent, Absent, Absent => true
                 | _, _, _ => false
                 end)
       | _ => false
       end in
  let is_greeting := greeting_re_match (Str.strip uq) && negb has_data_tokens in
  let needs_clar :=
    Str.any_in compute_kw uq
    && (negb (is_some (entry_str country)) || negb (is_some (entry_str gas))) in
  QueryIntent_of_proposal
    (mkProposal country gas sector metric metrics year_filter
       (setdefault (p_is_greeting p) (Val is_greeting))
       (p_is_small_talk p)
       (setdefault (p_is_explanatory p) (Val is_explanatory))
       (p_low_confidence p)
       (setdefault (p_needs_clarification p) (Val needs_clar))
       (setdefault (p_clarification_question p) Null)).

(** The body of the [try] block of the provider path. *)
Definition provider_body (schema_metadata : SchemaMetadata) (user_query : string)
    (reply : LLMReply) : result QueryIntent :=
  match reply with
  | GenerateRaises e => Raise e
  | NotADict => Raise (TypeError "llm.generate did not return a dict")
  | Unsuccessful error => Raise (RuntimeError error)
  | NoResponse => Raise (ValueError "empty llm response")
  | InvalidResponseType => Raise (TypeError "invalid llm response type")
  | Unparsable => Raise JSONDecodeError
  | NotAnObject => Raise (OtherError "object has no attribute 'get'")
  | Proposed p => normalize_proposal schema_metadata user_query p
  end.

Definition clarification_intent (question : string) : QueryIntent :=
  mkQueryIntent None None None None None None false false false false true
    (Some question).

(** The two [except] clauses. *)
Definition extraction_handler (e : exn) : QueryIntent :=
  match e with
  | JSONDecodeError =>
      clarification_intent "i couldn't parse that request. could you rephrase it?"
  | _ =>
      clarification_intent
        "something went wrong while processing your query. please try again."
  end.

(** [IntentExtractionLayer.extract_intent]: [provider] is [None] when no
    provider is available, else the reply its [generate] gives to this
    query. *)
Definition extract_intent (provider : option LLMReply)
    (schema_metadata : SchemaMetadata) (user_query : string) : result QueryIntent :=
  match provider with
  | None => extract_intent_heuristic schema_metadata user_query
  | Some reply =>
      Ok (try_except (provider_body schema_metadata user_query reply)
            extraction_handler)
  end.

(* ================================================================= *)
(** * Vocabulary of the statements *)

(** The columns a total-sector lookup of [gas_str] accepts: the three
    exact names and the fallback. *)
Definition total_match (gas_str col : string) : bool :=
  String.eqb (Str.lower col) gas_str
  || String.eqb (Str.lower col) (gas_str ++ "_emissions")
  || String.eqb (Str.lower col) (gas_str ++ "_per_capita")
  || total_fallback gas_str (Str.lower col).

Definition sector_markers : list string := ["cement"; "coal"; "oil"].

(** [col] holds no sector marker, in whatever letter case. *)
Definition marker_free (col : string) : Prop :=
  forall marker, In marker sector_markers ->
    Str.contains marker (Str.lower col) = false /\ Str.contains marker col = false.

(** The rows the country and year filters of an intent keep. *)
Definition row_selected (intent : QueryIntent) (r : Row) : bool :=
  match country intent with
  | Some (String _ _ as c) => country_is c r
  | _ => true
  end
  &&
  match year_filter intent with
  | None => true
  | Some yf =>
      match nonzero (year yf), nonzero (year_min yf), nonzero (year_max yf) with
      | Some y, _, _ => year_cmp (fun v => v =? y) r
      | None, Some lo, Some hi => year_cmp (fun v => (v >=? lo) && (v <=? hi)) r
      | None, Some lo, None => year_cmp (fun v => v >=? lo) r
      | None, None, Some hi => year_cmp (fun v => v <=? hi) r
      | None, None, None => true
      end
  end.

(** [intent] with another [year_filter]. *)
Definition with_year_filter (intent : QueryIntent) (yf : option YearFilter)
  : QueryIntent :=
  mkQueryIntent (country intent) (gas intent) (sector intent) (metric intent)
    (metrics intent) yf (is_greeting intent) (is_small_talk intent)
    (is_explanatory intent) (low_confidence intent) (needs_clarification intent)
    (clarification_question intent).

(** The unit rule as the code applies it: the marker of the second case
    is the literal "co2". *)
Definition unit_rule (col : string) : string :=
  if Str.contains "per_capita" (Str.lower col) then "tonnes per capita"
  else if Str.contains "co2" (Str.lower col) then "million tonnes"
  else "tonnes".

(** The unit rule with the requested gas token in the second case. *)
Definition unit_rule_by_gas (g : Gas) (col : string) : string :=
  if Str.contains "per_capita" col then "tonnes per capita"
  else if Str.contains (Gas_value g) col then "million tonnes"
  else "tonnes".

(** A string that names a member of [Metric]. *)
Definition valid_metric_name (s : string) : Prop :=
  exists m, Metric_of_value s = Some m.

(** No year value: no year filter, or one with its three fields unset. *)
Definition no_year_value (yf : option YearFilter) : Prop :=
  match yf with
  | None => True
  | Some f => year f = None /\ year_min f = None /\ year_max f = None
  end.

(** What the loop computes for one metric, before its null test. *)
Definition metric_raw (K : Numerics) (values : list float)
    (ts : option (list (Z * float))) (m : Metric) : option float :=
  match m with
  | SUM => Some (pd_sum K values)
  | AVERAGE => Some (pd_mean K values)
  | MEDIAN => Some (pd_median K values)
  | MIN => Some (pd_min K values)
  | MAX => Some (pd_max K values)
  | STD => Some (pd_std0 K values)
  | VARIANCE => Some (pd_var0 K values)
  | RANGE => Some (pd_max K values - pd_min K values)%float
  | CHANGE =>
      match ts with
      | Some (((_, first) :: _ :: _) as t) =>
          let last := snd (List.last t (0, first)) in
          Some (last - first)%float
      | _ => None
      end
  | TREND =>
      match ts with
      | Some ((_ :: _ :: _) as t) => np_polyfit_slope K (map fst t) (map snd t)
      | _ => None
      end
  end.

(** The entry the loop records for one metric: [None] for a null. *)
Definition metric_entry (K : Numerics) (values : list float)
    (ts : option (list (Z * float))) (m : Metric) : option float :=
  if is_null (metric_raw K values ts m) then None else metric_raw K values ts m.

(** The percent change of a series: defined for two years or more and a
    first value that is not zero. *)
Definition change_pct (ts : option (list (Z * float))) : option float :=
  match ts with
  | Some (((_, first) :: _ :: _) as t) =>
      if PrimFloat.eqb first 0 then None
      else
        let last := snd (List.last t (0, first)) in
        Some ((last - first) / first * 100)%float
  | _ => None
  end.

(** The series has fewer than two years, or there is no series. *)
Definition short_series (ts : option (list (Z * float))) : Prop :=
  match ts with
  | Some (_ :: _ :: _) => False
  | _ => True
  end.

(* ================================================================= *)
(** * A textbook instance of the numeric kernels

    The theorems below hold for every [Numerics]; this instance runs the
    pipeline on small tables whose sums are exact in binary64. *)

Module Naive.

Open Scope float_scope.

Fixpoint of_pos (p : positive) : float :=
  match p with
  | xH => 1
  | xO p' => 2 * of_pos p'
  | xI p' => 2 * of_pos p' + 1
  end.

Definition of_Z (z : Z) : float :=
  match z with
  | Z0 => 0
  | Zpos p => of_pos p
  | Zneg p => - of_pos p
  end.

Definition sum (l : list float) : float := fold_left PrimFloat.add l 0.

Definition count (l : list float) : float := of_Z (Z.of_nat (List.length l)).

Definition mean (l : list float) : float := sum l / count l.

Fixpoint insert_sorted (x : float) (l : list float) : list float :=
  match l with
  | [] => [x]
  | y :: l' => if PrimFloat.leb x y then x :: l else y :: insert_sorted x l'
  end.

Definition sort (l : list float) : list float := fold_right insert_sorted [] l.

Definition median (l : list float) : float :=
  let s := sort l in
  let n := List.length s in
  if Nat.even n
  then (nth (n / 2 - 1) s nan + nth (n / 2) s nan) / 2
  else nth (n / 2) s nan.

Definition min (l : list float) : float :=
  match l with
  | [] => nan
  | x :: l' => fold_left (fun a b => if PrimFloat.ltb b a then b else a) l' x
  end.

Definition max (l : list float) : float :=
  match l with
  | [] => nan
  | x :: l' => fold_left (fun a b => if PrimFloat.ltb a b then b else a) l' x
  end.

Definition var0 (l : list float) : float :=
  let m := mean l in
  sum (map (fun x => (x - m) * (x - m)) l) / count l.

Definition std0 (l : list float) : float := PrimFloat.sqrt (var0 l).

(** Least-squares slope of [vals] against [years]. *)
Definition polyfit_slope (years : list Z) (vals : list float) : option float :=
  let xs := map of_Z years in
  let mx := mean xs in
  let my := mean vals in
  let sxy := sum (map (fun p => (fst p - mx) * (snd p - my)) (combine xs vals)) in
  let sxx := sum (map (fun x => (x - mx) * (x - mx)) xs) in
  Some (sxy / sxx).

Definition numerics : Numerics :=
  mkNumerics sum mean median min max std0 var0 polyfit_slope.

End Naive.

(* ================================================================= *)
(** * A small dataset *)

Module Example.

Definition row (c : string) (y : Z) (co2 cement_co2 methane : float) : Row :=
  mkRow (Some c) (Some y)
    [("co2", co2); ("cement_co2", cement_co2); ("methane", methane)].

Definition df : DataFrame :=
  mkDataFrame ["country"; "year"; "co2"; "cement_co2"; "methane"]
    [row "China" 2020 1000 100 50;
     row "United States" 2020 500 50 30;
     row "India" 2020 300 30 20;
     row "China" 2021 1100 110 55;
     row "Tuvalu" 2020 0 0 0;
     row "Tuvalu" 2021 5 0 1].

Definition metadata : SchemaMetadata :=
  mkSchemaMetadata ["China"; "India"; "United States"] (Some (2020, 2021)).

(** A normalized data intent for one country. *)
Definition intent (c : string) (g : Gas) (ms : list Metric)
    (yf : option YearFilter) : QueryIntent :=
  mkQueryIntent (Some c) (Some g) (Some TOTAL) (hd_error ms) (Some ms) yf
    false false false false false None.

End Example.

(* ================================================================= *)
(** * Vocabulary for bare years *)

Fixpoint last_char (s : string) : option ascii :=
  match s with
  | EmptyString => None
  | String c s' =>
      match last_char s' with
      | None => Some c
      | Some c' => Some c'
      end
  end.

(** The four characters spell a year of the 1900s or the 2000s. *)
Definition year_digits (a b c d : ascii) : Prop :=
  ((a = "1"%char /\ b = "9"%char) \/ (a = "2"%char /\ b = "0"%char))
  /\ Str.is_digit c = true /\ Str.is_digit d = true.

Definition year_value (a b c d : ascii) : Z :=
  1000 * digit_val a + 100 * digit_val b + 10 * digit_val c + digit_val d.

(** The [\b] in front of a digit: [pre] is what precedes it in the text
    scanned, [prev_word] tells whether a word character precedes [pre]. *)
Definition boundary_before (prev_word : bool) (pre : string) : Prop :=
  match last_char pre with
  | None => prev_word = false
  | Some c => Str.is_word c = false
  end.

(** [s] reads [pre], then a bare year of value [y], then [post]. *)
Definition bare_year_at (prev_word : bool) (s pre : string) (y : Z) (post : string)
  : Prop :=
  exists a b c d,
    s = pre ++ String a (String b (String c (String d post)))
    /\ year_digits a b c d
    /\ boundary_before prev_word pre
    /\ boundary_after post = true
    /\ y = year_value a b c d.

(** The text holds no earlier kind of year reference. *)
Definition no_earlier_year_pattern (uq : string) : Prop :=
  search re_from_to uq = None
  /\ search re_between_and uq = None
  /\ search re_last_n_years uq = None
  /\ Str.contains "last year" uq = false.

(* ================================================================= *)
(** * [api/schema.py]: [get_schema_metadata] *)

(** [Series.unique()]: the values in order of first appearance. *)
Definition unique (l : list string) : list string :=
  fold_left (fun seen x => if Str.mem x seen then seen else (seen ++ [x])%list) l [].

Fixpoint insert_string (x : string) (l : list string) : list string :=
  match l with
  | [] => [x]
  | y :: l' => if String.leb x y then x :: l else y :: insert_string x l'
  end.

(** [sorted(...)] on strings: code-point order, which is the byte order
    of their UTF-8 text. *)
Definition sorted (l : list string) : list string :=
  fold_right insert_string [] l.

(** [Series.min()] and [Series.max()] over the years that are not null. *)
Definition years_min (ys : list Z) : option Z :=
  match ys with
  | [] => None
  | y :: ys' => Some (fold_left Z.min ys' y)
  end.

Definition years_max (ys : list Z) : option Z :=
  match ys with
  | [] => None
  | y :: ys' => Some (fold_left Z.max ys' y)
  end.

(** [get_schema_metadata]: the sorted distinct country names and the year
    range.  A [year] column that has rows but no year at all makes
    [int(y_min)] raise: [ValueError] on the NaN of a numeric column,
    [TypeError] on the NaT of a datetime column. *)
Definition get_schema_metadata (df : DataFrame) : result SchemaMetadata :=
  let names :=
    if Str.mem "country" (columns df)
    then sorted (unique (filter_map row_country (rows df)))
    else [] in
  if Str.mem "year" (columns df) && negb (Nat.eqb (List.length (rows df)) 0) then
    let ys := filter_map row_year (rows df) in
    match years_min ys, years_max ys with
    | Some lo, Some hi => Ok (mkSchemaMetadata names (Some (lo, hi)))
    | _, _ => Raise (OtherError "int() of a missing year")
    end
  else Ok (mkSchemaMetadata names None).

(** [IntentExtractionLayer(df).extract_intent(user_query)]: the metadata
    is computed from the dataframe before either path runs. *)
Definition extract_intent_from (provider : option LLMReply) (df : DataFrame)
    (user_query : string) : result QueryIntent :=
  schema_metadata <- get_schema_metadata df ;;
  extract_intent provider schema_metadata user_query.

(* ================================================================= *)
(** * [api/json_utils.py]: [json_safe] *)

(** The Python values covered: [None], [bool], [int], [float], plain
    [str] (not an enum member, whose [str()] is not its value), lists,
    tuples and dicts with string keys. *)
#[warnings="-register-all"]
Inductive pyval :=
| PNone
| PBool (b : bool)
| PInt (n : Z)
| PFloat (x : float)
| PStr (s : string)
| PList (l : list pyval)
| PTuple (l : list pyval)
| PDict (d : list (string * pyval)).

(** [pd.isna(x) or x == inf or x == -inf or x != x] on a float. *)
Definition not_json_number (x : float) : bool :=
  PrimFloat.is_nan x || PrimFloat.is_infinity x.

(** [json_safe] *)
Fixpoint json_safe (obj : pyval) : pyval :=
  match obj with
  | PNone => PNone
  | PBool b => PBool b
  | PInt n => PInt n
  | PFloat x => if not_json_number x then PNone else PFloat x
  | PStr s => PStr s
  | PList l => PList (map json_safe l)
  | PTuple l => PList (map json_safe l)
  | PDict d => PDict (map (fun kv => (fst kv, json_safe (snd kv))) d)
  end.

(** A value [json.dumps(..., allow_nan=False)] accepts: no NaN, no
    infinity, no tuple left. *)
Fixpoint json_ready (obj : pyval) : bool :=
  match obj with
  | PFloat x => negb (not_json_number x)
  | PList l => forallb json_ready l
  | PTuple _ => false
  | PDict d => forallb (fun kv => json_ready (snd kv)) d
  | _ => true
  end.

(** The shape of a value: the same containers with the same keys and
    lengths, tuples read as lists. *)
Fixpoint same_shape (a b : pyval) : bool :=
  match a, b with
  | (PList l | PTuple l), PList l' =>
      (fix go (xs ys : list pyval) : bool :=
         match xs, ys with
         | [], [] => true
         | x :: xs', y :: ys' => same_shape x y && go xs' ys'
         | _, _ => false
         end) l l'
  | PDict d, PDict d' =>
      (fix go (xs ys : list (string * pyval)) : bool :=
         match xs, ys with
         | [], [] => true
         | (k, x) :: xs', (k', y) :: ys' =>
             String.eqb k k' && same_shape x y && go xs' ys'
         | _, _ => false
         end) d d'
  | (PList _ | PTuple _ | PDict _), _ => false
  | _, (PList _ | PTuple _ | PDict _) => false
  | _, _ => true
  end.

(* ================================================================= *)
(** * [api/conversation_layer.py]: [generate_expert_explanation] *)

(** What the Gemini collaborator does when it is asked: it is not
    configured, it raises [ExternalModelError], it fails with another
    exception, or it returns a dict whose [response], if any, reads as
    [response] (the empty text for a missing or empty one). *)
Inductive Gemini :=
| GeminiUnavailable
| GeminiNoText
| GeminiFails (e : exn)
| GeminiReturns (success : bool) (response : string).

(** [s.upper()] on one character. *)
Definition upper_ascii (c : ascii) : ascii :=
  let n := nat_of_ascii c in
  if (Nat.leb 97 n && Nat.leb n 122)%bool then ascii_of_nat (n - 32) else c.

(** [s.capitalize()] *)
Definition capitalize (s : string) : string :=
  match s with
  | EmptyString => EmptyString
  | String c s' => String (upper_ascii c) (Str.lower s')
  end.

Definition explain_words : list string :=
  ["why"; "how"; "cause"; "causes"; "explain"; "reason"].

Definition statistic_words : list string :=
  ["std"; "standard deviation"; "variance"; "min"; "max"; "median"; "average";
   "mean"; "trend"; "change"; "range"].

Definition or_default (s : option string) (d : string) : string :=
  match s with
  | Some (String _ _ as v) => v
  | _ => d
  end.

Definition gas_or_emissions (intent : QueryIntent) : string :=
  match gas intent with
  | Some g => Gas_value g
  | None => "emissions"
  end.

Definition drivers_text (intent : QueryIntent) : string :=
  String.concat " "
    [capitalize (or_default (country intent) "the country") ++ "'s "
       ++ gas_or_emissions intent
       ++ " emissions can be driven by several structural factors.";
     "Common drivers include the energy mix (reliance on coal and fossil fuels), "
       ++ "industrial activity, agricultural practices, and land-use change.";
     "Economic growth and population size also influence total emissions; "
       ++ "per-capita emissions depend on energy efficiency and consumption patterns.";
     "I don't have matching rows in the dataset to compute precise numbers for "
       ++ "this query, but these factors are commonly cited in the literature."].

Definition no_records_text (intent : QueryIntent) : string :=
  "I can't compute that metric because the dataset doesn't have matching records for "
  ++ or_default (country intent) "the selected country" ++ " and "
  ++ gas_or_emissions intent ++ ". "
  ++ "Generally, to analyze variation over time you need multiple years of data; "
  ++ "if you'd like, I can explain typical patterns and what drives variability.".

Definition expert_prefix : string :=
  "Here is an expert explanation (general knowledge, not dataset values): ".

Definition canned_text : string :=
  "I don't have matching data to compute that exactly. Generally, emissions are "
  ++ "affected by energy sources, industrial structure, agriculture, and policy; "
  ++ "if you'd like an explanation on any of these drivers, ask 'why' or 'how' "
  ++ "followed by the country or sector.".

(** [ConversationLayer.generate_expert_explanation]; [None] is its
    [ExternalModelError]. *)
Definition generate_expert_explanation (gemini : Gemini) (user_query : string)
    (intent : QueryIntent) : option string :=
  let uq := Str.lower user_query in
  if Str.any_in explain_words uq then Some (drivers_text intent)
  else if Str.any_in statistic_words uq then Some (no_records_text intent)
  else
    match gemini with
    | GeminiNoText => None
    | GeminiReturns true (String _ _ as response) => Some (expert_prefix ++ response)
    | _ => Some canned_text
    end.

(* ================================================================= *)
(** * More vocabulary *)


(** The years of a filter all lie in 1800..2100. *)
Definition years_in_range (yf : YearFilter) : Prop :=
  forall y, year yf = Some y \/ year_min yf = Some y \/ year_max yf = Some y ->
    1800 <= y <= 2100.

(** The router states a result of [execute] can reach. *)
Definition reachable_state (s : RouterState) : bool :=
  match s with
  | ExecutionError | LowConfidenceData | Data => true
  | _ => false
  end.

Definition is_bad_gateway (r : Response) : bool :=
  match r with
  | BadGateway _ => true
  | _ => false
  end.

(** The values of year [y] in a series, in row order. *)
Definition year_values (y : Z) (s : list (Z * float)) : list float :=
  map snd (filter (fun p => fst p =? y) s).

(** The group of year [y]. *)
Fixpoint group_get (y : Z) (g : list (Z * list float)) : option (list float) :=
  match g with
  | [] => None
  | (y', vs) :: g' => if y' =? y then Some vs else group_get y g'
  end.

(* ================================================================= *)
(** * [api/gemini_client.py]: [generate_with_gemini] *)

(** What the inner [sync_call] does: it raises, it extracts no text, or
    it extracts a text; [explanation] is the text as the caller prints
    it, stripped, and serialized again when it was a JSON object. *)
Inductive SyncCall :=
| SyncRaises (e : exn)
| SyncNoText
| SyncText (explanation : string).

(** [is_gemini_available] and [generate_with_gemini] as
    [generate_expert_explanation] meets them: without a client the call
    is never made; with one, every failure comes back as a dict with
    [success] false, never as an exception. *)
Definition gemini_client (available : bool) (call : SyncCall) : Gemini :=
  if available then
    match call with
    | SyncRaises _ => GeminiReturns false ""
    | SyncNoText => GeminiReturns false ""
    | SyncText explanation => GeminiReturns true explanation
    end
  else GeminiUnavailable.

Definition is_bad_request (r : Response) : bool :=
  match r with
  | BadRequest _ => true
  | _ => false
  end.

(** The intent [post] executes for a data intent: the fields of the
    extracted intent, the sector defaulted to total, the flags cleared,
    and [low_confidence] set when the country or the gas is missing. *)
Definition executed_intent (intent : QueryIntent) : QueryIntent :=
  mkQueryIntent (country intent) (gas intent)
    (Some (sector_or_total (sector intent))) (metric intent) (metrics intent)
    (year_filter intent) false false false
    (negb (is_some (country intent) && is_some (gas intent))) false None.

Unset Implicit Arguments.

(* ================================================================= *)
(** * Properties *)

(** Breaks the boolean conjunctions and negations among the hypotheses. *)
Ltac bool_hyps :=
  repeat match goal with
         | H : _ && _ = true |- _ => apply andb_true_iff in H; destruct H
         | H : negb _ = true |- _ => apply negb_true_iff in H
         end.

(** ** Strings *)

Lemma lower_ascii_idem : forall c, Str.lower_ascii (Str.lower_ascii c) = Str.lower_ascii c.
Proof.
  intros [[] [] [] [] [] [] [] []]; reflexivity.
Qed.

Lemma ascii_eqb_lower : forall a b,
  Ascii.eqb a b = true -> Ascii.eqb (Str.lower_ascii a) (Str.lower_ascii b) = true.
Proof.
  intros a b H. apply Ascii.eqb_eq in H. subst b. apply Ascii.eqb_refl.
Qed.

Lemma strip_prefix_lower : forall w s r,
  Str.strip_prefix w s = Some r ->
  Str.strip_prefix (Str.lower w) (Str.lower s) = Some (Str.lower r).
Proof.
  induction w as [|a w IH]; intros s r H; simpl in *.
  - inversion H; reflexivity.
  - destruct s as [|b s]; [discriminate|]. simpl.
    destruct (Ascii.eqb a b) eqn:E; [|discriminate].
    rewrite (ascii_eqb_lower _ _ E). auto.
Qed.

Lemma startswith_lower : forall w s,
  Str.startswith w s = true -> Str.startswith (Str.lower w) (Str.lower s) = true.
Proof.
  unfold Str.startswith. intros w s H.
  destruct (Str.strip_prefix w s) eqn:E; [|discriminate].
  now rewrite (strip_prefix_lower _ _ _ E).
Qed.

(** A text that contains [w] contains, once lower-cased, [w] lower-cased. *)
Lemma contains_lower : forall w s,
  Str.contains w s = true -> Str.contains (Str.lower w) (Str.lower s) = true.
Proof.
  induction s as [|c s IH]; simpl; intros H.
  - rewrite orb_false_r in *. now apply (startswith_lower w "").
  - apply orb_true_iff in H. apply orb_true_iff. destruct H as [H|H].
    + left. now apply (startswith_lower w (String c s)).
    + right. auto.
Qed.

(** The contrapositive, for a marker written in lower case. *)
Lemma not_contains_raw : forall w s,
  Str.lower w = w -> Str.contains w (Str.lower s) = false -> Str.contains w s = false.
Proof.
  intros w s Hw H. destruct (Str.contains w s) eqn:E; [|reflexivity].
  apply contains_lower in E. rewrite Hw in E. congruence.
Qed.

(** ** Column resolution *)

Lemma first_col_some : forall p cols col,
  first_col p cols = Some col -> In col cols /\ p col = true.
Proof. intros p cols col H. now apply find_some. Qed.

Lemma first_col_none : forall p cols,
  first_col p cols = None <-> (forall col, In col cols -> p col = false).
Proof.
  intros p cols. split.
  - intros H col Hin. exact (find_none p cols H col Hin).
  - induction cols as [|c cols IH]; simpl; intros H; [reflexivity|].
    rewrite (H c (or_introl eq_refl)). apply IH. intros; apply H; now right.
Qed.

Lemma first_candidate_some : forall cands cols col,
  first_candidate cands cols = Some col ->
  In col cols /\ exists cand, In cand cands /\ Str.lower col = Str.lower cand.
Proof.
  induction cands as [|cand cands IH]; simpl; intros cols col H; [discriminate|].
  destruct (first_col _ cols) as [c|] eqn:E.
  - inversion H; subst c. apply first_col_some in E. destruct E as [Hin Heq].
    split; [assumption|]. exists cand. split; [now left|]. now apply String.eqb_eq.
  - destruct (IH _ _ H) as [Hin [c' [Hc' Hl]]]. split; [assumption|].
    exists c'. split; [now right | assumption].
Qed.

Lemma first_candidate_none : forall cands cols,
  first_candidate cands cols = None <->
  (forall col cand, In col cols -> In cand cands ->
     String.eqb (Str.lower col) (Str.lower cand) = false).
Proof.
  induction cands as [|cand cands IH]; simpl; intros cols.
  - split; [intros _ col cand _ []| reflexivity].
  - destruct (first_col _ cols) as [c|] eqn:E.
    + split; [discriminate|]. intros H. apply first_col_some in E.
      destruct E as [Hin Heq]. rewrite (H c cand Hin (or_introl eq_refl)) in Heq.
      discriminate.
    + rewrite IH. rewrite first_col_none in E. split.
      * intros H col cand' Hin [<-|Hc]; [now apply E | now apply H].
      * intros H col cand' Hin Hc. apply H; [assumption | now right].
Qed.

Lemma mem_in : forall x l, In x l -> Str.mem x l = true.
Proof.
  intros x l H. unfold Str.mem. apply existsb_exists. exists x.
  split; [assumption | apply String.eqb_refl].
Qed.

Lemma resolved_in_columns : forall cols g sector col,
  _get_column_name cols g sector = Some col -> In col cols.
Proof.
  intros cols g sector col. unfold _get_column_name.
  destruct g as [g|]; [|discriminate].
  assert (Hc : forall cands, first_candidate cands cols = Some col -> In col cols).
  { intros cands H. now apply first_candidate_some in H. }
  assert (Hp : forall p, first_col p cols = Some col -> In col cols).
  { intros p H. now apply first_col_some in H. }
  destruct sector as [[| | | |]|];
    repeat match goal with
           | |- context [or_else ?a ?b] =>
               let E := fresh "E" in destruct a eqn:E; cbn [or_else]
           | |- match ?a with Some _ => _ | None => _ end = _ -> _ =>
               let E := fresh "E" in destruct a eqn:E
           end;
    intros H; inversion H; subst; eauto.
Qed.

Lemma marker_free_of_lower : forall col,
  (forall marker, In marker sector_markers -> Str.contains marker (Str.lower col) = false) ->
  marker_free col.
Proof.
  intros col H marker Hin. split; [now apply H|].
  apply not_contains_raw; [|now apply H].
  repeat (destruct Hin as [<-|Hin]; [reflexivity|]). destruct Hin.
Qed.

Lemma total_match_marker_free : forall col,
  total_match "co2" col = true -> marker_free col.
Proof.
  intros col H. apply marker_free_of_lower. intros marker Hin.
  unfold total_match in H.
  assert (Hlit : forall lit, In lit ["co2"; "co2_emissions"; "co2_per_capita"] ->
            Str.lower col = lit -> Str.contains marker (Str.lower col) = false).
  { intros lit Hl ->. cbn in Hl, Hin.
    destruct Hl as [<-|[<-|[<-|[]]]]; destruct Hin as [<-|[<-|[<-|[]]]]; reflexivity. }
  apply orb_true_iff in H. destruct H as [H|H].
  - apply orb_true_iff in H. destruct H as [H|H].
    + apply orb_true_iff in H. destruct H as [H|H]; apply String.eqb_eq in H.
      * apply (Hlit "co2"); cbn; auto.
      * apply (Hlit "co2_emissions"); cbn; auto.
    + apply String.eqb_eq in H. apply (Hlit "co2_per_capita"); cbn; auto.
  - unfold total_fallback in H. apply andb_true_iff in H. destruct H as [_ H].
    bool_hyps.
    cbn in Hin. destruct Hin as [<-|[<-|[<-|[]]]]; assumption.
Qed.

(** C4.  Whatever the schema, [_get_column_name(co2, total)] returns
    either a column of the schema that the total-sector rules accept, whose
    name holds none of the sector markers "cement", "coal", "oil" (in any
    letter case), or [None], and [None] only when no column of the schema
    is accepted by any total-sector rule. *)
Theorem resolve_co2_total_excludes_sector_columns : forall cols,
  match _get_column_name cols (Some CO2) (Some TOTAL) with
  | Some col => In col cols /\ total_match "co2" col = true /\ marker_free col
  | None => forall col, In col cols -> total_match "co2" col = false
  end.
Proof.
  intros cols. unfold _get_column_name. cbn [Gas_value].
  change (Str.lower "co2") with "co2".
  assert (Hsound : forall col, In col cols -> total_match "co2" col = true ->
            In col cols /\ total_match "co2" col = true /\ marker_free col).
  { intros col Hin Hm. split; [assumption|]. split; [assumption|].
    now apply total_match_marker_free. }
  destruct (first_col (fun col => String.eqb (Str.lower col) "co2") cols) as [c|] eqn:E1;
    cbn [or_else].
  { apply first_col_some in E1. destruct E1 as [Hin Hp]. apply Hsound; [assumption|].
    unfold total_match. now rewrite Hp. }
  destruct (first_candidate _ cols) as [c|] eqn:E2.
  { apply first_candidate_some in E2. destruct E2 as [Hin [cand [Hc Hl]]].
    apply Hsound; [assumption|]. unfold total_match.
    cbn in Hc. destruct Hc as [<-|[<-|[<-|[]]]]; rewrite Hl; reflexivity. }
  destruct (first_col (fun col => total_fallback "co2" (Str.lower col)) cols) as [c|] eqn:E3.
  { apply first_col_some in E3. destruct E3 as [Hin Hp]. apply Hsound; [assumption|].
    unfold total_match. rewrite Hp. now rewrite !orb_true_r. }
  intros col Hin. unfold total_match.
  rewrite first_col_none in E1, E3. rewrite first_candidate_none in E2.
  assert (Ha := E2 col "co2_emissions" Hin (or_intror (or_introl eq_refl))).
  assert (Hb := E2 col "co2_per_capita" Hin (or_intror (or_intror (or_introl eq_refl)))).
  change (Str.lower "co2_emissions") with "co2_emissions" in Ha.
  change (Str.lower "co2_per_capita") with "co2_per_capita" in Hb.
  cbn [append]. now rewrite (E1 col Hin), (E3 col Hin), Ha, Hb.
Qed.

(** ** Filtering *)

Lemma filter_filter : forall (A : Type) (p q : A -> bool) (l : list A),
  filter q (filter p l) = filter (fun x => p x && q x) l.
Proof.
  intros A p q l. induction l as [|a l IH]; simpl; [reflexivity|].
  destruct (p a); simpl; [destruct (q a)|]; now rewrite IH.
Qed.

Lemma filter_true : forall (A : Type) (l : list A), filter (fun _ => true) l = l.
Proof.
  intros A l. induction l as [|a l IH]; simpl; [reflexivity|]. now rewrite IH.
Qed.

Lemma filter_ext_all : forall (A : Type) (p q : A -> bool) (l : list A),
  (forall x, p x = q x) -> filter p l = filter q l.
Proof. intros A p q l H. apply filter_ext. exact H. Qed.

(** When no column lookup raises, the rows [execute] aggregates are
    exactly the rows [row_selected] keeps. *)
Lemma apply_filters_selected : forall df intent af rs,
  apply_filters df intent = (af, Ok rs) ->
  rs = filter (row_selected intent) (rows df).
Proof.
  intros df intent af rs. unfold apply_filters, apply_country_filter, apply_year_filter, row_selected.
  destruct (country intent) as [[|c0 cs]|];
    destruct (year_filter intent) as [yf|];
    try destruct (Str.mem "country" (columns df));
    try (destruct (nonzero (year yf)); destruct (nonzero (year_min yf));
         destruct (nonzero (year_max yf)));
    try destruct (Str.mem "year" (columns df));
    intros H; inversion H; subst; clear H;
    rewrite ?filter_filter; cbn [andb];
    try reflexivity;
    try (symmetry; apply filter_true);
    try (apply filter_ext_all; intros x; now rewrite andb_true_r).
Qed.

(** ** Executions that find nothing *)

Lemma aggregate_no_values : forall K df intent af rs,
  (forall col, column_values col rs = []) ->
  len rs = 0 ->
  let r := aggregate K df intent af rs in
  ExecutionResult.record_count r = 0 /\ ExecutionResult.value r = None
  /\ ExecutionResult.values r = None
  /\ truthy_str (ExecutionResult.error r) = true.
Proof.
  intros K df intent af rs Hv Hl. unfold aggregate.
  destruct (_get_column_name _ _ _) as [col|]; [|now rewrite Hl].
  destruct (negb _); [now rewrite Hl|].
  rewrite Hv. cbn. auto.
Qed.

(** C1, as the code has it.  When the filters of an intent keep no row
    of the dataset, [execute] returns a result with [record_count = 0],
    [value] unset and [values] unset, and with its [error] field set (to
    "No data available for the specified filters" when the filters run
    and the column resolves); the router then takes its execution-error
    branch, whatever the low-confidence flag, and never the empty-result
    one. *)
Theorem zero_rows_reported_as_execution_error : forall K df intent lc,
  filter (row_selected intent) (rows df) = [] ->
  let r := execute K df intent in
  ExecutionResult.record_count r = 0
  /\ ExecutionResult.value r = None
  /\ ExecutionResult.values r = None
  /\ truthy_str (ExecutionResult.error r) = true
  /\ route lc r = ExecutionError
  /\ (forall af rs col,
        apply_filters df intent = (af, Ok rs) ->
        _get_column_name (columns df) (gas intent) (sector intent) = Some col ->
        ExecutionResult.error r = Some "No data available for the specified filters").
Proof.
  intros K df intent lc Hsel.
  assert (Hmsg : forall af rs col,
            apply_filters df intent = (af, Ok rs) ->
            _get_column_name (columns df) (gas intent) (sector intent) = Some col ->
            ExecutionResult.error (execute K df intent)
            = Some "No data available for the specified filters").
  { intros af rs col Hf Hc. unfold execute. rewrite Hf.
    apply apply_filters_selected in Hf. rewrite Hsel in Hf. subst rs.
    unfold aggregate. rewrite Hc.
    now rewrite (mem_in _ _ (resolved_in_columns _ _ _ _ Hc)). }
  assert (H : let r := execute K df intent in
              ExecutionResult.record_count r = 0 /\ ExecutionResult.value r = None
              /\ ExecutionResult.values r = None
              /\ truthy_str (ExecutionResult.error r) = true).
  { unfold execute. destruct (apply_filters df intent) as [af [rs|e]] eqn:E.
    - apply apply_filters_selected in E. rewrite Hsel in E. subst rs.
      apply aggregate_no_values; reflexivity.
    - cbn. auto. }
  cbv zeta in *. destruct H as (H1 & H2 & H3 & H4).
  refine (conj H1 (conj H2 (conj H3 (conj H4 (conj _ Hmsg))))).
  unfold route. now rewrite H4.
Qed.

(** ** Year precedence *)

Lemma build_result_applied_filters : forall results incomputable u af n r,
  build_result results incomputable u af n = Ok r ->
  ExecutionResult.applied_filters r = af.
Proof.
  intros results incomputable u af n r. unfold build_result, ExecutionResult_new.
  destruct (validate_values results) as [vs|e]; cbn [bind]; [|discriminate].
  destruct results as [|[k v] [|p l]]; intros H; injection H as <-; reflexivity.
Qed.

(** Every result of [execute] carries the filters that were applied. *)
Lemma execute_applied_filters : forall K df intent,
  ExecutionResult.applied_filters (execute K df intent) = fst (apply_filters df intent).
Proof.
  intros K df intent. unfold execute.
  destruct (apply_filters df intent) as [af [rs|e]]; cbn [fst]; [|reflexivity].
  unfold aggregate.
  destruct (_get_column_name _ _ _) as [col|]; [|reflexivity].
  destruct (negb _); [reflexivity|].
  destruct (len _ =? 0); [reflexivity|].
  destruct (compute_metrics _ _ _ _) as [results incomputable].
  destruct (build_result _ _ _ _ _) as [r|e] eqn:E; cbn [try_except]; [|reflexivity].
  now apply build_result_applied_filters in E.
Qed.

Lemma country_is_true : forall c r, country_is c r = true <-> row_country r = Some c.
Proof.
  intros c r. unfold country_is. destruct (row_country r) as [c'|].
  - rewrite String.eqb_eq. split; congruence.
  - split; discriminate.
Qed.

Lemma year_is_true : forall y r,
  year_cmp (fun v => v =? y) r = true <-> row_year r = Some y.
Proof.
  intros y r. unfold year_cmp. destruct (row_year r) as [v|].
  - rewrite Z.eqb_eq. split; congruence.
  - split; discriminate.
Qed.

(** C3.  With [year] set (a validated year is never 0), the filtered
    rows, the applied filters and the whole execution result are the
    same whether or not [year_min] and [year_max] are populated as well.
    When the lookups of the two filter columns succeed, the filters of
    [execute] keep exactly the rows of the dataframe whose year equals
    [year] (and whose country is the intent's, when it names one);
    [applied_filters] holds the country, if any, and [year], and no
    entry for a range; the result is the aggregation of these rows. *)
Theorem year_overrides_range : forall K df intent y lo hi,
  y <> 0 ->
  let both := with_year_filter intent (Some (mkYearFilter (Some y) lo hi)) in
  let only := with_year_filter intent (Some (mkYearFilter (Some y) None None)) in
  let af := (match country intent with
             | Some (String _ _ as c) => [("country", FStr c)]
             | _ => []
             end ++ [("year", FInt y)])%list in
  (forall r, row_selected both r =
             row_selected (with_year_filter intent None) r
             && year_cmp (fun v => v =? y) r)
  /\ apply_filters df both = apply_filters df only
  /\ execute K df both = execute K df only
  /\ (Str.mem "year" (columns df) = true ->
      (truthy_str (country intent) = true -> Str.mem "country" (columns df) = true) ->
      exists rs,
        apply_filters df both = (af, Ok rs)
        /\ (forall r, In r rs <->
              In r (rows df)
              /\ (truthy_str (country intent) = true -> row_country r = country intent)
              /\ row_year r = Some y)
        /\ ExecutionResult.applied_filters (execute K df both) = af
        /\ execute K df both = aggregate K df both af rs).
Proof.
  intros K df intent y lo hi Hy both only af.
  assert (Hnz : nonzero (Some y) = Some y).
  { unfold nonzero. destruct (Z.eqb_spec y 0); [contradiction|reflexivity]. }
  assert (Hf : apply_filters df both = apply_filters df only).
  { unfold apply_filters, both, only, apply_country_filter, apply_year_filter.
    cbn [country year_filter with_year_filter year year_min year_max].
    now rewrite Hnz. }
  split; [|split; [|split]].
  - intros r. unfold row_selected, both.
    cbn [country year_filter with_year_filter year year_min year_max].
    now rewrite Hnz, andb_true_r.
  - exact Hf.
  - unfold execute. rewrite Hf. reflexivity.
  - intros Hyear Hcountry.
    assert (Hrun : exists rs,
              apply_filters df both = (af, Ok rs)
              /\ forall r, In r rs <->
                   In r (rows df)
                   /\ (truthy_str (country intent) = true ->
                       row_country r = country intent)
                   /\ row_year r = Some y).
    { unfold apply_filters, both, af, apply_country_filter, apply_year_filter.
      cbn [country year_filter with_year_filter year year_min year_max].
      rewrite Hnz, Hyear.
      destruct (country intent) as [[|c0 cs]|] eqn:Ec; cbn [truthy_str] in *.
      - eexists. split; [reflexivity|]. intros r. rewrite filter_In, year_is_true.
        split; [intros [H1 H2]; repeat split; [assumption | discriminate | assumption]
               | intros (H1 & _ & H2); now split].
      - rewrite (Hcountry eq_refl). eexists. split; [reflexivity|].
        intros r. rewrite !filter_In, year_is_true, country_is_true.
        split; [intros [[H1 H2] H3]; repeat split; auto
               | intros (H1 & H2 & H3); repeat split; auto].
      - eexists. split; [reflexivity|]. intros r. rewrite filter_In, year_is_true.
        split; [intros [H1 H2]; repeat split; [assumption | discriminate | assumption]
               | intros (H1 & _ & H2); now split]. }
    destruct Hrun as (rs & Hrun & Hrows). exists rs.
    split; [exact Hrun|]. split; [exact Hrows|]. split.
    + rewrite execute_applied_filters. now rewrite Hrun.
    + unfold execute. now rewrite Hrun.
Qed.

(** ** Units *)

Lemma strip_prefix_refl : forall w, Str.strip_prefix w w = Some "".
Proof.
  induction w as [|a w IH]; simpl; [reflexivity|]. now rewrite Ascii.eqb_refl.
Qed.

Lemma startswith_contains : forall w s,
  Str.startswith w s = true -> Str.contains w s = true.
Proof. intros w [|c s] H; simpl; now rewrite H. Qed.

Lemma contains_refl : forall w, Str.contains w w = true.
Proof.
  intros w. apply startswith_contains. unfold Str.startswith.
  now rewrite strip_prefix_refl.
Qed.

Lemma contains_tail : forall w c s,
  Str.contains w s = true -> Str.contains w (String c s) = true.
Proof. intros w c s H. simpl. rewrite H. apply orb_true_r. Qed.

Lemma startswith_app : forall a b s,
  Str.startswith (a ++ b) s = true -> Str.startswith a s = true.
Proof.
  unfold Str.startswith. induction a as [|x a IH]; intros b s H; simpl in *.
  - reflexivity.
  - destruct s as [|y s]; [discriminate|].
    destruct (Ascii.eqb x y); [now apply (IH b)|discriminate].
Qed.

Lemma endswith_contains : forall c w s,
  Str.endswith (String c w) s = true -> Str.contains w s = true.
Proof.
  intros c w s. induction s as [|x s IH]; intros H.
  - discriminate.
  - change (String.eqb (String c w) (String x s) || Str.endswith (String c w) s = true) in H.
    apply contains_tail. apply orb_true_iff in H. destruct H as [H|H].
    + apply String.eqb_eq in H. injection H as -> ->. apply contains_refl.
    + auto.
Qed.

(** Every column a co2 lookup resolves to carries "co2" in its name. *)
Lemma resolved_co2_column : forall cols sector col,
  _get_column_name cols (Some CO2) sector = Some col ->
  In col cols /\ Str.contains "co2" (Str.lower col) = true.
Proof.
  intros cols sector col. unfold _get_column_name. cbn [Gas_value].
  change (Str.lower "co2") with "co2".
  assert (Hcand : forall cands,
            Forall (fun cand => Str.contains "co2" (Str.lower cand) = true) cands ->
            first_candidate cands cols = Some col ->
            In col cols /\ Str.contains "co2" (Str.lower col) = true).
  { intros cands HF H. apply first_candidate_some in H.
    destruct H as [Hin [cand [Hc Hl]]]. split; [assumption|]. rewrite Hl.
    rewrite Forall_forall in HF. now apply HF. }
  assert (Hpat : forall p,
            (forall c, p c = true -> Str.contains "co2" (Str.lower c) = true) ->
            first_col p cols = Some col ->
            In col cols /\ Str.contains "co2" (Str.lower col) = true).
  { intros p Hp H. apply first_col_some in H. destruct H; split; auto. }
  assert (Htotal :
    match
      or_else (first_col (fun c => String.eqb (Str.lower c) "co2") cols)
        (first_candidate (map (fun suffix => "co2" ++ suffix) [""; "_emissions"; "_per_capita"]) cols)
    with
    | Some c => Some c
    | None => first_col (fun c => total_fallback "co2" (Str.lower c)) cols
    end = Some col ->
    In col cols /\ Str.contains "co2" (Str.lower col) = true).
  { destruct (first_col (fun c => String.eqb (Str.lower c) "co2") cols) as [c|] eqn:E1;
      cbn [or_else].
    - intros H; inversion H; subst c. revert E1. apply Hpat.
      intros c Hc. apply String.eqb_eq in Hc. now rewrite Hc.
    - destruct (first_candidate _ cols) as [c|] eqn:E2.
      + intros H; inversion H; subst c. revert E2. apply Hcand.
        repeat constructor.
      + apply Hpat. intros c Hc. unfold total_fallback in Hc.
        apply andb_true_iff in Hc. destruct Hc as [Hc _].
        apply orb_true_iff in Hc. destruct Hc as [Hc|Hc].
        * apply orb_true_iff in Hc. destruct Hc as [Hc|Hc].
          -- apply String.eqb_eq in Hc. now rewrite Hc.
          -- apply startswith_contains. now apply (startswith_app "co2" "_").
        * now apply (endswith_contains "_" "co2"). }
  destruct sector as [[| | | |]|]; try exact Htotal; clear Htotal.
  - destruct (first_candidate ["cement_co2"; "cement_co2_per_capita"] cols) as [c|] eqn:E;
      cbn [or_else].
    + intros H; inversion H; subst c. revert E. apply Hcand. repeat constructor.
    + destruct (first_col _ cols) as [c|] eqn:E2; cbn; [|discriminate].
      intros H; inversion H; subst c. revert E2. apply Hpat. intros c Hc. apply andb_true_iff in Hc. tauto.
  - destruct (first_col _ cols) as [c|] eqn:E2; cbn; [|discriminate].
    intros H; inversion H; subst c. revert E2. apply Hpat. intros c Hc. apply andb_true_iff in Hc. tauto.
  - destruct (first_col _ cols) as [c|] eqn:E2; cbn; [|discriminate].
    intros H; inversion H; subst c. revert E2. apply Hpat. intros c Hc. apply andb_true_iff in Hc. tauto.
  - destruct (first_col _ cols) as [c|] eqn:E2; cbn; [|discriminate].
    intros H; inversion H; subst c. revert E2. apply Hpat. intros c Hc. apply andb_true_iff in Hc. tauto.
Qed.

(** A result without an error comes from the aggregation of a resolved
    column that has values. *)
Lemma execute_success : forall K df intent,
  ExecutionResult.error (execute K df intent) = None ->
  exists af rs col results incomputable,
    apply_filters df intent = (af, Ok rs)
    /\ _get_column_name (columns df) (gas intent) (sector intent) = Some col
    /\ column_values col rs <> []
    /\ compute_metrics K (column_values col rs)
         (if Str.mem "year" (columns df) then Some (time_series K col rs) else None)
         (metrics_to_compute intent) = (results, incomputable)
    /\ build_result results incomputable (_get_unit col) af (len (column_values col rs))
       = Ok (execute K df intent).
Proof.
  intros K df intent. unfold execute.
  destruct (apply_filters df intent) as [af [rs|e]] eqn:E; [|discriminate].
  unfold aggregate.
  destruct (_get_column_name _ _ _) as [col|] eqn:Ec; [|discriminate].
  destruct (negb _); [discriminate|].
  destruct (len (column_values col rs) =? 0) eqn:El; [discriminate|].
  destruct (compute_metrics _ _ _ _) as [results incomputable] eqn:Em.
  destruct (build_result _ _ _ _ _) as [r|e] eqn:Eb; cbn [try_except]; [|discriminate].
  intros _. exists af, rs, col, results, incomputable.
  split; [reflexivity|]. split; [reflexivity|]. split.
  { intros Hnil. rewrite Hnil in El. discriminate. }
  split; [exact Em|]. exact Eb.
Qed.

Lemma build_result_unit : forall results incomputable u af n r,
  build_result results incomputable u af n = Ok r ->
  ExecutionResult.unit r = Some u.
Proof.
  intros results incomputable u af n r. unfold build_result, ExecutionResult_new.
  destruct (validate_values results) as [d|e]; cbn [bind]; [|discriminate].
  destruct results as [|[k v] [|kv results]]; intros H; inversion H; reflexivity.
Qed.

(** C7, as the code has it.  A result without an error carries the unit
    of its resolved column: "tonnes per capita" when the lower-cased
    column name contains "per_capita", otherwise "million tonnes" when it
    contains "co2", otherwise "tonnes".  The marker of the second case is
    the literal "co2", not the requested gas; for a co2 intent the
    resolved column always contains it. *)
Theorem unit_follows_co2_marker : forall K df intent,
  ExecutionResult.error (execute K df intent) = None ->
  exists col,
    _get_column_name (columns df) (gas intent) (sector intent) = Some col
    /\ ExecutionResult.unit (execute K df intent) = Some (unit_rule col)
    /\ (gas intent = Some CO2 -> Str.contains "co2" (Str.lower col) = true).
Proof.
  intros K df intent H.
  destruct (execute_success K df intent H) as (af & rs & col & res & inc & _ & Hc & _ & _ & Hb).
  exists col. split; [assumption|]. split.
  - now rewrite (build_result_unit _ _ _ _ _ _ Hb).
  - intros Hg. rewrite Hg in Hc. now apply resolved_co2_column in Hc.
Qed.

(** ** The gate in front of the validator *)

(** C10.  An intent that is not a greeting, small talk or explanatory and
    carries no country, no year value, no metric, no metrics and no
    sector is answered with the clarification question of the gate; the
    view calls neither the validator nor the executor, whatever
    [needs_clarification] says. *)
Theorem underspecified_gate_precedes_validation :
  forall K explain df last_intent user_query intent,
  is_greeting intent = false ->
  is_small_talk intent = false ->
  is_explanatory intent = false ->
  country intent = None \/ country intent = Some "" ->
  no_year_value (year_filter intent) ->
  metric intent = None ->
  metrics intent = None \/ metrics intent = Some [] ->
  sector intent = None ->
  post K explain df last_intent user_query intent
  = ([], ClarificationResponse underspecified_question).
Proof.
  intros K explain df last_intent user_query intent Hg Hs He Hc Hy Hm Hms Hsec.
  unfold post.
  assert (Hmerge : merge_followup last_intent intent = intent).
  { unfold merge_followup. destruct last_intent; [now rewrite He | reflexivity]. }
  rewrite Hmerge, Hg, Hs, He.
  assert (Hu : is_underspecified intent = true).
  { unfold is_underspecified. rewrite Hm, Hsec.
    assert (truthy_str (country intent) = false) as -> by (destruct Hc as [-> | ->]; reflexivity).
    assert (truthy_list (metrics intent) = false) as -> by (destruct Hms as [-> | ->]; reflexivity).
    unfold no_year_value in Hy. destruct (year_filter intent) as [yf|]; [|reflexivity].
    destruct Hy as (-> & -> & ->). reflexivity. }
  now rewrite Hu.
Qed.

(** ** Dicts *)

Lemma dict_get_set_same : forall (V : Type) (d : dict V) k v,
  dict_get (dict_set d k v) k = Some v.
Proof.
  intros V d k v. induction d as [|[k' v'] d IH]; simpl.
  - now rewrite String.eqb_refl.
  - destruct (String.eqb k' k) eqn:E; simpl; now rewrite E.
Qed.

Lemma dict_get_set_other : forall (V : Type) (d : dict V) k k' v,
  k <> k' -> dict_get (dict_set d k v) k' = dict_get d k'.
Proof.
  intros V d k k' v Hne. induction d as [|[k0 v0] d IH]; simpl.
  - apply String.eqb_neq in Hne. now rewrite Hne.
  - destruct (String.eqb k0 k) eqn:E; simpl.
    + apply String.eqb_eq in E. subst k0.
      apply String.eqb_neq in Hne. now rewrite Hne.
    + destruct (String.eqb k0 k'); [reflexivity | exact IH].
Qed.

Lemma Metric_value_inj : forall m m', Metric_value m = Metric_value m' -> m = m'.
Proof. intros [] []; simpl; intros H; try reflexivity; discriminate. Qed.

Lemma Metric_value_not_pct : forall m, Metric_value m <> "change_pct".
Proof. intros []; discriminate. Qed.

(** ** The metric loop *)

Section MetricLoop.

Variable K : Numerics.
Variable values : list float.
Variable ts : option (list (Z * float)).

(** One turn of the loop, told by what it records. *)
Lemma metric_step_spec : forall results incomputable m,
  metric_step K values ts (results, incomputable) m =
  (dict_set
     (match m, change_pct ts with
      | CHANGE, Some p => dict_set results "change_pct" (Some p)
      | _, _ => results
      end)
     (Metric_value m) (metric_entry K values ts m),
   if is_null (metric_raw K values ts m)
   then (incomputable ++ [Metric_value m])%list else incomputable).
Proof.
  intros results incomputable m.
  unfold metric_step, metric_entry, change_pct.
  destruct m; cbn [metric_raw Metric_value];
    try (match goal with |- context [is_null (Some ?x)] => destruct (is_null (Some x)) end;
         reflexivity).
  - destruct ts as [[|[y0 first] [|second rest]]|]; try reflexivity.
    cbn [append]. destruct (PrimFloat.eqb first 0); cbn [negb];
      match goal with |- context [is_null (Some ?x)] => destruct (is_null (Some x)) end;
      reflexivity.
  - destruct ts as [[|[y0 first] [|second rest]]|]; try reflexivity.
    match goal with |- context [is_null ?x] => destruct (is_null x) end; reflexivity.
Qed.

Lemma Metric_eq_dec : forall m m' : Metric, {m = m'} + {m <> m'}.
Proof. decide equality. Qed.

Lemma metric_step_other_key : forall st m k,
  k <> Metric_value m ->
  (m = CHANGE -> change_pct ts <> None -> k <> "change_pct") ->
  dict_get (fst (metric_step K values ts st m)) k = dict_get (fst st) k.
Proof.
  intros [results inc] m k Hk Hp. rewrite metric_step_spec. cbn [fst].
  rewrite dict_get_set_other by congruence.
  destruct m; try reflexivity.
  destruct (change_pct ts) as [p|] eqn:E; [|reflexivity].
  apply dict_get_set_other. intros Heq. apply (Hp eq_refl); congruence.
Qed.

(** Every requested metric ends with its entry in [results]. *)
Lemma fold_metric_entry : forall ms st m,
  In m ms \/ dict_get (fst st) (Metric_value m) = Some (metric_entry K values ts m) ->
  dict_get (fst (fold_left (metric_step K values ts) ms st)) (Metric_value m)
  = Some (metric_entry K values ts m).
Proof.
  intros ms. induction ms as [|m' ms IH]; intros st m H.
  - destruct H as [[]|H]. exact H.
  - cbn [fold_left]. apply IH.
    destruct (Metric_eq_dec m' m) as [->|Hne].
    + right. destruct st as [results inc]. rewrite metric_step_spec. cbn [fst].
      apply dict_get_set_same.
    + destruct H as [[H|H]|H]; [contradiction | now left | right].
      rewrite metric_step_other_key; [exact H | |].
      * intros Heq. apply Metric_value_inj in Heq. congruence.
      * intros _ _. apply Metric_value_not_pct.
Qed.

(** A null metric ends in [incomputable]. *)
Lemma fold_incomputable : forall ms st m,
  is_null (metric_raw K values ts m) = true ->
  In m ms \/ In (Metric_value m) (snd st) ->
  In (Metric_value m) (snd (fold_left (metric_step K values ts) ms st)).
Proof.
  intros ms. induction ms as [|m' ms IH]; intros st m Hn H.
  - destruct H as [[]|H]. exact H.
  - cbn [fold_left]. apply IH; [assumption|].
    destruct st as [results inc]. rewrite metric_step_spec. cbn [snd].
    destruct H as [[->|H]|H].
    + right. rewrite Hn. apply in_or_app. right. now left.
    + now left.
    + right. cbn [snd] in H.
      destruct (is_null (metric_raw K values ts m')); [apply in_or_app; now left | assumption].
Qed.

(** Only null metrics end in [incomputable]. *)
Lemma fold_incomputable_only : forall ms st name,
  In name (snd (fold_left (metric_step K values ts) ms st)) ->
  In name (snd st)
  \/ exists m, In m ms /\ name = Metric_value m
               /\ is_null (metric_raw K values ts m) = true.
Proof.
  intros ms. induction ms as [|m' ms IH]; intros st name H.
  - now left.
  - cbn [fold_left] in H. apply IH in H. destruct H as [H|(m & Hin & Hn & Hnull)].
    + destruct st as [results inc]. rewrite metric_step_spec in H. cbn [snd] in *.
      destruct (is_null (metric_raw K values ts m')) eqn:E; [|now left].
      apply in_app_or in H. destruct H as [H|[<-|[]]]; [now left|].
      right. exists m'. repeat split; [now left | assumption].
    + right. exists m. repeat split; [now right | assumption | assumption].
Qed.

(** The [change_pct] entry: written by a [change] turn when the percent
    change is defined, and by nothing else. *)
Lemma fold_change_pct_some : forall ms st p,
  change_pct ts = Some p ->
  In CHANGE ms \/ dict_get (fst st) "change_pct" = Some (Some p) ->
  dict_get (fst (fold_left (metric_step K values ts) ms st)) "change_pct"
  = Some (Some p).
Proof.
  intros ms. induction ms as [|m' ms IH]; intros st p Hp H.
  - destruct H as [[]|H]. exact H.
  - cbn [fold_left]. apply IH; [assumption|].
    destruct (Metric_eq_dec m' CHANGE) as [->|Hne].
    + right. destruct st as [results inc]. rewrite metric_step_spec, Hp. cbn [fst].
      rewrite dict_get_set_other by discriminate. apply dict_get_set_same.
    + destruct H as [[H|H]|H]; [contradiction | now left | right].
      rewrite metric_step_other_key; [exact H | |].
      * intros Heq. symmetry in Heq. now apply Metric_value_not_pct in Heq.
      * intros Heq. contradiction.
Qed.

Lemma fold_change_pct_none : forall ms st,
  change_pct ts = None ->
  dict_get (fst (fold_left (metric_step K values ts) ms st)) "change_pct"
  = dict_get (fst st) "change_pct".
Proof.
  intros ms. induction ms as [|m' ms IH]; intros st Hp.
  - reflexivity.
  - cbn [fold_left]. rewrite IH by assumption.
    apply metric_step_other_key.
    + intros Heq. symmetry in Heq. now apply Metric_value_not_pct in Heq.
    + intros _ Hc. contradiction.
Qed.

End MetricLoop.

(** ** Building the result *)

Lemma validate_values_get : forall d vs k,
  validate_values d = Ok vs ->
  dict_get vs k = match dict_get d k with
                  | Some (Some v) => Some v
                  | _ => None
                  end.
Proof.
  induction d as [|[k0 [v0|]] d IH]; intros vs k H; simpl in H.
  - inversion H. reflexivity.
  - destruct (validate_values d) as [d'|e] eqn:E; cbn [bind] in H; [|discriminate].
    inversion H; subst vs. simpl. destruct (String.eqb k0 k); [reflexivity|].
    now apply IH.
  - discriminate.
Qed.

Lemma validate_values_rejects_none : forall d k,
  dict_get d k = Some None -> exists e, validate_values d = Raise e.
Proof.
  induction d as [|[k0 [v0|]] d IH]; intros k H; simpl in *.
  - discriminate.
  - destruct (String.eqb k0 k); [discriminate|].
    destruct (IH _ H) as [e He]. exists e. now rewrite He.
  - eexists. reflexivity.
Qed.

Lemma build_result_ok : forall results incomputable u af n r,
  build_result results incomputable u af n = Ok r ->
  exists vs, validate_values results = Ok vs
             /\ ExecutionResult.values r = Some vs
             /\ ExecutionResult.error r = None.
Proof.
  intros results incomputable u af n r. unfold build_result, ExecutionResult_new.
  destruct (validate_values results) as [vs|e]; cbn [bind]; [|discriminate].
  intros H. exists vs.
  destruct results as [|[k v] [|kv results]]; inversion H; subst r; cbn; auto.
Qed.

Lemma build_result_raises : forall results incomputable u af n k,
  dict_get results k = Some None ->
  exists e, build_result results incomputable u af n = Raise e.
Proof.
  intros results incomputable u af n k H.
  destruct (validate_values_rejects_none _ _ H) as [e He].
  exists e. unfold build_result, ExecutionResult_new. now rewrite He.
Qed.

(** The shape of every result of [execute]: a failure without values, or
    the validated outcome of the metric loop. *)
Lemma execute_inv : forall K df intent,
  (ExecutionResult.values (execute K df intent) = None
   /\ ExecutionResult.value (execute K df intent) = None
   /\ ExecutionResult.incomputable_metrics (execute K df intent) = None
   /\ truthy_str (ExecutionResult.error (execute K df intent)) = true)
  \/
  (exists af rs col results incomputable,
     apply_filters df intent = (af, Ok rs)
     /\ _get_column_name (columns df) (gas intent) (sector intent) = Some col
     /\ column_values col rs <> []
     /\ compute_metrics K (column_values col rs)
          (if Str.mem "year" (columns df) then Some (time_series K col rs) else None)
          (metrics_to_compute intent) = (results, incomputable)
     /\ build_result results incomputable (_get_unit col) af (len (column_values col rs))
        = Ok (execute K df intent)).
Proof.
  intros K df intent. unfold execute.
  destruct (apply_filters df intent) as [af [rs|e]] eqn:E; [|left; cbn; auto].
  unfold aggregate.
  destruct (_get_column_name _ _ _) as [col|] eqn:Ec; [|left; cbn; auto].
  destruct (negb _); [left; cbn; auto|].
  destruct (len (column_values col rs) =? 0) eqn:El; [left; cbn; auto|].
  destruct (compute_metrics _ _ _ _) as [results incomputable] eqn:Em.
  destruct (build_result _ _ _ _ _) as [r|e] eqn:Eb; cbn [try_except];
    [|left; cbn; auto].
  right. exists af, rs, col, results, incomputable.
  split; [reflexivity|]. split; [reflexivity|]. split.
  { intros Hnil. rewrite Hnil in El. discriminate. }
  split; [exact Em|]. exact Eb.
Qed.

(** ** Percent change *)

(** C9.  Take an execution that requests [change] and whose year-indexed
    series has at least two years.  In the [results] of the metric loop
    the [change_pct] entry is [(last - first) / first * 100] when the
    first-year aggregate is not zero, and the key is absent when it is
    zero.  When the execution returns without error, the result reports
    values, and these hold the same entry, or lack the key, in the same
    two cases. *)
Theorem change_pct_present_iff_first_nonzero :
  forall K df intent col y0 first second rest,
  let rs := filter (row_selected intent) (rows df) in
  _get_column_name (columns df) (gas intent) (sector intent) = Some col ->
  time_series K col rs = (y0, first) :: second :: rest ->
  In CHANGE (metrics_to_compute intent) ->
  let last := snd (List.last (time_series K col rs) (0, first)) in
  let pct := ((last - first) / first * 100)%float in
  let results :=
    fst (compute_metrics K (column_values col rs) (Some (time_series K col rs))
           (metrics_to_compute intent)) in
  (PrimFloat.eqb first 0 = false -> dict_get results "change_pct" = Some (Some pct))
  /\ (PrimFloat.eqb first 0 = true -> dict_get results "change_pct" = None)
  /\ (ExecutionResult.error (execute K df intent) = None ->
      exists vs,
        ExecutionResult.values (execute K df intent) = Some vs
        /\ (PrimFloat.eqb first 0 = false -> dict_get vs "change_pct" = Some pct)
        /\ (PrimFloat.eqb first 0 = true -> dict_get vs "change_pct" = None)).
Proof.
  intros K df intent col y0 first second rest rs Hcol Hts Hin last pct results.
  assert (Hpct : change_pct (Some (time_series K col rs))
                 = if PrimFloat.eqb first 0 then None else Some pct).
  { unfold change_pct, pct, last. rewrite Hts. reflexivity. }
  assert (Hloop : dict_get results "change_pct"
                  = if PrimFloat.eqb first 0 then None else Some (Some pct)).
  { unfold results, compute_metrics. destruct (PrimFloat.eqb first 0).
    - now rewrite fold_change_pct_none.
    - apply fold_change_pct_some; [assumption | now left]. }
  assert (Hexec : ExecutionResult.error (execute K df intent) = None ->
            exists vs,
              ExecutionResult.values (execute K df intent) = Some vs
              /\ dict_get vs "change_pct"
                 = if PrimFloat.eqb first 0 then None else Some pct).
  { intros Herr.
    destruct (execute_inv K df intent)
      as [(_ & _ & _ & Ht)|(af & rs' & col' & res & inc & Hf & Hc & _ & Hm & Hb)].
    { rewrite Herr in Ht. discriminate. }
    apply apply_filters_selected in Hf. fold rs in Hf. subst rs'.
    rewrite Hcol in Hc. injection Hc as <-.
    destruct (build_result_ok _ _ _ _ _ _ Hb) as (vs & Hval & Hvs & _).
    exists vs. split; [assumption|].
    destruct (Str.mem "year" (columns df)).
    - rewrite (validate_values_get _ _ "change_pct" Hval).
      assert (res = results) as -> by (unfold results; now rewrite Hm).
      rewrite Hloop. now destruct (PrimFloat.eqb first 0).
    - exfalso.
      assert (Hnull : dict_get res (Metric_value CHANGE) = Some None).
      { replace res with (fst (compute_metrics K (column_values col rs) None
                                 (metrics_to_compute intent))) by now rewrite Hm.
        unfold compute_metrics. rewrite fold_metric_entry by now left. reflexivity. }
      destruct (build_result_raises res inc (_get_unit col) af
                  (len (column_values col rs)) _ Hnull) as [e He].
      congruence. }
  split; [intros H0; now rewrite H0 in Hloop|].
  split; [intros H0; now rewrite H0 in Hloop|].
  intros Herr. destruct (Hexec Herr) as (vs & Hvs & Hget). exists vs.
  split; [assumption|].
  split; intros H0; now rewrite H0 in Hget.
Qed.

(** ** Incomputable metrics *)

Lemma short_series_null : forall K values ts m,
  short_series ts -> m = CHANGE \/ m = TREND ->
  metric_raw K values ts m = None.
Proof.
  intros K values ts m Hs [-> | ->]; cbn [metric_raw];
    destruct ts as [[|[y0 first] [|second rest]]|]; try reflexivity; destruct Hs.
Qed.

(** What the loop itself does on a short series: the metric is recorded
    as [None], its name is in [incomputable], and every requested metric
    has its entry in [results]. *)
Lemma loop_records_incomputable : forall K values ts ms m,
  short_series ts -> m = CHANGE \/ m = TREND -> In m ms ->
  let st := compute_metrics K values ts ms in
  dict_get (fst st) (Metric_value m) = Some None
  /\ In (Metric_value m) (snd st)
  /\ forall m', In m' ms ->
       dict_get (fst st) (Metric_value m') = Some (metric_entry K values ts m').
Proof.
  intros K values ts ms m Hs Hm Hin st.
  assert (Hraw := short_series_null K values ts m Hs Hm).
  assert (Hentry : forall m', In m' ms ->
            dict_get (fst st) (Metric_value m') = Some (metric_entry K values ts m')).
  { intros m' Hin'. unfold st, compute_metrics. apply fold_metric_entry. now left. }
  split; [|split; [|exact Hentry]].
  - rewrite (Hentry m Hin). unfold metric_entry. now rewrite Hraw.
  - unfold st, compute_metrics. apply fold_incomputable; [now rewrite Hraw | now left].
Qed.

(** The execution as a whole, when one requested metric is null: the
    result construction rejects the [None] entry and [execute] returns
    its failure result. *)
Lemma null_metric_fails_execution : forall K df intent af rs col m,
  apply_filters df intent = (af, Ok rs) ->
  _get_column_name (columns df) (gas intent) (sector intent) = Some col ->
  column_values col rs <> [] ->
  In m (metrics_to_compute intent) ->
  is_null (metric_raw K (column_values col rs)
             (if Str.mem "year" (columns df) then Some (time_series K col rs) else None)
             m) = true ->
  exists e, execute K df intent = execution_failed e af.
Proof.
  intros K df intent af rs col m Hf Hc Hv Hin Hnull.
  unfold execute. rewrite Hf. unfold aggregate. rewrite Hc.
  rewrite (mem_in _ _ (resolved_in_columns _ _ _ _ Hc)). cbn [negb].
  assert ((len (column_values col rs) =? 0) = false) as ->.
  { apply Z.eqb_neq. unfold len. destruct (column_values col rs); [contradiction|].
    cbn [List.length]. lia. }
  destruct (compute_metrics _ _ _ _) as [results inc] eqn:Em.
  assert (Hnone : dict_get results (Metric_value m) = Some None).
  { replace results with (fst (compute_metrics K (column_values col rs)
       (if Str.mem "year" (columns df) then Some (time_series K col rs) else None)
       (metrics_to_compute intent))) by now rewrite Em.
    unfold compute_metrics. rewrite fold_metric_entry by now left.
    unfold metric_entry. now rewrite Hnull. }
  destruct (build_result_raises results inc (_get_unit col) af
              (len (column_values col rs)) _ Hnone) as [e He].
  exists e. now rewrite He.
Qed.

(** C5, on the code.  China in 2020 is a one-year series; asking for
    [change] and [sum] over it, the loop records [change] as [None] and
    computes [sum], but the result construction rejects the [None] entry:
    the execution returns its failure result, with no [values], no
    [incomputable_metrics] and an error. *)
Theorem single_year_change_aborts_execution :
  let intent := Example.intent "China" CO2 [CHANGE; SUM]
                  (Some (mkYearFilter (Some 2020) None None)) in
  let rs := filter (row_selected intent) (rows Example.df) in
  List.length (time_series Naive.numerics "co2" rs) = 1%nat
  /\ compute_metrics Naive.numerics (column_values "co2" rs)
       (Some (time_series Naive.numerics "co2" rs)) [CHANGE; SUM]
     = ([("change", None); ("sum", Some 1000%float)], ["change"])
  /\ execute Naive.numerics Example.df intent
     = execution_failed
         (ValidationError "values.change: Input should be a valid number")
         [("country", FStr "China"); ("year", FInt 2020)]
  /\ ExecutionResult.values (execute Naive.numerics Example.df intent) = None
  /\ ExecutionResult.incomputable_metrics (execute Naive.numerics Example.df intent) = None.
Proof. vm_compute. repeat split; reflexivity. Qed.

(** C6, on the code.  With [change] as the only requested metric over
    China's two years, [values] holds [change] and the derived
    [change_pct], so [len(results) == 1] fails and [value] stays unset
    although exactly one metric was requested. *)
Theorem single_change_metric_leaves_value_unset :
  let intent := Example.intent "China" CO2 [CHANGE] None in
  metrics_to_compute intent = [CHANGE]
  /\ ExecutionResult.values (execute Naive.numerics Example.df intent)
     = Some [("change_pct", 10%float); ("change", 100%float)]
  /\ ExecutionResult.value (execute Naive.numerics Example.df intent) = None
  /\ ExecutionResult.error (execute Naive.numerics Example.df intent) = None.
Proof. vm_compute. repeat split; reflexivity. Qed.

(** ** Bare years *)

Lemma is_digit_val : forall c, Str.is_digit c = true -> 0 <= digit_val c <= 9.
Proof.
  intros c H. unfold Str.is_digit in H. unfold digit_val.
  apply andb_true_iff in H. destruct H as [H1 H2].
  apply Nat.leb_le in H1, H2. lia.
Qed.

Lemma year_value_range : forall a b c d,
  year_digits a b c d -> 1900 <= year_value a b c d <= 2099.
Proof.
  intros a b c d (Hab & Hc & Hd). apply is_digit_val in Hc, Hd.
  unfold year_value. destruct Hab as [[-> ->]|[-> ->]].
  - change (digit_val "1") with 1. change (digit_val "9") with 9. lia.
  - change (digit_val "2") with 2. change (digit_val "0") with 0. lia.
Qed.

Lemma bare_year_here_spec : forall s y,
  bare_year_here s = Some y <->
  exists a b c d post,
    s = String a (String b (String c (String d post)))
    /\ year_digits a b c d /\ boundary_after post = true
    /\ y = year_value a b c d.
Proof.
  intros s y. split.
  - destruct s as [|a [|b [|c [|d post]]]]; try discriminate.
    unfold bare_year_here.
    destruct ((Ascii.eqb a "1" && Ascii.eqb b "9") || (Ascii.eqb a "2" && Ascii.eqb b "0")) eqn:Eab;
      [|discriminate].
    destruct (Str.is_digit c) eqn:Ec; [|discriminate].
    destruct (Str.is_digit d) eqn:Ed; [|discriminate].
    destruct (boundary_after post) eqn:Eb; [|discriminate].
    cbn [andb]. intros H. injection H as <-.
    assert (Hab : (a = "1"%char /\ b = "9"%char) \/ (a = "2"%char /\ b = "0"%char)).
    { apply orb_true_iff in Eab.
      destruct Eab as [E|E]; apply andb_true_iff in E; destruct E as [E1 E2];
        apply Ascii.eqb_eq in E1, E2; [left | right]; now split. }
    exists a, b, c, d, post.
    exact (conj eq_refl (conj (conj Hab (conj Ec Ed)) (conj Eb eq_refl))).
  - intros (a & b & c & d & post & -> & (Hab & Hc & Hd) & Hb & ->).
    unfold bare_year_here. rewrite Hc, Hd, Hb.
    destruct Hab as [[-> ->]|[-> ->]]; reflexivity.
Qed.

Lemma last_char_cons : forall c s,
  last_char (String c s) = match last_char s with None => Some c | Some c' => Some c' end.
Proof. reflexivity. Qed.

Lemma bare_year_at_cons : forall pw x s pre y post,
  bare_year_at (Str.is_word x) s pre y post <->
  bare_year_at pw (String x s) (String x pre) y post.
Proof.
  intros pw x s pre y post. unfold bare_year_at, boundary_before.
  rewrite last_char_cons.
  split; intros (a & b & c & d & Hs & Hd & Hb & Ha & Hy); exists a, b, c, d.
  - subst s. refine (conj eq_refl (conj Hd (conj _ (conj Ha Hy)))).
    destruct (last_char pre); assumption.
  - cbn [append] in Hs. injection Hs as Hs.
    refine (conj Hs (conj Hd (conj _ (conj Ha Hy)))).
    destruct (last_char pre); assumption.
Qed.

(** [search_bare_year] finds the leftmost bare year, and finds none only
    when the text has none. *)
Lemma search_bare_year_spec : forall s pw,
  match search_bare_year pw s with
  | Some y =>
      exists pre post,
        bare_year_at pw s pre y post
        /\ forall pre' y' post', bare_year_at pw s pre' y' post' ->
             (String.length pre <= String.length pre')%nat
  | None => forall pre y post, ~ bare_year_at pw s pre y post
  end.
Proof.
  induction s as [|x s IH]; intros pw.
  - cbn. intros pre y post (a & b & c & d & Hs & _).
    destruct pre; discriminate.
  - cbn [search_bare_year].
    destruct (if pw then None else bare_year_here (String x s)) as [y|] eqn:E.
    + destruct pw; [discriminate|].
      apply bare_year_here_spec in E.
      destruct E as (a & b & c & d & post & Hs & Hd & Ha & Hy).
      exists "", post. split.
      * exists a, b, c, d. exact (conj Hs (conj Hd (conj eq_refl (conj Ha Hy)))).
      * intros. cbn. lia.
    + assert (Hno : forall y post, ~ bare_year_at pw (String x s) "" y post).
      { intros y post (a & b & c & d & Hs & Hd & Hb & Ha & Hy).
        unfold boundary_before in Hb. cbn in Hb. subst pw.
        cbn [append] in Hs.
        assert (bare_year_here (String x s) = Some y) as Hh.
        { apply bare_year_here_spec. exists a, b, c, d, post. auto. }
        congruence. }
      assert (Hshape : forall pre y post, bare_year_at pw (String x s) pre y post ->
                exists pre', pre = String x pre' /\ bare_year_at (Str.is_word x) s pre' y post).
      { intros pre y post H. destruct pre as [|x' pre'].
        - now apply Hno in H.
        - assert (x' = x) as ->.
          { destruct H as (a & b & c & d & Hs & _). cbn [append] in Hs. congruence. }
          exists pre'. split; [reflexivity|]. now apply (bare_year_at_cons pw). }
      specialize (IH (Str.is_word x)).
      destruct (search_bare_year (Str.is_word x) s) as [y|].
      * destruct IH as (pre & post & Hat & Hleft).
        exists (String x pre), post. split.
        -- now apply bare_year_at_cons.
        -- intros pre' y' post' H'. apply Hshape in H'.
           destruct H' as (p' & -> & H'). cbn [String.length].
           apply Hleft in H'. lia.
      * intros pre y post H. apply Hshape in H. destruct H as (p' & _ & H).
        now apply IH in H.
Qed.

(** ** The heuristic extractor *)

Lemma infer_gas_known : forall uq g, infer_gas uq = Some g -> In g gases.
Proof.
  intros uq g. unfold infer_gas.
  destruct (find _ gases) as [g0|] eqn:F; cbn [or_else].
  - intros H; inversion H; subst g0. now apply find_some in F.
  - destruct (_ || _); [|discriminate]. intros H; inversion H. now left.
Qed.

Lemma infer_gas_valid : forall uq,
  exists g, validate_enum "gas" Gas_of_value (infer_gas uq) = Ok g.
Proof.
  intros uq. destruct (infer_gas uq) as [g|] eqn:E; [|eexists; reflexivity].
  apply infer_gas_known in E. cbn in E.
  destruct E as [<-|[<-|[<-|[]]]]; eexists; reflexivity.
Qed.

Lemma detect_metrics_valid : forall uq, Forall valid_metric_name (detect_metrics uq).
Proof.
  intros uq. unfold detect_metrics.
  assert (Htable : Forall (fun pm => valid_metric_name (snd pm)) metric_map).
  { unfold metric_map. repeat constructor; eexists; reflexivity. }
  assert (Hgen : forall table init,
            Forall (fun pm => valid_metric_name (snd pm)) table ->
            Forall valid_metric_name init ->
            Forall valid_metric_name
              (fold_left
                 (fun detected (pm : string * string) =>
                    if Str.contains (fst pm) uq && negb (Str.mem (snd pm) detected)
                    then (detected ++ [snd pm])%list else detected)
                 table init)).
  { induction table as [|pm table IH]; intros init Ht Hi; [exact Hi|].
    cbn [fold_left]. inversion Ht; subst. apply IH; [assumption|].
    destruct (_ && _); [|assumption].
    apply Forall_app. split; [assumption | now constructor]. }
  apply Hgen; [exact Htable | constructor].
Qed.

Lemma validate_metric_list_ok : forall l,
  Forall valid_metric_name l -> exists ms, validate_metric_list l = Ok ms.
Proof.
  induction l as [|s l IH]; intros H.
  - eexists; reflexivity.
  - inversion H as [|? ? [m Hm] Hl]; subst. destruct (IH Hl) as [ms Hms].
    exists (m :: ms). cbn [validate_metric_list]. now rewrite Hm, Hms.
Qed.

(** The heuristic path raises exactly when the years it parsed fail
    [validate_year]; otherwise it returns an intent with these years. *)
Lemma heuristic_extraction_cases : forall md user_query,
  let yrmax := match year_range md with Some (_, ymax) => Some ymax | None => None end in
  match parse_year_filter yrmax (Str.lower user_query) with
  | None =>
      exists intent,
        extract_intent_heuristic md user_query = Ok intent
        /\ year_filter intent = None
  | Some y =>
      match YearFilter_new (yfd_year y) (yfd_year_min y) (yfd_year_max y) with
      | Ok yf =>
          exists intent,
            extract_intent_heuristic md user_query = Ok intent
            /\ year_filter intent = Some yf
      | Raise e => extract_intent_heuristic md user_query = Raise e
      end
  end.
Proof.
  intros md user_query yrmax.
  unfold extract_intent_heuristic, QueryIntent_of_dict, heuristic_intent_dict.
  cbn [d_gas d_sector d_metric d_metrics d_year_filter d_country d_is_greeting
       d_is_small_talk d_is_explanatory d_needs_clarification d_clarification_question].
  fold yrmax.
  destruct (infer_gas_valid (Str.lower user_query)) as [g ->]. cbn [bind].
  assert (Hs : exists s,
            validate_enum "sector" Sector_of_value
              match infer_gas (Str.lower user_query) with
              | Some g0 => if String.eqb (Str.lower g0) "co2" then Some "total" else None
              | None => None
              end = Ok s).
  { destruct (infer_gas _) as [g0|]; [destruct (String.eqb _ _)|]; eexists; reflexivity. }
  destruct Hs as [s ->]. cbn [bind].
  pose proof (detect_metrics_valid (Str.lower user_query)) as Hd.
  destruct (detect_metrics (Str.lower user_query)) as [|m0 ms0] eqn:Edm.
  - cbn [validate_enum bind].
    destruct (parse_year_filter yrmax (Str.lower user_query)) as [y|].
    + destruct (YearFilter_new _ _ _) as [yf|e]; cbn [bind];
        [eexists; split; reflexivity | reflexivity].
    + cbn [bind]. eexists; split; reflexivity.
  - inversion Hd as [|? ? [m Hm] Hl]; subst.
    destruct (validate_metric_list_ok _ Hd) as [ms Hms].
    cbn [validate_enum]. rewrite Hm, Hms. cbn [bind].
    destruct (parse_year_filter yrmax (Str.lower user_query)) as [y|].
    + destruct (YearFilter_new _ _ _) as [yf|e]; cbn [bind];
        [eexists; split; reflexivity | reflexivity].
    + cbn [bind]. eexists; split; reflexivity.
Qed.

Lemma parse_year_filter_bare : forall yrmax uq,
  no_earlier_year_pattern uq ->
  parse_year_filter yrmax uq =
  match search_bare_year false uq with
  | Some y => Some (mkYearFilterDict (Some y) None None)
  | None => None
  end.
Proof.
  intros yrmax uq (H1 & H2 & H3 & H4). unfold parse_year_filter.
  rewrite H1, H2, H3, H4. reflexivity.
Qed.

Lemma YearFilter_new_year_ok : forall y,
  1800 <= y <= 2100 ->
  YearFilter_new (Some y) None None = Ok (mkYearFilter (Some y) None None).
Proof.
  intros y Hy. unfold YearFilter_new, validate_year.
  destruct (Z.ltb_spec y 1800); [lia|]. destruct (Z.gtb_spec y 2100); [lia|].
  reflexivity.
Qed.

(** C8, as the code has it.  Take an ASCII query, where the scanners
    are the regular expressions of the code.  When the lower-cased query
    holds no earlier kind of year reference, the heuristic extractor
    sets [year] from the leftmost bare four-digit token of the form
    [(19|20)\d{2}], a year between 1900 and 2099; when the query has no
    such token (a bare year of the 1800s is not one) the year filter
    stays unset. *)
Theorem bare_year_1900_to_2099_sets_year : forall md user_query,
  let uq := Str.lower user_query in
  Str.is_ascii user_query = true ->
  no_earlier_year_pattern uq ->
  (forall pre y post, bare_year_at false uq pre y post ->
     exists intent y' pre' post',
       extract_intent None md user_query = Ok intent
       /\ year_filter intent = Some (mkYearFilter (Some y') None None)
       /\ bare_year_at false uq pre' y' post'
       /\ (String.length pre' <= String.length pre)%nat
       /\ 1900 <= y' <= 2099)
  /\
  ((forall pre y post, ~ bare_year_at false uq pre y post) ->
     exists intent,
       extract_intent None md user_query = Ok intent
       /\ year_filter intent = None).
Proof.
  intros md user_query uq _ Hno.
  pose proof (heuristic_extraction_cases md user_query) as Hc. cbv zeta in Hc.
  fold uq in Hc. rewrite (parse_year_filter_bare _ uq Hno) in Hc.
  pose proof (search_bare_year_spec uq false) as Hs.
  cbn [extract_intent].
  destruct (search_bare_year false uq) as [y'|].
  - destruct Hs as (pre' & post' & Hat & Hleft). split.
    + intros pre y post H.
      assert (Hr : 1900 <= y' <= 2099).
      { destruct Hat as (a & b & c & d & _ & Hd & _ & _ & ->).
        now apply year_value_range. }
      cbn [yfd_year yfd_year_min yfd_year_max] in Hc.
      rewrite YearFilter_new_year_ok in Hc by lia.
      destruct Hc as (intent & Hi & Hy).
      exists intent, y', pre', post'.
      refine (conj Hi (conj Hy (conj Hat (conj _ Hr)))). exact (Hleft _ _ _ H).
    + intros Hnone. exfalso. exact (Hnone _ _ _ Hat).
  - split.
    + intros pre y post H. exfalso. exact (Hs _ _ _ H).
    + intros _. exact Hc.
Qed.

(** C2, on the code.  Without a provider, a query with a year range
    outside 1800..2100 makes the construction of the [QueryIntent] fail,
    and nothing on this path catches the error. *)
Theorem heuristic_path_raises_on_invalid_years :
  extract_intent None Example.metadata "co2 emissions from 1700 to 1750"
  = Raise (ValidationError "Year must be between 1800 and 2100").
Proof. vm_compute. reflexivity. Qed.

(** With a provider, every failure inside the [try] block becomes an
    intent that asks for clarification. *)
Lemma provider_path_never_raises : forall reply md user_query,
  exists intent,
    extract_intent (Some reply) md user_query = Ok intent
    /\ (forall e, provider_body md user_query reply = Raise e ->
          needs_clarification intent = true
          /\ truthy_str (clarification_question intent) = true).
Proof.
  intros reply md user_query. cbn [extract_intent]. eexists. split; [reflexivity|].
  intros e He. rewrite He. cbn [try_except]. destruct e; split; reflexivity.
Qed.

Lemma patch_year_filter_bare : forall yrmax uq e y,
  no_earlier_year_pattern uq ->
  search_bare_year false uq = Some y ->
  patch_year_filter yrmax uq e = update_year_filter (set_yp_year y) e.
Proof.
  intros yrmax uq e y (H1 & H2 & H3 & H4) Hy. unfold patch_year_filter.
  now rewrite H1, H2, H3, H4, Hy.
Qed.

Lemma YearFilter_new_year : forall y lo hi yf,
  YearFilter_new y lo hi = Ok yf -> year yf = y.
Proof.
  intros y lo hi yf. unfold YearFilter_new.
  destruct (validate_year y) as [y'|] eqn:Ey; cbn [bind]; [|discriminate].
  destruct (validate_year lo) as [lo'|]; cbn [bind]; [|discriminate].
  destruct (validate_year hi) as [hi'|]; cbn [bind]; [|discriminate].
  intros H; inversion H; subst yf. cbn.
  unfold validate_year in Ey. destruct y as [v|]; [|now inversion Ey].
  destruct (_ || _); [discriminate | now inversion Ey].
Qed.

(** The provider path reads a bare year of an ASCII query the same way:
    whenever the normalized proposal validates, its [year] is the leftmost bare year
    of the query. *)
Lemma provider_path_bare_year : forall md user_query p y intent,
  Str.is_ascii user_query = true ->
  no_earlier_year_pattern (Str.lower user_query) ->
  search_bare_year false (Str.lower user_query) = Some y ->
  normalize_proposal md user_query p = Ok intent ->
  exists yf, year_filter intent = Some yf /\ year yf = Some y.
Proof.
  intros md user_query p y intent _ Hno Hy. unfold normalize_proposal.
  rewrite (patch_year_filter_bare _ _ _ y Hno Hy).
  destruct (p_year_filter p) as [| |yp]; cbn [update_year_filter bind];
    try discriminate;
    unfold QueryIntent_of_proposal;
    cbn [p_gas p_sector p_metric p_metrics p_year_filter p_country p_is_greeting
         p_is_small_talk p_is_explanatory p_low_confidence p_needs_clarification
         p_clarification_question optional set_yp_year yp_year yp_year_min yp_year_max];
    repeat match goal with
           | |- bind ?m _ = Ok _ -> _ =>
               let E := fresh "E" in
               destruct m eqn:E; cbn [bind]; [|discriminate]
           end;
    intros H; inversion H; subst intent; cbn [year_filter];
    repeat match goal with
           | E : bind ?m _ = Ok _ |- _ =>
               let E' := fresh "E" in
               destruct m eqn:E'; cbn [bind] in E; [|discriminate]
           end;
    match goal with
    | E : Ok (Some ?yf) = Ok ?a |- _ =>
        inversion E; subst; exists yf; split; [reflexivity|];
        eapply YearFilter_new_year; eassumption
    end.
Qed.

(** ** The year-indexed series *)

Lemma group_insert_keys : forall y v g x,
  In x (map fst (group_insert y v g)) <-> x = y \/ In x (map fst g).
Proof.
  intros y v g x. induction g as [|[y' vs] g IH]; cbn [group_insert map fst In].
  - intuition.
  - destruct (Z.ltb_spec y y'); [cbn; intuition|].
    destruct (Z.eqb_spec y y'); cbn [map fst In]; [subst; intuition|].
    rewrite IH. intuition.
Qed.

Lemma group_insert_sorted : forall y v g,
  Sorted Z.lt (map fst g) -> Sorted Z.lt (map fst (group_insert y v g)).
Proof.
  intros y v g. induction g as [|[y' vs] g IH]; cbn [group_insert map fst]; intros Hs.
  - repeat constructor.
  - destruct (Z.ltb_spec y y').
    + constructor; [exact Hs | now constructor].
    + destruct (Z.eqb_spec y y'); [exact Hs|].
      inversion Hs as [|? ? Hs' Hhd]; subst. constructor; [now apply IH|].
      destruct g as [|[y'' vs''] g]; cbn [group_insert map fst].
      * constructor. lia.
      * inversion Hhd; subst.
        destruct (Z.ltb_spec y y''); cbn [map fst]; [constructor; lia|].
        destruct (Z.eqb_spec y y''); cbn [map fst]; now constructor.
Qed.

(** The years of the series are the years that occur in the filtered
    rows, each once, in increasing order: its length is the number of
    distinct years. *)
Lemma time_series_years : forall K c rs,
  Sorted Z.lt (map fst (time_series K c rs))
  /\ forall y, In y (map fst (time_series K c rs)) <-> In y (map fst (series_df c rs)).
Proof.
  intros K c rs. unfold time_series. rewrite map_map. cbn [fst].
  change (map (fun x : Z * list float => fst x)) with (map (@fst Z (list float))).
  unfold groupby_year.
  assert (Hgen : forall s g,
            Sorted Z.lt (map fst g) ->
            Sorted Z.lt
              (map fst (fold_left (fun g yv => group_insert (fst yv) (snd yv) g) s g))
            /\ forall y,
                 In y (map fst (fold_left (fun g yv => group_insert (fst yv) (snd yv) g) s g))
                 <-> In y (map fst s) \/ In y (map fst g)).
  { induction s as [|[y0 v0] s IH]; intros g Hg; cbn [fold_left map fst In].
    - split; [assumption | intuition].
    - destruct (IH (group_insert y0 v0 g) (group_insert_sorted y0 v0 g Hg)) as [H1 H2].
      split; [assumption|]. intros y. rewrite H2, group_insert_keys. intuition. }
  destruct (Hgen (series_df c rs) [] (Sorted_nil _)) as [H1 H2].
  split; [assumption|]. intros y. rewrite H2. cbn. intuition.
Qed.

(** ** The single-value alias *)

(** With one requested metric other than [change], [value] mirrors the
    entry of that metric in [values]. *)
Lemma single_metric_value_mirrors : forall K df intent m vs,
  metrics_to_compute intent = [m] -> m <> CHANGE ->
  ExecutionResult.values (execute K df intent) = Some vs ->
  ExecutionResult.value (execute K df intent) = dict_get vs (Metric_value m)
  /\ ExecutionResult.value (execute K df intent) <> None.
Proof.
  intros K df intent m vs Hm Hne Hvs.
  destruct (execute_inv K df intent)
    as [(Hnone & _)|(af & rs & col & res & inc & _ & _ & _ & Hc & Hb)]; [congruence|].
  rewrite Hm in Hc. unfold compute_metrics in Hc. cbn [fold_left] in Hc.
  rewrite metric_step_spec in Hc.
  assert (Hres : res = [(Metric_value m, metric_entry K (column_values col rs)
             (if Str.mem "year" (columns df) then Some (time_series K col rs) else None) m)]).
  { destruct m; try contradiction; now inversion Hc. }
  clear Hc. subst res.
  unfold build_result, ExecutionResult_new in Hb. cbn [validate_values] in Hb.
  destruct (metric_entry _ _ _ m) as [v|]; cbn [bind] in Hb; [|discriminate].
  injection Hb as Hb. rewrite <- Hb in Hvs |- *. cbn in Hvs |- *. injection Hvs as <-.
  cbn. rewrite String.eqb_refl. split; [reflexivity | discriminate].
Qed.

(* ================================================================= *)
(** * The statements at work on the small dataset *)

(** C1, as stated, fails: no row of the dataset is in Atlantis, yet the
    result carries an error and the router takes the execution-error
    branch, not the empty-result one. *)
Lemma zero_rows_error_is_set :
  let intent := Example.intent "Atlantis" CO2 [SUM] None in
  filter (row_selected intent) (rows Example.df) = []
  /\ ExecutionResult.error (execute Naive.numerics Example.df intent)
     = Some "No data available for the specified filters"
  /\ ExecutionResult.values (execute Naive.numerics Example.df intent) = None
  /\ route false (execute Naive.numerics Example.df intent) = ExecutionError.
Proof. vm_compute. repeat split; reflexivity. Qed.

(** The corrected C1 on a query for a country the dataset does not have. *)
Lemma zero_rows_witness :
  let intent := Example.intent "Atlantis" CO2 [SUM; AVERAGE] None in
  filter (row_selected intent) (rows Example.df) = []
  /\ (let r := execute Naive.numerics Example.df intent in
      ExecutionResult.record_count r = 0
      /\ ExecutionResult.value r = None
      /\ ExecutionResult.values r = None
      /\ truthy_str (ExecutionResult.error r) = true
      /\ route true r = ExecutionError
      /\ (forall af rs col,
            apply_filters Example.df intent = (af, Ok rs) ->
            _get_column_name (columns Example.df) (gas intent) (sector intent)
            = Some col ->
            ExecutionResult.error r
            = Some "No data available for the specified filters")).
Proof.
  split; [reflexivity|].
  apply (zero_rows_reported_as_execution_error Naive.numerics Example.df
           (Example.intent "Atlantis" CO2 [SUM; AVERAGE] None) true).
  reflexivity.
Defined.

(** C3 on China in 2020, with a stray range 1990..2000 next to the
    year: the one row of China in 2020 is kept, and its co2 is summed. *)
Lemma year_overrides_range_witness :
  let intent := Example.intent "China" CO2 [SUM] None in
  let both :=
    with_year_filter intent (Some (mkYearFilter (Some 2020) (Some 1990) (Some 2000))) in
  let only := with_year_filter intent (Some (mkYearFilter (Some 2020) None None)) in
  let af := [("country", FStr "China"); ("year", FInt 2020)] in
  2020 <> 0
  /\ Str.mem "year" (columns Example.df) = true
  /\ Str.mem "country" (columns Example.df) = true
  /\ execute Naive.numerics Example.df both = execute Naive.numerics Example.df only
  /\ ExecutionResult.value (execute Naive.numerics Example.df both) = Some 1000%float
  /\ exists rs,
       apply_filters Example.df both = (af, Ok rs)
       /\ (forall r, In r rs <->
             In r (rows Example.df)
             /\ (truthy_str (country intent) = true -> row_country r = country intent)
             /\ row_year r = Some 2020)
       /\ ExecutionResult.applied_filters (execute Naive.numerics Example.df both) = af
       /\ execute Naive.numerics Example.df both
          = aggregate Naive.numerics Example.df both af rs.
Proof.
  intros intent both only af.
  assert (Hy : 2020 <> 0) by discriminate.
  split; [exact Hy|]. split; [reflexivity|]. split; [reflexivity|].
  pose proof (year_overrides_range Naive.numerics Example.df intent 2020
                (Some 1990) (Some 2000) Hy) as H.
  cbv zeta in H. destruct H as (_ & _ & Hsame & Hrows).
  split; [exact Hsame|]. split; [reflexivity|].
  exact (Hrows eq_refl (fun _ => eq_refl)).
Defined.

(** C7, as stated, fails: the resolved column of a methane intent holds
    the gas token "methane", and its unit is "tonnes". *)
Lemma methane_unit_is_tonnes :
  let intent := Example.intent "China" METHANE [SUM] None in
  _get_column_name (columns Example.df) (gas intent) (sector intent) = Some "methane"
  /\ unit_rule_by_gas METHANE "methane" = "million tonnes"
  /\ ExecutionResult.unit (execute Naive.numerics Example.df intent) = Some "tonnes".
Proof. vm_compute. repeat split; reflexivity. Qed.

(** The corrected C7 on China's total co2. *)
Lemma unit_follows_co2_marker_witness :
  let intent := Example.intent "China" CO2 [SUM] None in
  ExecutionResult.error (execute Naive.numerics Example.df intent) = None
  /\ exists col,
       _get_column_name (columns Example.df) (gas intent) (sector intent) = Some col
       /\ ExecutionResult.unit (execute Naive.numerics Example.df intent)
          = Some (unit_rule col)
       /\ (gas intent = Some CO2 -> Str.contains "co2" (Str.lower col) = true).
Proof.
  split; [reflexivity|].
  apply (unit_follows_co2_marker Naive.numerics Example.df
           (Example.intent "China" CO2 [SUM] None)).
  reflexivity.
Defined.

(** C8, as stated, fails: the ASCII query holds no earlier year
    reference and the bare token 1850, and the extractor leaves the year
    filter unset. *)
Lemma bare_1850_is_not_parsed :
  let q := "india methane in 1850" in
  Str.is_ascii q = true
  /\ no_earlier_year_pattern (Str.lower q)
  /\ q = "india methane in " ++ "1850"
  /\ extract_intent None Example.metadata q
     = Ok (mkQueryIntent (Some "India") (Some METHANE) None None None None
             false false false false false None).
Proof. vm_compute. repeat split; reflexivity. Qed.

(** The corrected C8 on a query with the bare year 1950. *)
Lemma bare_year_witness :
  let q := "india methane in 1950" in
  Str.is_ascii q = true
  /\ no_earlier_year_pattern (Str.lower q)
  /\ bare_year_at false (Str.lower q) "india methane in " 1950 ""
  /\ exists intent y' pre' post',
       extract_intent None Example.metadata q = Ok intent
       /\ year_filter intent = Some (mkYearFilter (Some y') None None)
       /\ bare_year_at false (Str.lower q) pre' y' post'
       /\ (String.length pre' <= String.length "india methane in ")%nat
       /\ 1900 <= y' <= 2099.
Proof.
  assert (Hascii : Str.is_ascii "india methane in 1950" = true) by reflexivity.
  assert (Hno : no_earlier_year_pattern (Str.lower "india methane in 1950")).
  { vm_compute. repeat split; reflexivity. }
  assert (Hat : bare_year_at false (Str.lower "india methane in 1950")
                  "india methane in " 1950 "").
  { exists "1"%char, "9"%char, "5"%char, "0"%char.
    refine (conj eq_refl (conj (conj (or_introl (conj eq_refl eq_refl))
                                  (conj eq_refl eq_refl))
                            (conj eq_refl (conj eq_refl eq_refl)))). }
  split; [exact Hascii|]. split; [exact Hno|]. split; [exact Hat|].
  exact (proj1 (bare_year_1900_to_2099_sets_year Example.metadata
                  "india methane in 1950" Hascii Hno) _ _ _ Hat).
Defined.

(** C9 on China's two years: from 1000 to 1100, ten percent; the
    execution returns without error and reports the entry. *)
Lemma change_pct_witness :
  let intent := Example.intent "China" CO2 [CHANGE; SUM] None in
  let rs := filter (row_selected intent) (rows Example.df) in
  _get_column_name (columns Example.df) (gas intent) (sector intent) = Some "co2"
  /\ time_series Naive.numerics "co2" rs = [(2020, 1000%float); (2021, 1100%float)]
  /\ In CHANGE (metrics_to_compute intent)
  /\ PrimFloat.eqb 1000 0 = false
  /\ ExecutionResult.error (execute Naive.numerics Example.df intent) = None
  /\ dict_get
       (fst (compute_metrics Naive.numerics (column_values "co2" rs)
               (Some (time_series Naive.numerics "co2" rs))
               (metrics_to_compute intent))) "change_pct"
     = Some (Some 10%float)
  /\ exists vs,
       ExecutionResult.values (execute Naive.numerics Example.df intent) = Some vs
       /\ dict_get vs "change_pct" = Some 10%float.
Proof.
  intros intent rs.
  split; [reflexivity|]. split; [reflexivity|]. split; [now left|].
  split; [reflexivity|]. split; [reflexivity|].
  pose proof (change_pct_present_iff_first_nonzero Naive.numerics Example.df intent
                "co2" 2020 1000%float (2021, 1100%float) []
                eq_refl eq_refl (or_introl eq_refl)) as H.
  cbv zeta in H. destruct H as (Hloop & _ & Hres).
  split; [exact (Hloop eq_refl)|].
  destruct (Hres eq_refl) as (vs & Hvs & Hget & _).
  exists vs. split; [exact Hvs | exact (Hget eq_refl)].
Defined.

(** Tuvalu's first year is 0: the key is absent although [change] is
    computed. *)
Lemma change_pct_absent_on_zero_first :
  let intent := Example.intent "Tuvalu" CO2 [CHANGE] None in
  ExecutionResult.values (execute Naive.numerics Example.df intent)
  = Some [("change", 5%float)].
Proof. vm_compute. reflexivity. Qed.

(** C10 on an intent that only names a gas and asks for clarification. *)
Lemma underspecified_gate_witness :
  let intent := mkQueryIntent None (Some CO2) None None None None
                  false false false false true (Some "which country?") in
  post Naive.numerics (fun _ _ => None) Example.df None "co2" intent
  = ([], ClarificationResponse underspecified_question).
Proof.
  apply underspecified_gate_precedes_validation;
    try reflexivity; try (left; reflexivity); exact I.
Defined.

(* ================================================================= *)
(** * Further properties of the execution layer *)

(** ** Column resolution *)

Lemma lower_Gas_value : forall g, Str.lower (Gas_value g) = Gas_value g.
Proof. intros []; reflexivity. Qed.

Lemma contains_app_l : forall w t, Str.contains w (w ++ t) = true.
Proof.
  intros w t. apply startswith_contains. unfold Str.startswith.
  induction w as [|a w IH]; cbn; [reflexivity|]. now rewrite Ascii.eqb_refl.
Qed.

(** X1.  A column [_get_column_name] returns is a column of the
    dataframe, and a gas was given: the test [column_name not in
    result_df.columns] of [execute] never fires on a resolved column. *)
Theorem resolved_column_is_a_schema_column : forall cols g s col,
  _get_column_name cols g s = Some col ->
  In col cols /\ Str.mem col cols = true /\ exists gas, g = Some gas.
Proof.
  intros cols g s col H. pose proof (resolved_in_columns _ _ _ _ H) as Hin.
  split; [assumption|]. split; [now apply mem_in|].
  destruct g as [gas|]; [now exists gas | discriminate].
Qed.


Lemma resolved_total_co2_match : forall cols col,
  _get_column_name cols (Some CO2) (Some TOTAL) = Some col ->
  total_match "co2" col = true.
Proof.
  intros cols col. unfold _get_column_name. cbn [Gas_value].
  change (Str.lower "co2") with "co2". unfold total_match.
  destruct (first_col (fun c => String.eqb (Str.lower c) "co2") cols) as [c|] eqn:E1;
    cbn [or_else].
  { intros H; inversion H; subst c. apply first_col_some in E1.
    destruct E1 as [_ Hp]. now rewrite Hp. }
  destruct (first_candidate _ cols) as [c|] eqn:E2.
  { intros H; inversion H; subst c. apply first_candidate_some in E2.
    destruct E2 as [_ [cand [Hc Hl]]]. rewrite Hl.
    cbn in Hc. destruct Hc as [<-|[<-|[<-|[]]]]; reflexivity. }
  intros H. apply first_col_some in H. destruct H as [_ Hp].
  rewrite Hp. now rewrite !orb_true_r.
Qed.

(** X3.  When both lookups resolve, co2 of the cement sector and total
    co2 are different columns: the cement column carries "cement" and
    the total column does not. *)
Theorem cement_and_total_co2_differ : forall cols total cement,
  _get_column_name cols (Some CO2) (Some TOTAL) = Some total ->
  _get_column_name cols (Some CO2) (Some CEMENT) = Some cement ->
  Str.contains "cement" (Str.lower cement) = true
  /\ Str.contains "cement" (Str.lower total) = false
  /\ total <> cement.
Proof.
  intros cols total cement Ht Hc.
  assert (Hfree : Str.contains "cement" (Str.lower total) = false).
  { apply resolved_total_co2_match in Ht. apply total_match_marker_free in Ht.
    apply (Ht "cement"). now left. }
  assert (Hcem : Str.contains "cement" (Str.lower cement) = true).
  { revert Hc. unfold _get_column_name. cbn [Gas_value].
    destruct (first_candidate ["cement_co2"; "cement_co2_per_capita"] cols) as [c|] eqn:E;
      cbn [or_else].
    - intros H; inversion H; subst c. apply first_candidate_some in E.
      destruct E as [_ [cand [Hc Hl]]]. rewrite Hl.
      cbn in Hc. destruct Hc as [<-|[<-|[]]]; reflexivity.
    - destruct (first_col _ cols) as [c|] eqn:E2; cbn; [|discriminate].
      intros H; inversion H; subst c. apply first_col_some in E2.
      destruct E2 as [_ Hp]. apply andb_true_iff in Hp. tauto. }
  split; [assumption|]. split; [assumption|]. congruence.
Qed.

(** X4.  The cement lookup tries the fixed names "cement_co2" and
    "cement_co2_per_capita" before it looks at the gas: when the schema
    has one of them, every gas resolves to that same co2 column. *)
Theorem cement_lookup_ignores_gas : forall cols c,
  In c cols ->
  Str.lower c = "cement_co2" \/ Str.lower c = "cement_co2_per_capita" ->
  exists col,
    In col cols
    /\ (Str.lower col = "cement_co2" \/ Str.lower col = "cement_co2_per_capita")
    /\ forall g, _get_column_name cols (Some g) (Some CEMENT) = Some col.
Proof.
  intros cols c Hin Hc.
  destruct (first_candidate ["cement_co2"; "cement_co2_per_capita"] cols) as [col|] eqn:E.
  - exists col. pose proof (first_candidate_some _ _ _ E) as [Hcol [cand [Hcand Hl]]].
    split; [assumption|]. split.
    + cbn in Hcand. destruct Hcand as [<-|[<-|[]]]; [left | right]; exact Hl.
    + intros g. unfold _get_column_name. now rewrite E.
  - exfalso. rewrite first_candidate_none in E.
    destruct Hc as [Hc|Hc].
    + specialize (E c "cement_co2" Hin (or_introl eq_refl)).
      rewrite Hc in E. discriminate.
    + specialize (E c "cement_co2_per_capita" Hin (or_intror (or_introl eq_refl))).
      rewrite Hc in E. discriminate.
Qed.

(** X5.  Outside the cement sector, every column a lookup resolves to
    carries the token of the requested gas in its lower-cased name. *)
Theorem resolved_column_carries_gas : forall cols g s col,
  s <> Some CEMENT ->
  _get_column_name cols (Some g) s = Some col ->
  Str.contains (Gas_value g) (Str.lower col) = true.
Proof.
  intros cols g s col Hs. unfold _get_column_name. rewrite lower_Gas_value.
  assert (Hpat : forall p,
            (forall c, p c = true -> Str.contains (Gas_value g) (Str.lower c) = true) ->
            first_col p cols = Some col ->
            Str.contains (Gas_value g) (Str.lower col) = true).
  { intros p Hp H. apply first_col_some in H. destruct H; auto. }
  assert (Hand : forall (a b : bool), a && b = true -> b = true).
  { intros a b H. apply andb_true_iff in H. tauto. }
  assert (Htotal :
    match
      or_else (first_col (fun c => String.eqb (Str.lower c) (Gas_value g)) cols)
        (first_candidate
           (map (fun suffix => Gas_value g ++ suffix) [""; "_emissions"; "_per_capita"])
           cols)
    with
    | Some c => Some c
    | None => first_col (fun c => total_fallback (Gas_value g) (Str.lower c)) cols
    end = Some col ->
    Str.contains (Gas_value g) (Str.lower col) = true).
  { destruct (first_col (fun c => String.eqb (Str.lower c) (Gas_value g)) cols)
      as [c|] eqn:E1; cbn [or_else].
    - intros H; inversion H; subst c. revert E1. apply Hpat.
      intros c Hc. apply String.eqb_eq in Hc. rewrite Hc. apply contains_refl.
    - destruct (first_candidate _ cols) as [c|] eqn:E2.
      + intros H; inversion H; subst c. apply first_candidate_some in E2.
        destruct E2 as [_ [cand [Hc Hl]]]. rewrite Hl.
        cbn [map In] in Hc.
        destruct Hc as [<-|[<-|[<-|[]]]]; destruct g; reflexivity.
      + apply Hpat. intros c Hc. unfold total_fallback in Hc.
        apply andb_true_iff in Hc. destruct Hc as [Hc _].
        apply orb_true_iff in Hc. destruct Hc as [Hc|Hc].
        * apply orb_true_iff in Hc. destruct Hc as [Hc|Hc].
          -- apply String.eqb_eq in Hc. rewrite Hc. apply contains_refl.
          -- apply startswith_contains. now apply (startswith_app (Gas_value g) "_").
        * now apply (endswith_contains "_" (Gas_value g)). }
  destruct s as [[| | | |]|]; try exact Htotal; try contradiction; clear Htotal.
  - destruct (first_col _ cols) as [c|] eqn:E2; cbn; [|discriminate].
    intros H; inversion H; subst c. revert E2. apply Hpat. intros c. apply Hand.
  - destruct (first_col _ cols) as [c|] eqn:E2; cbn; [|discriminate].
    intros H; inversion H; subst c. revert E2. apply Hpat. intros c. apply Hand.
  - destruct (first_col _ cols) as [c|] eqn:E2; cbn; [|discriminate].
    intros H; inversion H; subst c. revert E2. apply Hpat. intros c. apply Hand.
Qed.

(** ** Instances on the small dataset *)

Lemma resolved_column_is_a_schema_column_witness :
  _get_column_name (columns Example.df) (Some METHANE) None = Some "methane"
  /\ In "methane" (columns Example.df)
  /\ Str.mem "methane" (columns Example.df) = true
  /\ exists gas, Some METHANE = Some gas.
Proof.
  split; [reflexivity|].
  apply (resolved_column_is_a_schema_column (columns Example.df) (Some METHANE) None).
  reflexivity.
Defined.


Lemma cement_and_total_co2_differ_witness :
  _get_column_name (columns Example.df) (Some CO2) (Some TOTAL) = Some "co2"
  /\ _get_column_name (columns Example.df) (Some CO2) (Some CEMENT) = Some "cement_co2"
  /\ Str.contains "cement" (Str.lower "cement_co2") = true
  /\ Str.contains "cement" (Str.lower "co2") = false
  /\ "co2" <> "cement_co2".
Proof.
  split; [reflexivity|]. split; [reflexivity|].
  apply (cement_and_total_co2_differ (columns Example.df)); reflexivity.
Defined.

Lemma cement_lookup_ignores_gas_witness :
  In "cement_co2" (columns Example.df)
  /\ exists col,
       In col (columns Example.df)
       /\ (Str.lower col = "cement_co2" \/ Str.lower col = "cement_co2_per_capita")
       /\ forall g, _get_column_name (columns Example.df) (Some g) (Some CEMENT) = Some col.
Proof.
  assert (H : In "cement_co2" (columns Example.df)) by (cbn; tauto).
  split; [exact H|].
  apply (cement_lookup_ignores_gas (columns Example.df) "cement_co2" H).
  left; reflexivity.
Defined.

Lemma resolved_column_carries_gas_witness :
  Some TOTAL <> Some CEMENT
  /\ _get_column_name (columns Example.df) (Some METHANE) (Some TOTAL) = Some "methane"
  /\ Str.contains (Gas_value METHANE) (Str.lower "methane") = true.
Proof.
  assert (H : Some TOTAL <> Some CEMENT) by discriminate.
  split; [exact H|]. split; [reflexivity|].
  apply (resolved_column_carries_gas (columns Example.df) METHANE (Some TOTAL) "methane" H).
  reflexivity.
Defined.

(** ** Filters *)

Lemma nonzero_some : forall v, v <> 0 -> nonzero (Some v) = Some v.
Proof. intros v H. unfold nonzero. destruct (Z.eqb_spec v 0); [contradiction|reflexivity]. Qed.

Lemma apply_filters_year_range : forall df intent yf lo hi af rs,
  year_filter intent = Some yf ->
  nonzero (year yf) = None -> nonzero (year_min yf) = Some lo ->
  nonzero (year_max yf) = Some hi ->
  apply_filters df intent = (af, Ok rs) ->
  dict_get af "year_range" = Some (FStr (Str.of_Z lo ++ "-" ++ Str.of_Z hi)).
Proof.
  intros df intent yf lo hi af rs Hyf H0 Hlo Hhi.
  unfold apply_filters, apply_country_filter, apply_year_filter.
  rewrite Hyf, H0, Hlo, Hhi.
  destruct (country intent) as [[|c0 cs]|];
    try destruct (Str.mem "country" (columns df));
    destruct (Str.mem "year" (columns df));
    intros H; pose proof (f_equal snd H) as Hs; cbn [snd] in Hs;
    try discriminate Hs;
    apply (f_equal fst) in H; cbn [fst] in H; rewrite <- H;
    apply dict_get_set_same.
Qed.

(** X6.  A range filter ([year] unset, [year_min] and [year_max] set)
    keeps exactly the rows of the country whose year is known and lies
    between the two bounds, both included, and records the range as
    "min-max" under [year_range], with no [year] entry. *)
Theorem range_filter_is_inclusive : forall df intent yf lo hi af rs,
  year_filter intent = Some yf ->
  year yf = None -> year_min yf = Some lo -> year_max yf = Some hi ->
  lo <> 0 -> hi <> 0 ->
  apply_filters df intent = (af, Ok rs) ->
  (forall r, In r rs <->
     In r (rows df)
     /\ (truthy_str (country intent) = true -> row_country r = country intent)
     /\ exists v, row_year r = Some v /\ lo <= v <= hi)
  /\ dict_get af "year_range" = Some (FStr (Str.of_Z lo ++ "-" ++ Str.of_Z hi))
  /\ dict_get af "year" = None.
Proof.
  intros df intent yf lo hi af rs Hyf Hy Hlo Hhi Hlo0 Hhi0 Hf.
  assert (Hnlo : nonzero (year_min yf) = Some lo) by (rewrite Hlo; now apply nonzero_some).
  assert (Hnhi : nonzero (year_max yf) = Some hi) by (rewrite Hhi; now apply nonzero_some).
  assert (Hny : nonzero (year yf) = None) by now rewrite Hy.
  split; [|split; [now apply (apply_filters_year_range df intent yf lo hi af rs)|]].
  - intros r. rewrite (apply_filters_selected _ _ _ _ Hf), filter_In.
    unfold row_selected. rewrite Hyf, Hny, Hnlo, Hnhi. unfold year_cmp.
    assert (Hcountry :
              match country intent with
              | Some (String _ _ as c) => country_is c r
              | _ => true
              end = true
              <-> (truthy_str (country intent) = true -> row_country r = country intent)).
    { destruct (country intent) as [[|c0 cs]|]; cbn [truthy_str].
      - split; [discriminate | reflexivity].
      - rewrite country_is_true. split; [auto | intros H; now apply H].
      - split; [discriminate | reflexivity]. }
    rewrite andb_true_iff, Hcountry.
    split.
    + intros [Hin [Hc Hr]]. split; [assumption|]. split; [assumption|].
      destruct (row_year r) as [v|]; [|discriminate]. exists v. split; [reflexivity|].
      apply andb_true_iff in Hr. destruct Hr as [H1 H2].
      apply Z.geb_le in H1. apply Z.leb_le in H2. lia.
    + intros (Hin & Hc & v & Hv & Hr). split; [assumption|]. split; [assumption|].
      rewrite Hv. apply andb_true_iff. split.
      * apply Z.geb_le. lia.
      * apply Z.leb_le. lia.
  - revert Hf. unfold apply_filters, apply_country_filter, apply_year_filter.
    rewrite Hyf, Hny, Hnlo, Hnhi.
    destruct (country intent) as [[|c0 cs]|];
      try destruct (Str.mem "country" (columns df));
      destruct (Str.mem "year" (columns df));
      intros H; pose proof (f_equal snd H) as Hs; cbn [snd] in Hs;
      try discriminate Hs;
      apply (f_equal fst) in H; cbn [fst] in H; rewrite <- H; reflexivity.
Qed.


Lemma range_filter_is_inclusive_witness :
  let yf := mkYearFilter None (Some 2020) (Some 2020) in
  let intent := Example.intent "China" CO2 [SUM] (Some yf) in
  let rs := [Example.row "China" 2020 1000 100 50] in
  let af := [("country", FStr "China"); ("year_range", FStr "2020-2020")] in
  apply_filters Example.df intent = (af, Ok rs)
  /\ (forall r, In r rs <->
        In r (rows Example.df)
        /\ (truthy_str (country intent) = true -> row_country r = country intent)
        /\ exists v, row_year r = Some v /\ 2020 <= v <= 2020)
  /\ dict_get af "year_range" = Some (FStr (Str.of_Z 2020 ++ "-" ++ Str.of_Z 2020))
  /\ dict_get af "year" = None.
Proof.
  intros yf intent rs af.
  assert (H : apply_filters Example.df intent = (af, Ok rs)) by reflexivity.
  split; [exact H|].
  apply (range_filter_is_inclusive Example.df intent yf 2020 2020 af rs);
    try reflexivity; try lia; exact H.
Defined.


(** ** The shape of a result *)

Lemma build_result_fields : forall results incomputable u af n r,
  build_result results incomputable u af n = Ok r ->
  ExecutionResult.record_count r = n
  /\ ExecutionResult.applied_filters r = af
  /\ ExecutionResult.incomputable_metrics r
     = match incomputable with [] => None | _ => Some incomputable end.
Proof.
  intros results incomputable u af n r. unfold build_result, ExecutionResult_new.
  destruct (validate_values results) as [vs|e]; cbn [bind]; [|discriminate].
  destruct results as [|[k v] [|p l]]; intros H; injection H as <-; cbn; auto.
Qed.

Lemma incomputable_entry_is_none : forall K values ts ms name,
  In name (snd (compute_metrics K values ts ms)) ->
  dict_get (fst (compute_metrics K values ts ms)) name = Some None.
Proof.
  intros K values ts ms name H. unfold compute_metrics in *.
  apply fold_incomputable_only in H. cbn [snd] in H.
  destruct H as [[]|(m & Hm & -> & Hnull)].
  rewrite fold_metric_entry by now left.
  unfold metric_entry. now rewrite Hnull.
Qed.

Lemma built_result_has_no_incomputable : forall K values ts ms u af n r,
  build_result (fst (compute_metrics K values ts ms))
    (snd (compute_metrics K values ts ms)) u af n = Ok r ->
  snd (compute_metrics K values ts ms) = [].
Proof.
  intros K values ts ms u af n r H.
  destruct (snd (compute_metrics K values ts ms)) as [|name l] eqn:E; [reflexivity|].
  exfalso.
  assert (Hin : In name (snd (compute_metrics K values ts ms))) by (rewrite E; now left).
  apply incomputable_entry_is_none in Hin.
  destruct (build_result_raises _ (name :: l) u af n _ Hin) as [e He].
  congruence.
Qed.

Lemma execute_ok_fields : forall K df intent,
  ExecutionResult.error (execute K df intent) = None ->
  exists col results vs,
    let rs := filter (row_selected intent) (rows df) in
    let ts := if Str.mem "year" (columns df)
              then Some (time_series K col rs) else None in
    _get_column_name (columns df) (gas intent) (sector intent) = Some col
    /\ results = fst (compute_metrics K (column_values col rs) ts
                        (metrics_to_compute intent))
    /\ validate_values results = Ok vs
    /\ ExecutionResult.values (execute K df intent) = Some vs
    /\ ExecutionResult.unit (execute K df intent) = Some (_get_unit col)
    /\ ExecutionResult.record_count (execute K df intent) = len (column_values col rs)
    /\ 0 < len (column_values col rs)
    /\ ExecutionResult.incomputable_metrics (execute K df intent) = None.
Proof.
  intros K df intent Herr.
  destruct (execute_success _ _ _ Herr)
    as (af & rs & col & results & inc & Hf & Hcol & Hne & Hloop & Hb).
  pose proof (apply_filters_selected _ _ _ _ Hf) as Hrs. subst rs.
  destruct (build_result_ok _ _ _ _ _ _ Hb) as (vs & Hval & Hvs & _).
  destruct (build_result_fields _ _ _ _ _ _ Hb) as (Hn & _ & Hinc).
  exists col, results, vs. cbv zeta.
  split; [assumption|]. split; [now rewrite Hloop|]. split; [assumption|].
  split; [assumption|].
  split; [now apply (build_result_unit _ _ _ _ _ _ Hb)|].
  split; [assumption|]. split.
  { unfold len. destruct (column_values col _); [congruence | cbn; lia]. }
  rewrite Hinc.
  replace results with (fst (compute_metrics K
      (column_values col (filter (row_selected intent) (rows df)))
      (if Str.mem "year" (columns df)
       then Some (time_series K col (filter (row_selected intent) (rows df)))
       else None) (metrics_to_compute intent))) in Hb by now rewrite Hloop.
  replace inc with (snd (compute_metrics K
      (column_values col (filter (row_selected intent) (rows df)))
      (if Str.mem "year" (columns df)
       then Some (time_series K col (filter (row_selected intent) (rows df)))
       else None) (metrics_to_compute intent))) in * by now rewrite Hloop.
  now rewrite (built_result_has_no_incomputable _ _ _ _ _ _ _ _ Hb).
Qed.

Lemma metrics_to_compute_head : forall intent,
  In (hd SUM (metrics_to_compute intent)) (metrics_to_compute intent).
Proof.
  intros intent. unfold metrics_to_compute.
  destruct (metrics intent) as [[|m0 ms]|]; [| now left |];
    destruct (metric intent); now left.
Qed.

(** X8.  A result of [execute] without error reports the number of
    non-null cells of the resolved column in the selected rows, which is
    positive, holds for every requested metric the number the kernel
    computed, never a null, and lists no incomputable metric. *)
Theorem successful_result_shape : forall K df intent,
  ExecutionResult.error (execute K df intent) = None ->
  exists col vs,
    _get_column_name (columns df) (gas intent) (sector intent) = Some col
    /\ let rs := filter (row_selected intent) (rows df) in
       let ts := if Str.mem "year" (columns df)
                 then Some (time_series K col rs) else None in
       ExecutionResult.record_count (execute K df intent) = len (column_values col rs)
       /\ 0 < len (column_values col rs)
       /\ ExecutionResult.unit (execute K df intent) = Some (_get_unit col)
       /\ ExecutionResult.values (execute K df intent) = Some vs
       /\ ExecutionResult.incomputable_metrics (execute K df intent) = None
       /\ forall m, In m (metrics_to_compute intent) ->
            exists x, dict_get vs (Metric_value m) = Some x
                      /\ metric_raw K (column_values col rs) ts m = Some x
                      /\ PrimFloat.is_nan x = false.
Proof.
  intros K df intent Herr.
  destruct (execute_ok_fields K df intent Herr)
    as (col & results & vs & Hcol & Hres & Hval & Hvs & Hu & Hn & Hpos & Hinc).
  exists col, vs. split; [assumption|]. cbv zeta.
  repeat (split; [assumption|]).
  intros m Hm.
  assert (Hentry : dict_get results (Metric_value m)
                   = Some (metric_entry K
                       (column_values col (filter (row_selected intent) (rows df)))
                       (if Str.mem "year" (columns df)
                        then Some (time_series K col
                                     (filter (row_selected intent) (rows df)))
                        else None) m)).
  { rewrite Hres. unfold compute_metrics. now rewrite fold_metric_entry by now left. }
  pose proof (validate_values_get _ _ (Metric_value m) Hval) as Hget.
  rewrite Hentry in Hget. unfold metric_entry in Hentry, Hget.
  destruct (is_null (metric_raw K _ _ m)) eqn:Hnull.
  - destruct (validate_values_rejects_none _ _ Hentry) as [e He]. congruence.
  - destruct (metric_raw K _ _ m) as [x|]; [|discriminate].
    exists x. repeat split; assumption.
Qed.

Lemma successful_result_shape_witness :
  let intent := Example.intent "China" CO2 [SUM; MAX] None in
  ExecutionResult.error (execute Naive.numerics Example.df intent) = None
  /\ ExecutionResult.record_count (execute Naive.numerics Example.df intent) = 2
  /\ ExecutionResult.values (execute Naive.numerics Example.df intent)
     = Some [("sum", 2100%float); ("max", 1100%float)]
  /\ exists col vs,
       _get_column_name (columns Example.df) (gas intent) (sector intent) = Some col
       /\ let rs := filter (row_selected intent) (rows Example.df) in
          let ts := if Str.mem "year" (columns Example.df)
                    then Some (time_series Naive.numerics col rs) else None in
          ExecutionResult.record_count (execute Naive.numerics Example.df intent)
          = len (column_values col rs)
          /\ 0 < len (column_values col rs)
          /\ ExecutionResult.unit (execute Naive.numerics Example.df intent)
             = Some (_get_unit col)
          /\ ExecutionResult.values (execute Naive.numerics Example.df intent) = Some vs
          /\ ExecutionResult.incomputable_metrics
               (execute Naive.numerics Example.df intent) = None
          /\ forall m, In m (metrics_to_compute intent) ->
               exists x, dict_get vs (Metric_value m) = Some x
                         /\ metric_raw Naive.numerics (column_values col rs) ts m = Some x
                         /\ PrimFloat.is_nan x = false.
Proof.
  intros intent. split; [reflexivity|]. split; [reflexivity|]. split; [reflexivity|].
  apply (successful_result_shape Naive.numerics Example.df intent). reflexivity.
Defined.

(** X9.  No result of [execute] lists incomputable metrics, and a result
    without error counts at least one record: of the six branches of
    the router, only the execution error, the low-confidence data answer
    and the data answer are ever taken; the error branch is taken exactly
    when [error] is set. *)
Theorem router_fallback_states_unreachable : forall K df intent lc,
  ExecutionResult.incomputable_metrics (execute K df intent) = None
  /\ reachable_state (route lc (execute K df intent)) = true
  /\ (route lc (execute K df intent) = ExecutionError
      <-> ExecutionResult.error (execute K df intent) <> None)
  /\ (ExecutionResult.error (execute K df intent) = None ->
      route lc (execute K df intent) = if lc then LowConfidenceData else Data).
Proof.
  intros K df intent lc.
  destruct (execute_inv K df intent) as [(Hvs & _ & Hinc & Herr) | Hok].
  - split; [assumption|]. unfold route. rewrite Herr.
    split; [reflexivity|]. split.
    + split; [|reflexivity]. intros _ E. now rewrite E in Herr.
    + intros E. now rewrite E in Herr.
  - assert (Herr : ExecutionResult.error (execute K df intent) = None).
    { destruct Hok as (af & rs & col & results & inc & _ & _ & _ & _ & Hb).
      now destruct (build_result_ok _ _ _ _ _ _ Hb) as (vs & _ & _ & He). }
    destruct (execute_ok_fields K df intent Herr)
      as (col & results & vs & Hcol & Hres & Hval & Hvs & _ & Hn & Hpos & Hinc).
    split; [assumption|].
    assert (Hroute : route lc (execute K df intent)
                     = if lc then LowConfidenceData else Data).
    { unfold route. rewrite Herr, Hvs, Hinc, Hn. cbn [truthy_str truthy_list].
      assert (Hgt : (len (column_values col (filter (row_selected intent) (rows df))) >? 0)
                    = true) by (apply Z.gtb_lt; lia).
      assert (Hz : (len (column_values col (filter (row_selected intent) (rows df))) =? 0)
                   = false) by (apply Z.eqb_neq; lia).
      rewrite Hgt, Hz.
      assert (Hex : existsb (fun _ : string * float => true) vs = true).
      { pose proof (metrics_to_compute_head intent) as Hin.
        assert (Hentry : dict_get results (Metric_value (hd SUM (metrics_to_compute intent)))
                         <> None).
        { rewrite Hres. unfold compute_metrics.
          rewrite fold_metric_entry by now left. discriminate. }
        destruct results as [|[k [v|]] l]; [now cbn in Hentry | | discriminate].
        cbn [validate_values] in Hval.
        destruct (validate_values l); cbn [bind] in Hval; [|discriminate].
        injection Hval as <-. reflexivity. }
      now rewrite Hex. }
    rewrite Hroute. split; [now destruct lc|]. split.
    + split; [now destruct lc | congruence].
    + reflexivity.
Qed.

(** ** The values behind the yearly series *)

Lemma sorted_keys_above : forall y0 (g : list (Z * list float)) y,
  Sorted Z.lt (y0 :: map fst g) -> y <= y0 -> group_get y g = None.
Proof.
  intros y0 g. revert y0. induction g as [|[y1 vs] g IH]; intros y0 y Hs Hy.
  - reflexivity.
  - cbn [map fst] in Hs. inversion Hs as [|? ? Hs' Hhd]; subst.
    inversion Hhd; subst. cbn [group_get].
    destruct (Z.eqb_spec y1 y); [lia|]. apply (IH y1); [assumption | lia].
Qed.

Lemma group_get_insert : forall y v g y',
  Sorted Z.lt (map fst g) ->
  group_get y' (group_insert y v g)
  = if y' =? y
    then Some (match group_get y g with Some vs => (vs ++ [v])%list | None => [v] end)
    else group_get y' g.
Proof.
  intros y v g y'. induction g as [|[y0 vs0] g IH]; intros Hs;
    cbn [group_insert group_get].
  - rewrite (Z.eqb_sym y y'). now destruct (y' =? y).
  - destruct (Z.ltb_spec y y0) as [Hlt|Hge].
    + cbn [group_get]. rewrite (Z.eqb_sym y y').
      destruct (Z.eqb_spec y' y) as [Heq|Hne]; [|reflexivity].
      destruct (Z.eqb_spec y0 y); [lia|].
      now rewrite (sorted_keys_above y0 g y Hs) by lia.
    + destruct (Z.eqb_spec y y0) as [->|Hne]; cbn [group_get].
      * rewrite Z.eqb_refl, (Z.eqb_sym y0 y').
        destruct (Z.eqb_spec y' y0); reflexivity.
      * cbn [map fst] in Hs. inversion Hs as [|? ? Hs' Hhd]; subst.
        rewrite (IH Hs').
        destruct (Z.eqb_spec y0 y); [lia|].
        destruct (Z.eqb_spec y0 y') as [Heq|Hne']; [|reflexivity].
        destruct (Z.eqb_spec y' y); [lia|reflexivity].
Qed.

Lemma year_values_app : forall y s t,
  year_values y (s ++ t) = (year_values y s ++ year_values y t)%list.
Proof. intros y s t. unfold year_values. now rewrite filter_app, map_app. Qed.

Lemma groupby_year_sorted : forall s g,
  Sorted Z.lt (map fst g) ->
  Sorted Z.lt (map fst (fold_left (fun g yv => group_insert (fst yv) (snd yv) g) s g)).
Proof.
  induction s as [|[y0 v0] s IH]; intros g Hg; cbn [fold_left]; [assumption|].
  apply IH. now apply group_insert_sorted.
Qed.

Lemma groupby_year_get : forall s y,
  group_get y (groupby_year s)
  = match year_values y s with [] => None | vs => Some vs end.
Proof.
  intros s y. unfold groupby_year.
  induction s as [|[y0 v0] s IH] using rev_ind; [reflexivity|].
  rewrite fold_left_app. cbn [fold_left fst snd].
  rewrite group_get_insert by (apply groupby_year_sorted; constructor).
  rewrite year_values_app. unfold year_values at 2. cbn [filter fst].
  destruct (Z.eqb_spec y0 y) as [->|Hne].
  - rewrite Z.eqb_refl, IH. cbn [map snd].
    destruct (year_values y s) as [|x l]; reflexivity.
  - destruct (Z.eqb_spec y y0); [congruence|]. cbn [map]. now rewrite app_nil_r.
Qed.

Lemma group_get_in : forall g y vs,
  Sorted Z.lt (map fst g) ->
  (In (y, vs) g <-> group_get y g = Some vs).
Proof.
  induction g as [|[y0 vs0] g IH]; intros y vs Hs; cbn [In group_get].
  - split; [tauto | discriminate].
  - cbn [map fst] in Hs. pose proof Hs as Hs0.
    inversion Hs as [|? ? Hs' Hhd]; subst.
    destruct (Z.eqb_spec y0 y) as [->|Hne].
    + split.
      * intros [H|H]; [now inversion H|].
        apply (IH y vs Hs') in H.
        rewrite (sorted_keys_above y g y Hs0) in H by lia. discriminate.
      * intros H; inversion H; now left.
    + rewrite <- (IH y vs Hs'). split; [|tauto].
      intros [H|H]; [inversion H; contradiction | assumption].
Qed.

(** X10.  The series behind [change] and [trend] has one point per year
    with a non-null value among the selected rows, in increasing year
    order, and the point of a year is the mean of that year's values in
    row order: rows of several countries in one year are averaged, not
    summed. *)
Theorem time_series_is_yearly_mean : forall K c rs,
  Sorted Z.lt (map fst (time_series K c rs))
  /\ forall y v,
       In (y, v) (time_series K c rs) <->
       year_values y (series_df c rs) <> []
       /\ v = pd_mean K (year_values y (series_df c rs)).
Proof.
  intros K c rs. split; [apply time_series_years|].
  assert (Hs : Sorted Z.lt (map fst (groupby_year (series_df c rs)))).
  { unfold groupby_year. apply groupby_year_sorted. constructor. }
  intros y v. unfold time_series. rewrite in_map_iff. split.
  - intros [[y' vs] [Heq Hin]]. cbn [fst snd] in Heq. injection Heq as Hy Hv.
    subst y' v. apply (group_get_in _ _ _ Hs) in Hin. rewrite groupby_year_get in Hin.
    destruct (year_values y (series_df c rs)) as [|x l] eqn:E; [discriminate|].
    injection Hin as <-. split; [discriminate | reflexivity].
  - intros [Hne ->]. exists (y, year_values y (series_df c rs)).
    split; [reflexivity|]. apply (group_get_in _ _ _ Hs).
    rewrite groupby_year_get.
    destruct (year_values y (series_df c rs)); [contradiction | reflexivity].
Qed.

(* ================================================================= *)
(** * Further properties of validation and routing *)

Lemma merge_followup_flags : forall li i,
  is_greeting (merge_followup li i) = is_greeting i
  /\ is_small_talk (merge_followup li i) = is_small_talk i
  /\ is_explanatory (merge_followup li i) = is_explanatory i
  /\ (is_explanatory i = false -> merge_followup li i = i).
Proof.
  intros [li|] i; unfold merge_followup; [|now repeat split].
  destruct (is_explanatory i) eqn:E; repeat split; try assumption; discriminate.
Qed.

Lemma validate_intent_failure : forall intent errors nc q,
  validate_intent intent = VFailure errors nc q ->
  errors = ["needs clarification"] /\ nc = true
  /\ needs_clarification intent = true
  /\ q = match clarification_question intent with
         | Some (String _ _ as q') => q'
         | _ => "could you clarify your request?"
         end.
Proof.
  intros intent errors nc q. unfold validate_intent.
  destruct (is_greeting intent && _); [discriminate|].
  destruct (is_small_talk intent); [discriminate|].
  destruct (is_explanatory intent); [discriminate|].
  destruct (needs_clarification intent).
  - intros H; injection H as <- <- <-. now repeat split.
  - rewrite andb_false_r. discriminate.
Qed.

(** X11.  Validation fails in one way only: the intent asks for
    clarification.  The failure carries the error "needs clarification",
    the clarification flag and a question that is never empty, so the
    "missing required fields" failure is never returned and, once an
    intent is extracted, [post] never answers 400. *)
Theorem validation_fails_only_for_clarification :
  (forall intent errors nc q,
     validate_intent intent = VFailure errors nc q ->
     errors = ["needs clarification"] /\ nc = true /\ q <> ""
     /\ needs_clarification intent = true
     /\ is_small_talk intent = false /\ is_explanatory intent = false)
  /\ (forall K explain df last_intent user_query intent,
        is_bad_request (snd (post K explain df last_intent user_query intent)) = false).
Proof.
  split.
  - intros intent errors nc q H.
    destruct (validate_intent_failure _ _ _ _ H) as (-> & -> & Hn & ->).
    split; [reflexivity|]. split; [reflexivity|]. split.
    { destruct (clarification_question intent) as [[|c s]|]; discriminate. }
    split; [assumption|]. revert H. unfold validate_intent.
    destruct (is_greeting intent && _); [discriminate|].
    destruct (is_small_talk intent); [discriminate|].
    destruct (is_explanatory intent); [discriminate|]. now split.
  - intros K explain df li uq intent. unfold post.
    destruct (is_greeting _); [reflexivity|].
    destruct (is_small_talk _); [reflexivity|].
    destruct (is_explanatory _); [cbn; now destruct (explain _ _)|].
    destruct (is_underspecified _); [reflexivity|].
    destruct (validate_intent _) as [errors nc q|n] eqn:E.
    + destruct (validate_intent_failure _ _ _ _ E) as (_ & -> & _). reflexivity.
    + destruct (route _ _); cbn; unfold explain_or_502;
        try reflexivity; now destruct (explain _ _).
Qed.

Lemma route_data_inv : forall K df qi lc st,
  route lc (execute K df qi) = st ->
  st = LowConfidenceData \/ st = Data ->
  ExecutionResult.error (execute K df qi) = None
  /\ st = if lc then LowConfidenceData else Data.
Proof.
  intros K df qi lc st Hr Hst. unfold route in Hr.
  destruct (execute_inv K df qi) as [(_ & _ & _ & Herr) | Hok].
  { rewrite Herr in Hr. subst st. destruct Hst; discriminate. }
  destruct Hok as (af & rs & col & results & inc & _ & _ & _ & _ & Hb).
  destruct (build_result_ok _ _ _ _ _ _ Hb) as (vs & _ & _ & He).
  split; [assumption|]. rewrite He in Hr. cbn [truthy_str] in Hr.
  destruct lc.
  - destruct (_ && _) in Hr; subst st; [reflexivity | destruct Hst; discriminate].
  - destruct (truthy_list _) in Hr; [subst st; destruct Hst; discriminate|].
    destruct (_ =? 0) in Hr; subst st; [destruct Hst; discriminate | reflexivity].
Qed.

(** X12.  A data answer of [post] is the result of [execute] on the
    extracted intent with its sector defaulted to total; it has no
    error, the intent named a gas and asked for no clarification, and
    the answer is marked low-confidence exactly when the country is
    missing, in which case it aggregates the rows of every country. *)
Theorem data_answer_needs_gas : forall K explain df last_intent user_query intent st r,
  snd (post K explain df last_intent user_query intent) = DataResponse st r ->
  r = execute K df (executed_intent intent)
  /\ ExecutionResult.error r = None
  /\ is_some (gas intent) = true
  /\ needs_clarification intent = false
  /\ st = (if is_some (country intent) then Data else LowConfidenceData)
  /\ fst (post K explain df last_intent user_query intent) = [CallValidate; CallExecute].
Proof.
  intros K explain df li uq intent st r.
  destruct (merge_followup_flags li intent) as (Hg & Hs & He & Hm).
  unfold post. rewrite Hg, Hs, He.
  destruct (is_greeting intent) eqn:Eg; [discriminate|].
  destruct (is_small_talk intent) eqn:Es; [discriminate|].
  destruct (is_explanatory intent) eqn:Ee;
    [cbn; destruct (explain _ _); discriminate|].
  rewrite (Hm eq_refl).
  destruct (is_underspecified intent); [discriminate|].
  unfold validate_intent. rewrite Eg, Es, Ee. cbn [andb].
  destruct (needs_clarification intent) eqn:En; [discriminate|].
  rewrite andb_false_r. cbn [QueryIntent_of_normalized low_confidence_flag].
  set (lc := negb (Nat.eqb (List.length _) 0)).
  assert (Hlc : lc = negb (is_some (country intent) && is_some (gas intent))).
  { unfold lc. destruct (country intent), (gas intent); reflexivity. }
  clearbody lc. subst lc. fold (executed_intent intent).
  destruct (route _ (execute K df (executed_intent intent))) eqn:Er;
    cbn [fst snd]; unfold explain_or_502;
    try (destruct (explain _ _); discriminate);
    intros H; injection H as <- <-.
  - destruct (route_data_inv _ _ _ _ _ Er (or_introl eq_refl)) as [Herr Hst].
    split; [reflexivity|]. split; [assumption|].
    assert (Hgas : is_some (gas intent) = true).
    { destruct (gas intent) eqn:G; [reflexivity|]. exfalso.
      revert Herr. unfold execute, aggregate. cbn [gas executed_intent].
      rewrite G. destruct (apply_filters _ _) as [af [rs|e]]; discriminate. }
    rewrite Hgas, andb_true_r in Hst.
    split; [assumption|]. split; [reflexivity|]. split; [|reflexivity].
    destruct (is_some (country intent)); [discriminate | reflexivity].
  - destruct (route_data_inv _ _ _ _ _ Er (or_intror eq_refl)) as [Herr Hst].
    split; [reflexivity|]. split; [assumption|].
    assert (Hgas : is_some (gas intent) = true).
    { destruct (gas intent) eqn:G; [reflexivity|]. exfalso.
      revert Herr. unfold execute, aggregate. cbn [gas executed_intent].
      rewrite G. destruct (apply_filters _ _) as [af [rs|e]]; discriminate. }
    rewrite Hgas, andb_true_r in Hst.
    split; [assumption|]. split; [reflexivity|]. split; [|reflexivity].
    destruct (is_some (country intent)); [reflexivity | discriminate].
Qed.

Lemma data_answer_needs_gas_witness :
  let intent := mkQueryIntent None (Some CO2) None (Some MAX) None None
                  false false false false false None in
  let r := execute Naive.numerics Example.df (executed_intent intent) in
  snd (post Naive.numerics (fun _ _ => None) Example.df None "max co2" intent)
  = DataResponse LowConfidenceData r
  /\ ExecutionResult.value r = Some 1100%float
  /\ ExecutionResult.record_count r = 6
  /\ r = execute Naive.numerics Example.df (executed_intent intent)
  /\ ExecutionResult.error r = None
  /\ is_some (gas intent) = true
  /\ needs_clarification intent = false
  /\ LowConfidenceData = (if is_some (country intent) then Data else LowConfidenceData)
  /\ fst (post Naive.numerics (fun _ _ => None) Example.df None "max co2" intent)
     = [CallValidate; CallExecute].
Proof.
  intros intent r. split; [reflexivity|]. split; [reflexivity|].
  split; [reflexivity|].
  apply (data_answer_needs_gas Naive.numerics (fun _ _ => None) Example.df None
           "max co2" intent LowConfidenceData r).
  reflexivity.
Defined.

(* ================================================================= *)
(** * The expert explanation and the 502 answers *)

Lemma explanation_fails_iff : forall g uq intent,
  generate_expert_explanation g uq intent = None <->
  g = GeminiNoText
  /\ Str.any_in explain_words (Str.lower uq) = false
  /\ Str.any_in statistic_words (Str.lower uq) = false.
Proof.
  intros g uq intent. unfold generate_expert_explanation.
  destruct (Str.any_in explain_words (Str.lower uq)).
  { split; [discriminate | intros (_ & H & _); discriminate]. }
  destruct (Str.any_in statistic_words (Str.lower uq)).
  { split; [discriminate | intros (_ & _ & H); discriminate]. }
  destruct g as [| | e | [|] [|c s]]; split; try discriminate;
    try (intros (H & _); discriminate); now repeat split.
Qed.

Lemma post_bad_gateway_inv : forall K explain df li uq intent,
  is_bad_gateway (snd (post K explain df li uq intent)) = true ->
  snd (post K explain df li uq intent) = BadGateway gateway_error
  /\ is_greeting intent = false /\ is_small_talk intent = false
  /\ exists qi, explain uq qi = None.
Proof.
  intros K explain df li uq intent.
  destruct (merge_followup_flags li intent) as (Hg & Hs & He & Hm).
  unfold post. rewrite Hg, Hs.
  destruct (is_greeting intent); [discriminate|].
  destruct (is_small_talk intent); [discriminate|].
  destruct (is_explanatory _).
  { cbn [snd]. destruct (explain uq (merge_followup li intent)) eqn:E; [discriminate|].
    intros _. repeat split. now exists (merge_followup li intent). }
  destruct (is_underspecified _); [discriminate|].
  destruct (validate_intent _) as [errors nc q|n];
    [cbn; destruct nc; discriminate|].
  destruct (route _ _); cbn [snd]; try discriminate; unfold explain_or_502;
    destruct (explain uq (QueryIntent_of_normalized n)) eqn:E; try discriminate;
    intros _; repeat split; now exists (QueryIntent_of_normalized n).
Qed.

(** X13.  For an ASCII query, [post] answers 502 only when the Gemini call raised
    [ExternalModelError] on a query that holds none of the explanation
    words and none of the statistic words: for a query with such a word
    the canned explanation is returned before Gemini is asked. *)
Theorem bad_gateway_needs_model_error : forall K g df last_intent user_query intent,
  Str.is_ascii user_query = true ->
  is_bad_gateway
    (snd (post K (generate_expert_explanation g) df last_intent user_query intent))
  = true ->
  g = GeminiNoText
  /\ Str.any_in explain_words (Str.lower user_query) = false
  /\ Str.any_in statistic_words (Str.lower user_query) = false
  /\ snd (post K (generate_expert_explanation g) df last_intent user_query intent)
     = BadGateway gateway_error
  /\ is_greeting intent = false /\ is_small_talk intent = false.
Proof.
  intros K g df li uq intent _ H.
  destruct (post_bad_gateway_inv _ _ _ _ _ _ H) as (Hr & Hg & Hs & qi & Hq).
  apply explanation_fails_iff in Hq. destruct Hq as (-> & He & Hst).
  now repeat split.
Qed.

Lemma bad_gateway_needs_model_error_witness :
  let intent := mkQueryIntent None None None None None None
                  false false true false false None in
  let q := "tell me about methane" in
  Str.is_ascii q = true
  /\ is_bad_gateway
    (snd (post Naive.numerics (generate_expert_explanation GeminiNoText)
            Example.df None q intent)) = true
  /\ GeminiNoText = GeminiNoText
  /\ Str.any_in explain_words (Str.lower q) = false
  /\ Str.any_in statistic_words (Str.lower q) = false
  /\ snd (post Naive.numerics (generate_expert_explanation GeminiNoText)
            Example.df None q intent)
     = BadGateway gateway_error
  /\ is_greeting intent = false /\ is_small_talk intent = false.
Proof.
  intros intent q. split; [reflexivity|]. split; [reflexivity|].
  apply (bad_gateway_needs_model_error Naive.numerics GeminiNoText Example.df None q intent);
    reflexivity.
Defined.

(** X14.  With the Gemini client of the repository, which returns a
    dict with [success] false where it could raise, the expert
    explanation of an ASCII query always yields a text and [post] never
    answers 502: the handlers of [ExternalModelError] are never
    entered. *)
Theorem repository_client_never_answers_502 :
  forall K available call df last_intent user_query intent,
  Str.is_ascii user_query = true ->
  (exists text,
     generate_expert_explanation (gemini_client available call) user_query intent
     = Some text
     /\ text <> "")
  /\ is_bad_gateway
       (snd (post K (generate_expert_explanation (gemini_client available call))
               df last_intent user_query intent))
     = false.
Proof.
  intros K available call df li uq intent _.
  assert (Hclient : gemini_client available call <> GeminiNoText).
  { unfold gemini_client. destruct available; [destruct call|]; discriminate. }
  split.
  - destruct (generate_expert_explanation (gemini_client available call) uq intent)
      as [text|] eqn:E.
    + exists text. split; [reflexivity|]. revert E. unfold generate_expert_explanation.
      unfold drivers_text, no_records_text, expert_prefix, canned_text.
      destruct (Str.any_in explain_words _).
      { intros H; injection H as <-. cbn [String.concat].
        destruct (capitalize _); discriminate. }
      destruct (Str.any_in statistic_words _).
      { intros H; injection H as <-. discriminate. }
      destruct (gemini_client available call) as [| | e | [|] [|c s]];
        intros H; try discriminate H; injection H as <-; discriminate.
    + apply explanation_fails_iff in E. destruct E as (E & _). contradiction.
  - destruct (is_bad_gateway _) eqn:E; [|reflexivity].
    destruct (post_bad_gateway_inv _ _ _ _ _ _ E) as (_ & _ & _ & qi & Hq).
    apply explanation_fails_iff in Hq. destruct Hq as (Hq & _). contradiction.
Qed.

Lemma repository_client_witness :
  let intent := mkQueryIntent None None None None None None
                  false false true false false None in
  let q := "tell me about methane" in
  Str.is_ascii q = true
  /\ snd (post Naive.numerics
            (generate_expert_explanation (gemini_client true SyncNoText))
            Example.df None q intent)
     = ExplanatoryResponse canned_text
  /\ (exists text,
        generate_expert_explanation (gemini_client true SyncNoText) q intent = Some text
        /\ text <> "")
  /\ is_bad_gateway
       (snd (post Naive.numerics
               (generate_expert_explanation (gemini_client true SyncNoText))
               Example.df None q intent))
     = false.
Proof.
  intros intent q. split; [reflexivity|]. split; [reflexivity|].
  exact (repository_client_never_answers_502 Naive.numerics true SyncNoText
           Example.df None q intent eq_refl).
Defined.

(* ================================================================= *)
(** * Further properties of the intent extraction *)

Ltac bind_ok H :=
  repeat match type of H with
         | bind ?m _ = Ok _ =>
             let E := fresh "E" in
             destruct m eqn:E; cbn [bind] in H; [|discriminate H]
         end.

Lemma YearFilter_new_ok : forall y lo hi yf,
  YearFilter_new y lo hi = Ok yf ->
  yf = mkYearFilter y lo hi /\ years_in_range yf.
Proof.
  intros y lo hi yf. unfold YearFilter_new, validate_year.
  assert (Hr : forall v, (v <? 1800) || (v >? 2100) = false -> 1800 <= v <= 2100).
  { intros v H. apply orb_false_iff in H. destruct H as [H1 H2].
    apply Z.ltb_ge in H1. destruct (Z.gtb_spec v 2100); [discriminate | lia]. }
  destruct y as [y|]; [destruct ((y <? 1800) || (y >? 2100)) eqn:Ey; [discriminate|]|];
    (destruct lo as [lo|];
     [destruct ((lo <? 1800) || (lo >? 2100)) eqn:El; [discriminate|]|]);
    (destruct hi as [hi|];
     [destruct ((hi <? 1800) || (hi >? 2100)) eqn:Eh; [discriminate|]|]);
    cbn [bind]; intros H; injection H as <-; (split; [reflexivity|]);
    intros v [Hv|[Hv|Hv]]; cbn in Hv; try discriminate; injection Hv as <-; auto.
Qed.




Lemma optional_year_filter_in_range :
  forall (A : Type) (o : option A) (f : A -> result YearFilter) yf,
  match o with
  | None => Ok None
  | Some y => y' <- f y ;; Ok (Some y')
  end = Ok (Some yf) ->
  exists y, o = Some y /\ f y = Ok yf.
Proof.
  intros A [y|] f yf H; [|discriminate].
  destruct (f y) as [y'|e] eqn:E; cbn [bind] in H; [|discriminate].
  injection H as <-. now exists y.
Qed.

Lemma QueryIntent_of_dict_years : forall d intent yf,
  QueryIntent_of_dict d = Ok intent ->
  year_filter intent = Some yf -> years_in_range yf.
Proof.
  intros d intent yf H Hy. unfold QueryIntent_of_dict in H. bind_ok H.
  injection H as <-. cbn [year_filter] in Hy. subst.
  match goal with
  | E : _ = Ok (Some yf) |- _ =>
      apply optional_year_filter_in_range in E; destruct E as (y & _ & Hnew);
      now apply YearFilter_new_ok in Hnew
  end.
Qed.

Lemma QueryIntent_of_proposal_years : forall p intent yf,
  QueryIntent_of_proposal p = Ok intent ->
  year_filter intent = Some yf -> years_in_range yf.
Proof.
  intros p intent yf H Hy. unfold QueryIntent_of_proposal in H. bind_ok H.
  injection H as <-. cbn [year_filter] in Hy. subst.
  match goal with
  | E : _ = Ok (Some yf) |- _ =>
      apply optional_year_filter_in_range in E; destruct E as (y & _ & Hnew);
      now apply YearFilter_new_ok in Hnew
  end.
Qed.

(** X16.  On both paths, for an ASCII query, every year of a returned
    intent lies in 1800..2100: an intent that reaches validation and execution never
    filters on a year outside that range. *)
Theorem extracted_years_are_in_range : forall provider md user_query intent yf,
  Str.is_ascii user_query = true ->
  extract_intent provider md user_query = Ok intent ->
  year_filter intent = Some yf ->
  years_in_range yf.
Proof.
  intros [reply|] md user_query intent yf _ H Hy; cbn [extract_intent] in H.
  - injection H as <-.
    destruct (provider_body md user_query reply) as [i|e] eqn:E; cbn [try_except] in Hy.
    + destruct reply; try discriminate E. cbn [provider_body] in E.
      unfold normalize_proposal in E.
      destruct (patch_year_filter _ _ _) as [y|e] eqn:Ep; cbn [bind] in E;
        [|discriminate].
      exact (QueryIntent_of_proposal_years _ _ _ E Hy).
    + destruct e; discriminate.
  - exact (QueryIntent_of_dict_years _ _ _ H Hy).
Qed.

Lemma extracted_years_are_in_range_witness :
  let q := "china co2 between 2005 and 1995" in
  let yf := mkYearFilter None (Some 1995) (Some 2005) in
  Str.is_ascii q = true
  /\ extract_intent None Example.metadata q
  = Ok (mkQueryIntent (Some "China") (Some CO2) (Some TOTAL) None None (Some yf)
          false false false false false None)
  /\ years_in_range yf.
Proof.
  intros q yf.
  assert (H : extract_intent None Example.metadata q
              = Ok (mkQueryIntent (Some "China") (Some CO2) (Some TOTAL) None None
                      (Some yf) false false false false false None))
    by (vm_compute; reflexivity).
  split; [reflexivity|]. split; [exact H|].
  exact (extracted_years_are_in_range None Example.metadata q _ yf eq_refl H eq_refl).
Defined.

(** ** The shape of a heuristic intent *)

Lemma QueryIntent_of_dict_inv : forall c g s m ms yf ex st gr nc cq intent,
  QueryIntent_of_dict (mkIntentDict c g s m ms yf ex st gr nc cq) = Ok intent ->
  exists g' s' m' ms' yf',
    validate_enum "gas" Gas_of_value g = Ok g'
    /\ validate_enum "sector" Sector_of_value s = Ok s'
    /\ validate_enum "metric" Metric_of_value m = Ok m'
    /\ match ms with
       | None => Ok None
       | Some l => l' <- validate_metric_list l ;; Ok (Some l')
       end = Ok ms'
    /\ match yf with
       | None => Ok None
       | Some y =>
           y' <- YearFilter_new (yfd_year y) (yfd_year_min y) (yfd_year_max y) ;;
           Ok (Some y')
       end = Ok yf'
    /\ intent = mkQueryIntent c g' s' m' ms' yf'
                  (flag gr) (flag st) (flag ex) false (flag nc) cq.
Proof.
  intros c g s m ms yf ex st gr nc cq intent H. unfold QueryIntent_of_dict in H.
  cbn [d_gas d_sector d_metric d_metrics d_year_filter d_country d_is_greeting
       d_is_small_talk d_is_explanatory d_needs_clarification
       d_clarification_question] in H.
  bind_ok H. injection H as <-. repeat eexists; eassumption.
Qed.

(** The dict of the heuristic path, field by field. *)
Lemma heuristic_intent_dict_fields : forall md user_query,
  heuristic_intent_dict md user_query
  = mkIntentDict
      (infer_country (countries md) (Str.lower user_query))
      (infer_gas (Str.lower user_query))
      match infer_gas (Str.lower user_query) with
      | Some g => if String.eqb (Str.lower g) "co2" then Some "total" else None
      | None => None
      end
      match detect_metrics (Str.lower user_query) with
      | [] => None
      | m :: _ => Some m
      end
      match detect_metrics (Str.lower user_query) with
      | [] => None
      | _ => Some (detect_metrics (Str.lower user_query))
      end
      (parse_year_filter
         match year_range md with Some (_, ymax) => Some ymax | None => None end
         (Str.lower user_query))
      (Some (Str.any_in explain_kw (Str.lower user_query)
             && negb (Str.any_in compute_kw (Str.lower user_query))
             || Str.any_in general_question_phrases (Str.lower user_query)
                && negb (Str.any_in (["co2"; "methane"; "n2o"] ++ compute_kw)%list
                           (Str.lower user_query))))
      (Some false)
      (Some (greeting_re_match (Str.strip (Str.lower user_query))
             && negb (is_some (infer_country (countries md) (Str.lower user_query))
                      || is_some (infer_gas (Str.lower user_query))
                      || is_some match detect_metrics (Str.lower user_query) with
                                 | [] => None
                                 | m :: _ => Some m
                                 end
                      || is_some match detect_metrics (Str.lower user_query) with
                                 | [] => None
                                 | _ => Some (detect_metrics (Str.lower user_query))
                                 end
                      || is_some (parse_year_filter
                                    match year_range md with
                                    | Some (_, ymax) => Some ymax
                                    | None => None
                                    end (Str.lower user_query)))))
      (Some (Str.any_in compute_kw (Str.lower user_query)
             && (negb (is_some (infer_country (countries md) (Str.lower user_query)))
                 || negb (is_some (infer_gas (Str.lower user_query))))))
      None.
Proof. reflexivity. Qed.

Lemma Metric_of_value_value : forall s m, Metric_of_value s = Some m -> Metric_value m = s.
Proof.
  intros s m H. unfold Metric_of_value in H. apply find_some in H.
  destruct H as [_ H]. now apply String.eqb_eq in H.
Qed.

Lemma validate_metric_list_values : forall l ms,
  validate_metric_list l = Ok ms -> map Metric_value ms = l.
Proof.
  induction l as [|s l IH]; intros ms H; cbn [validate_metric_list] in H.
  - now injection H as <-.
  - destruct (Metric_of_value s) as [m|] eqn:Em; [|discriminate].
    destruct (validate_metric_list l) as [ms'|e]; cbn [bind] in H; [|discriminate].
    injection H as <-. cbn [map]. now rewrite (Metric_of_value_value _ _ Em), (IH ms').
Qed.

Lemma mem_false_not_in : forall x l, Str.mem x l = false -> ~ In x l.
Proof. intros x l H Hin. apply mem_in in Hin. congruence. Qed.

Lemma nodup_snoc : forall (x : string) l, NoDup l -> ~ In x l -> NoDup (l ++ [x]).
Proof.
  intros x l Hl Hx. induction Hl as [|y l Hy Hl IH]; cbn [app].
  - constructor; [tauto | constructor].
  - constructor.
    + rewrite in_app_iff. cbn. intros [H|[H|[]]]; [contradiction|].
      subst. apply Hx. now left.
    + apply IH. intros H. apply Hx. now right.
Qed.

Lemma detect_metrics_nodup : forall uq, NoDup (detect_metrics uq).
Proof.
  intros uq. unfold detect_metrics.
  assert (Hgen : forall table acc, NoDup acc ->
            NoDup (fold_left
                     (fun detected pm =>
                        if Str.contains (fst pm) uq && negb (Str.mem (snd pm) detected)
                        then (detected ++ [snd pm])%list else detected) table acc)).
  { induction table as [|pm table IH]; intros acc Hacc; cbn [fold_left]; [assumption|].
    apply IH. destruct (Str.contains (fst pm) uq); cbn [andb]; [|assumption].
    destruct (Str.mem (snd pm) acc) eqn:Em; cbn [negb]; [assumption|].
    apply nodup_snoc; [assumption | now apply mem_false_not_in]. }
  apply Hgen. constructor.
Qed.

Lemma infer_country_spec : forall names uq c,
  infer_country names uq = Some c ->
  In c (firstn 200 names) /\ c <> "" /\ Str.contains (Str.lower c) uq = true.
Proof.
  intros names uq c H. unfold infer_country in H. apply find_some in H.
  destruct H as [Hin Hp]. apply andb_true_iff in Hp. destruct Hp as [Hn Hc].
  repeat split; try assumption. intros ->. discriminate.
Qed.

(** X17.  On an ASCII query and ASCII country names, an intent of the
    heuristic path is consistent: the sector is
    total exactly when the gas is co2 and unset otherwise; [metrics] is
    unset or a non-empty list without repetition whose head is [metric];
    a country is one of the first 200 names of the metadata and occurs,
    lower-cased, in the lower-cased query; an intent flagged as greeting
    carries no country, gas, metric or year. *)
Theorem heuristic_intent_is_consistent : forall md user_query intent,
  Str.is_ascii user_query = true ->
  forallb Str.is_ascii (countries md) = true ->
  extract_intent None md user_query = Ok intent ->
  sector intent = match gas intent with Some CO2 => Some TOTAL | _ => None end
  /\ metric intent = match metrics intent with Some ms => hd_error ms | None => None end
  /\ match metrics intent with Some ms => ms <> [] /\ NoDup ms | None => True end
  /\ match country intent with
     | Some c =>
         In c (firstn 200 (countries md)) /\ c <> ""
         /\ Str.contains (Str.lower c) (Str.lower user_query) = true
     | None => True
     end
  /\ (is_greeting intent = true ->
      country intent = None /\ gas intent = None /\ metric intent = None
      /\ metrics intent = None /\ year_filter intent = None)
  /\ is_small_talk intent = false /\ low_confidence intent = false
  /\ clarification_question intent = None.
Proof.
  intros md user_query intent _ _ H. cbn [extract_intent] in H.
  unfold extract_intent_heuristic in H.
  rewrite heuristic_intent_dict_fields in H.
  apply QueryIntent_of_dict_inv in H.
  destruct H as (g & s & m & ms & yf & Hg & Hs & Hm & Hms & Hyf & ->).
  cbn [country gas sector metric metrics year_filter is_greeting is_small_talk
       low_confidence clarification_question flag].
  revert Hg Hs Hm Hms Hyf. generalize (Str.lower user_query) as uq.
  intros uq Hg Hs Hm Hms Hyf.
  (* the gas and the sector *)
  assert (Hsec : s = match g with Some CO2 => Some TOTAL | _ => None end
                 /\ (infer_gas uq = None -> g = None)).
  { destruct (infer_gas uq) as [g0|] eqn:Eg.
    - pose proof (infer_gas_known _ _ Eg) as Hin. cbn in Hin.
      destruct Hin as [<-|[<-|[<-|[]]]]; cbn in Hg, Hs;
        injection Hg as <-; injection Hs as <-; (split; [reflexivity | discriminate]).
    - cbn in Hg, Hs. injection Hg as <-. injection Hs as <-. now split. }
  destruct Hsec as [Hsec Hgnone].
  (* the metrics *)
  pose proof (detect_metrics_nodup uq) as Hnd.
  assert (Hmet : m = match ms with Some l => hd_error l | None => None end
                 /\ match ms with Some l => l <> [] /\ NoDup l | None => True end
                 /\ (detect_metrics uq = [] -> m = None /\ ms = None)).
  { destruct (detect_metrics uq) as [|m0 l0] eqn:Ed.
    - cbn in Hm, Hms. injection Hm as <-. injection Hms as <-. now repeat split.
    - destruct (validate_metric_list (m0 :: l0)) as [l|e] eqn:El;
        cbn [bind] in Hms; [|discriminate].
      injection Hms as <-.
      pose proof (validate_metric_list_values _ _ El) as Hv.
      destruct l as [|M0 l]; [discriminate|]. cbn [map] in Hv.
      injection Hv as Hv0 Hvl.
      cbn [validate_enum] in Hm.
      destruct (Metric_of_value m0) as [M|] eqn:EM; [|discriminate].
      injection Hm as <-.
      apply Metric_of_value_value in EM.
      assert (M = M0) by (apply Metric_value_inj; congruence). subst M.
      split; [reflexivity|]. split; [|discriminate].
      split; [discriminate|].
      apply (NoDup_map_inv Metric_value). cbn [map]. now rewrite Hv0, Hvl. }
  destruct Hmet as (Hmet & Hms' & Hmnone).
  split; [assumption|]. split; [assumption|]. split; [assumption|]. split.
  { destruct (infer_country (countries md) uq) as [c|] eqn:Ec; [|exact I].
    now apply infer_country_spec. }
  split; [|repeat split].
  intros Hgr. apply andb_true_iff in Hgr. destruct Hgr as [_ Hgr].
  apply negb_true_iff in Hgr.
  apply orb_false_iff in Hgr. destruct Hgr as [Hgr Hyr].
  apply orb_false_iff in Hgr. destruct Hgr as [Hgr _].
  apply orb_false_iff in Hgr. destruct Hgr as [Hgr Hme].
  apply orb_false_iff in Hgr. destruct Hgr as [Hco Hga].
  destruct (infer_country (countries md) uq); [discriminate Hco|].
  destruct (infer_gas uq); [discriminate Hga|].
  destruct (detect_metrics uq); [|discriminate Hme].
  destruct (parse_year_filter _ uq); [discriminate Hyr|].
  destruct (Hmnone eq_refl) as [-> ->]. rewrite (Hgnone eq_refl).
  injection Hyf as <-. repeat split.
Qed.

Lemma heuristic_intent_is_consistent_witness :
  let q := "Average and maximum CO2 of India in 2019, on average" in
  let intent := mkQueryIntent (Some "India") (Some CO2) (Some TOTAL) (Some AVERAGE)
                  (Some [AVERAGE; MAX]) (Some (mkYearFilter (Some 2019) None None))
                  false false false false false None in
  Str.is_ascii q = true
  /\ forallb Str.is_ascii (countries Example.metadata) = true
  /\ extract_intent None Example.metadata q = Ok intent
  /\ sector intent = match gas intent with Some CO2 => Some TOTAL | _ => None end
  /\ metric intent = match metrics intent with Some ms => hd_error ms | None => None end
  /\ match metrics intent with Some ms => ms <> [] /\ NoDup ms | None => True end
  /\ match country intent with
     | Some c =>
         In c (firstn 200 (countries Example.metadata)) /\ c <> ""
         /\ Str.contains (Str.lower c) (Str.lower q) = true
     | None => True
     end
  /\ (is_greeting intent = true ->
      country intent = None /\ gas intent = None /\ metric intent = None
      /\ metrics intent = None /\ year_filter intent = None)
  /\ is_small_talk intent = false /\ low_confidence intent = false
  /\ clarification_question intent = None.
Proof.
  intros q intent.
  assert (H : extract_intent None Example.metadata q = Ok intent)
    by (vm_compute; reflexivity).
  split; [reflexivity|]. split; [reflexivity|]. split; [exact H|].
  exact (heuristic_intent_is_consistent Example.metadata q intent eq_refl eq_refl H).
Defined.

(** ** A null year filter from the provider *)

Lemma patch_null_year_filter : forall yrmax uq,
  is_some (parse_year_filter yrmax uq) = true ->
  patch_year_filter yrmax uq Null
  = Raise (TypeError "'NoneType' object does not support item assignment").
Proof.
  intros yrmax uq. unfold parse_year_filter, patch_year_filter.
  destruct (or_else (search re_from_to uq) (search re_between_and uq)) as [[y1 y2]|];
    [reflexivity|].
  destruct (search re_last_n_years uq) as [n|];
    destruct (nonzero yrmax) as [ymax|];
    destruct (Str.contains "last year" uq);
    cbn [is_some andb update_year_filter];
    try reflexivity;
    destruct (search_bare_year false uq); cbn; try reflexivity; discriminate.
Qed.

(** X18.  When the provider answers with [year_filter] set to null and
    the ASCII query holds a year reference the heuristics recognize, the
    item assignment on [None] raises inside the [try] block: the whole
    proposal is dropped, whatever else it holds, and [extract_intent]
    returns the intent that asks to try again. *)
Theorem null_year_filter_drops_the_proposal : forall md user_query p,
  Str.is_ascii user_query = true ->
  p_year_filter p = Null ->
  is_some
    (parse_year_filter
       match year_range md with Some (_, ymax) => Some ymax | None => None end
       (Str.lower user_query)) = true ->
  extract_intent (Some (Proposed p)) md user_query
  = Ok (clarification_intent
          "something went wrong while processing your query. please try again.").
Proof.
  intros md user_query p _ Hnull Hyear.
  cbn [extract_intent provider_body]. unfold normalize_proposal.
  rewrite Hnull, (patch_null_year_filter _ _ Hyear).
  reflexivity.
Qed.

Lemma null_year_filter_drops_the_proposal_witness :
  let q := "china co2 in 2019" in
  let p := mkProposal (Val "China") (Val "co2") (Val "total") (Val "sum") Null Null
             Absent Absent Absent Absent Absent Null in
  Str.is_ascii q = true
  /\ p_year_filter p = Null
  /\ parse_year_filter (Some 2021) (Str.lower q)
     = Some (mkYearFilterDict (Some 2019) None None)
  /\ extract_intent (Some (Proposed p)) Example.metadata q
     = Ok (clarification_intent
             "something went wrong while processing your query. please try again.").
Proof.
  intros q p. split; [reflexivity|]. split; [reflexivity|].
  split; [vm_compute; reflexivity|].
  apply (null_year_filter_drops_the_proposal Example.metadata q p);
    [reflexivity | reflexivity | vm_compute; reflexivity].
Defined.

(** ** A heuristic intent that asks for clarification *)

Lemma any_in_app_r : forall ws ws' s,
  Str.any_in ws' s = true -> Str.any_in (ws ++ ws')%list s = true.
Proof.
  intros ws ws' s H. unfold Str.any_in in *. rewrite existsb_app, H.
  apply orb_true_r.
Qed.

(** X19.  On an ASCII query, when the heuristic path flags
    [needs_clarification], the country or the gas is missing and the
    intent is not explanatory; [post] then answers with a greeting or a
    clarification question and never calls the executor. *)
Theorem heuristic_clarification_never_executes :
  forall md user_query intent K explain df last_intent,
  Str.is_ascii user_query = true ->
  extract_intent None md user_query = Ok intent ->
  needs_clarification intent = true ->
  (country intent = None \/ gas intent = None)
  /\ is_explanatory intent = false
  /\ (snd (post K explain df last_intent user_query intent)
      = GreetingResponse greeting_text
      \/ snd (post K explain df last_intent user_query intent)
         = ClarificationResponse underspecified_question
      \/ snd (post K explain df last_intent user_query intent)
         = ClarificationResponse "could you clarify your request?")
  /\ ~ In CallExecute (fst (post K explain df last_intent user_query intent)).
Proof.
  intros md user_query intent K explain df li _ H Hn. cbn [extract_intent] in H.
  unfold extract_intent_heuristic in H.
  rewrite heuristic_intent_dict_fields in H.
  apply QueryIntent_of_dict_inv in H.
  destruct H as (g & s & m & ms & yf & Hg & _ & _ & _ & _ & ->).
  cbn [needs_clarification flag] in Hn.
  apply andb_true_iff in Hn. destruct Hn as [Hkw Hmiss].
  assert (Hex : is_explanatory
                  (mkQueryIntent
                     (infer_country (countries md) (Str.lower user_query)) g s m ms yf
                     (flag (Some (greeting_re_match (Str.strip (Str.lower user_query))
                        && negb (is_some (infer_country (countries md) (Str.lower user_query))
                                 || is_some (infer_gas (Str.lower user_query))
                                 || is_some match detect_metrics (Str.lower user_query) with
                                            | [] => None
                                            | m0 :: _ => Some m0
                                            end
                                 || is_some match detect_metrics (Str.lower user_query) with
                                            | [] => None
                                            | _ => Some (detect_metrics (Str.lower user_query))
                                            end
                                 || is_some (parse_year_filter
                                               match year_range md with
                                               | Some (_, ymax) => Some ymax
                                               | None => None
                                               end (Str.lower user_query))))))
                     (flag (Some false))
                     (flag (Some (Str.any_in explain_kw (Str.lower user_query)
                        && negb (Str.any_in compute_kw (Str.lower user_query))
                        || Str.any_in general_question_phrases (Str.lower user_query)
                           && negb (Str.any_in (["co2"; "methane"; "n2o"] ++ compute_kw)%list
                                      (Str.lower user_query)))))
                     false
                     (flag (Some (Str.any_in compute_kw (Str.lower user_query)
                        && (negb (is_some (infer_country (countries md)
                                             (Str.lower user_query)))
                            || negb (is_some (infer_gas (Str.lower user_query)))))))
                     None) = false).
  { cbn [is_explanatory flag].
    rewrite (any_in_app_r ["co2"; "methane"; "n2o"] compute_kw _ Hkw), Hkw.
    cbn [negb]. now rewrite !andb_false_r. }
  set (intent := mkQueryIntent _ g s m ms yf _ _ _ false _ None) in *.
  assert (Hnc : needs_clarification intent = true).
  { unfold intent. cbn [needs_clarification flag]. now rewrite Hkw, Hmiss. }
  assert (Hst : is_small_talk intent = false) by reflexivity.
  assert (Hcq : clarification_question intent = None) by reflexivity.
  assert (Hmissing : country intent = None \/ gas intent = None).
  { unfold intent. cbn [country gas].
    apply orb_true_iff in Hmiss. destruct Hmiss as [Hc|Hgas].
    - left. destruct (infer_country _ _); [discriminate | reflexivity].
    - right. destruct (infer_gas _); [discriminate|].
      cbn in Hg. now injection Hg as <-. }
  clearbody intent. clear Hg Hkw Hmiss.
  split; [assumption|]. split; [assumption|].
  destruct (merge_followup_flags li intent) as (Hg' & Hs' & He' & Hm').
  unfold post. rewrite Hg', Hs', He', Hex, Hst, (Hm' Hex).
  destruct (is_greeting intent) eqn:Egr.
  { split; [now left | intros []]. }
  destruct (is_underspecified intent).
  { split; [right; now left | intros []]. }
  unfold validate_intent. rewrite Egr, Hst, Hex, Hnc, Hcq. cbn [andb fst snd].
  split; [right; now right | intros [H|[]]; discriminate].
Qed.

Lemma heuristic_clarification_never_executes_witness :
  let q := "average emissions of china" in
  let intent := mkQueryIntent (Some "China") None None (Some AVERAGE) (Some [AVERAGE])
                  None false false false false true None in
  Str.is_ascii q = true
  /\ extract_intent None Example.metadata q = Ok intent
  /\ needs_clarification intent = true
  /\ post Naive.numerics (fun _ _ => None) Example.df None q intent
     = ([CallValidate], ClarificationResponse "could you clarify your request?")
  /\ (country intent = None \/ gas intent = None)
  /\ is_explanatory intent = false
  /\ (snd (post Naive.numerics (fun _ _ => None) Example.df None q intent)
      = GreetingResponse greeting_text
      \/ snd (post Naive.numerics (fun _ _ => None) Example.df None q intent)
         = ClarificationResponse underspecified_question
      \/ snd (post Naive.numerics (fun _ _ => None) Example.df None q intent)
         = ClarificationResponse "could you clarify your request?")
  /\ ~ In CallExecute
         (fst (post Naive.numerics (fun _ _ => None) Example.df None q intent)).
Proof.
  intros q intent.
  assert (H : extract_intent None Example.metadata q = Ok intent)
    by (vm_compute; reflexivity).
  split; [reflexivity|]. split; [exact H|]. split; [reflexivity|].
  split; [reflexivity|].
  exact (heuristic_clarification_never_executes Example.metadata q intent
           Naive.numerics (fun _ _ => None) Example.df None eq_refl H eq_refl).
Defined.

(* ================================================================= *)
(** * The schema metadata *)

Lemma filter_map_in : forall (A B : Type) (f : A -> option B) l b,
  In b (filter_map f l) <-> exists a, In a l /\ f a = Some b.
Proof.
  intros A B f l b. induction l as [|a l IH]; cbn [filter_map In].
  - split; [tauto | intros (a & [] & _)].
  - destruct (f a) as [b'|] eqn:E; cbn [In]; rewrite IH; split.
    + intros [<-|(a' & Ha & Hf)]; [exists a; auto | exists a'; auto].
    + intros (a' & [<-|Ha] & Hf); [left; congruence | right; exists a'; auto].
    + intros (a' & Ha & Hf). exists a'; auto.
    + intros (a' & [<-|Ha] & Hf); [congruence | exists a'; auto].
Qed.

Lemma unique_spec : forall l,
  NoDup (unique l) /\ forall x, In x (unique l) <-> In x l.
Proof.
  intros l. unfold unique.
  assert (Hgen : forall l acc, NoDup acc ->
            NoDup (fold_left
                     (fun seen x => if Str.mem x seen then seen else (seen ++ [x])%list)
                     l acc)
            /\ forall x,
                 In x (fold_left
                         (fun seen x => if Str.mem x seen then seen else (seen ++ [x])%list)
                         l acc)
                 <-> In x acc \/ In x l).
  { clear l. induction l as [|a l IH]; intros acc Hacc; cbn [fold_left In].
    - split; [assumption | intros x; tauto].
    - destruct (Str.mem a acc) eqn:Em.
      + destruct (IH acc Hacc) as [H1 H2]. split; [assumption|].
        intros x. rewrite H2. split; [tauto|].
        intros [H|[<-|H]]; auto. left.
        unfold Str.mem in Em. apply existsb_exists in Em.
        destruct Em as (y & Hy & Heq). apply String.eqb_eq in Heq. now subst y.
      + destruct (IH (acc ++ [a])%list) as [H1 H2].
        { apply nodup_snoc; [assumption | now apply mem_false_not_in]. }
        split; [assumption|]. intros x. rewrite H2, in_app_iff. cbn [In]. tauto. }
  destruct (Hgen l [] (NoDup_nil _)) as [H1 H2]. split; [assumption|].
  intros x. rewrite H2. cbn [In]. tauto.
Qed.

Lemma insert_string_in : forall x l y, In y (insert_string x l) <-> y = x \/ In y l.
Proof.
  intros x l y. induction l as [|z l IH]; cbn [insert_string In].
  - split; [intros [H|[]]; auto | intros [H|[]]; auto].
  - destruct (String.leb x z); cbn [In]; [|rewrite IH]; intuition.
Qed.

Lemma insert_string_nodup : forall x l,
  NoDup l -> ~ In x l -> NoDup (insert_string x l).
Proof.
  intros x l Hl Hx. induction Hl as [|z l Hz Hl IH]; cbn [insert_string].
  - constructor; [tauto | constructor].
  - destruct (String.leb x z).
    + constructor; [assumption | now constructor].
    + constructor.
      * rewrite insert_string_in. intros [->|H]; [apply Hx; now left | contradiction].
      * apply IH. intros H. apply Hx. now right.
Qed.

Lemma insert_string_sorted : forall x l,
  Sorted (fun a b => String.leb a b = true) l ->
  Sorted (fun a b => String.leb a b = true) (insert_string x l).
Proof.
  intros x l Hl. induction Hl as [|z l Hl IH Hhd]; cbn [insert_string].
  - repeat constructor.
  - destruct (String.leb x z) eqn:E.
    + constructor; [now constructor | now constructor].
    + constructor; [assumption|].
      assert (Hzx : String.leb z x = true).
      { destruct (String.leb_total x z) as [H|H]; [congruence | assumption]. }
      destruct l as [|w l]; cbn [insert_string]; [now constructor|].
      destruct (String.leb x w); constructor; [assumption|].
      now inversion Hhd.
Qed.

Lemma sorted_spec : forall l,
  NoDup l ->
  NoDup (sorted l)
  /\ Sorted (fun a b => String.leb a b = true) (sorted l)
  /\ forall x, In x (sorted l) <-> In x l.
Proof.
  intros l Hl. unfold sorted. induction Hl as [|x l Hx Hl IH]; cbn [fold_right].
  - repeat split; try constructor; tauto.
  - destruct IH as (H1 & H2 & H3). split; [|split].
    + apply insert_string_nodup; [assumption | now rewrite H3].
    + now apply insert_string_sorted.
    + intros y. rewrite insert_string_in, H3. cbn [In]. intuition.
Qed.

Lemma strictly_sorted : forall l,
  NoDup l -> Sorted (fun a b => String.leb a b = true) l ->
  Sorted (fun a b => String.ltb a b = true) l.
Proof.
  intros l Hn Hs. induction Hs as [|x l Hs IH Hhd]; [constructor|].
  inversion Hn as [|? ? Hx Hn']; subst. constructor; [now apply IH|].
  destruct Hhd as [|y l Hxy]; constructor.
  unfold String.leb in Hxy. unfold String.ltb.
  destruct (String.compare x y) eqn:E; try reflexivity; [|discriminate].
  apply String.compare_eq_iff in E. subst y. exfalso. apply Hx. now left.
Qed.

Lemma dataset_countries_in_metadata : forall df md,
  get_schema_metadata df = Ok md ->
  (Str.mem "country" (columns df) = true ->
   forall c, In c (countries md) <->
             exists r, In r (rows df) /\ row_country r = Some c)
  /\ (Str.mem "country" (columns df) = false -> countries md = []).
Proof.
  intros df md H.
  assert (Hc : countries md
               = if Str.mem "country" (columns df)
                 then sorted (unique (filter_map row_country (rows df)))
                 else []).
  { revert H. unfold get_schema_metadata.
    destruct (Str.mem "year" (columns df) && _).
    - destruct (years_min _); [|discriminate].
      destruct (years_max _); [|discriminate].
      intros H; injection H as <-. reflexivity.
    - intros H; injection H as <-. reflexivity. }
  rewrite Hc. clear H Hc.
  destruct (unique_spec (filter_map row_country (rows df))) as [Hu1 Hu2].
  destruct (sorted_spec _ Hu1) as (Hs1 & Hs2 & Hs3).
  destruct (Str.mem "country" (columns df)).
  - split; [|discriminate]. intros _ c. now rewrite Hs3, Hu2, filter_map_in.
  - split; [discriminate | reflexivity].
Qed.

(** X20.  The country names of the metadata are exactly the countries
    that occur in the rows of the dataframe, each once, and each name is
    strictly below the next in code-point order; without a [country]
    column there are none. *)
Theorem metadata_countries_are_the_dataset_countries : forall df md,
  get_schema_metadata df = Ok md ->
  (Str.mem "country" (columns df) = true ->
   forall c, In c (countries md) <->
             exists r, In r (rows df) /\ row_country r = Some c)
  /\ (Str.mem "country" (columns df) = false -> countries md = [])
  /\ NoDup (countries md)
  /\ Sorted (fun a b => String.ltb a b = true) (countries md).
Proof.
  intros df md H.
  assert (Hc : countries md
               = if Str.mem "country" (columns df)
                 then sorted (unique (filter_map row_country (rows df)))
                 else []).
  { revert H. unfold get_schema_metadata.
    destruct (Str.mem "year" (columns df) && _).
    - destruct (years_min _); [|discriminate].
      destruct (years_max _); [|discriminate].
      intros H; injection H as <-. reflexivity.
    - intros H; injection H as <-. reflexivity. }
  rewrite Hc. clear H Hc.
  destruct (unique_spec (filter_map row_country (rows df))) as [Hu1 Hu2].
  destruct (sorted_spec _ Hu1) as (Hs1 & Hs2 & Hs3).
  destruct (Str.mem "country" (columns df)).
  - split; [|split; [discriminate|split]].
    + intros _ c. now rewrite Hs3, Hu2, filter_map_in.
    + assumption.
    + now apply strictly_sorted.
  - split; [discriminate|]. split; [reflexivity|]. split; constructor.
Qed.

Lemma metadata_countries_witness :
  get_schema_metadata Example.df
  = Ok (mkSchemaMetadata ["China"; "India"; "Tuvalu"; "United States"]
          (Some (2020, 2021)))
  /\ NoDup ["China"; "India"; "Tuvalu"; "United States"]
  /\ Sorted (fun a b => String.ltb a b = true)
       ["China"; "India"; "Tuvalu"; "United States"].
Proof.
  assert (H : get_schema_metadata Example.df
              = Ok (mkSchemaMetadata ["China"; "India"; "Tuvalu"; "United States"]
                      (Some (2020, 2021))))
    by (vm_compute; reflexivity).
  split; [exact H|].
  exact (proj2 (proj2 (metadata_countries_are_the_dataset_countries Example.df _ H))).
Defined.

Lemma fold_min_spec : forall l a,
  fold_left Z.min l a <= a
  /\ (forall x, In x l -> fold_left Z.min l a <= x)
  /\ (fold_left Z.min l a = a \/ In (fold_left Z.min l a) l).
Proof.
  induction l as [|b l IH]; intros a; cbn [fold_left In].
  - split; [lia|]. split; [tauto | now left].
  - destruct (IH (Z.min a b)) as (H1 & H2 & H3). split; [lia|]. split.
    + intros x [<-|Hx]; [lia | now apply H2].
    + destruct H3 as [H3|H3]; [|right; now right].
      destruct (Z.min_spec a b) as [[_ E]|[_ E]]; rewrite E in *;
        [now left | right; left; congruence].
Qed.

Lemma fold_max_spec : forall l a,
  a <= fold_left Z.max l a
  /\ (forall x, In x l -> x <= fold_left Z.max l a)
  /\ (fold_left Z.max l a = a \/ In (fold_left Z.max l a) l).
Proof.
  induction l as [|b l IH]; intros a; cbn [fold_left In].
  - split; [lia|]. split; [tauto | now left].
  - destruct (IH (Z.max a b)) as (H1 & H2 & H3). split; [lia|]. split.
    + intros x [<-|Hx]; [lia | now apply H2].
    + destruct H3 as [H3|H3]; [|right; now right].
      destruct (Z.max_spec a b) as [[_ E]|[_ E]]; rewrite E in *;
        [right; left; congruence | now left].
Qed.

(** X21.  The year range of the metadata is the least and the greatest
    year of the rows; it is unset only without a [year] column or
    without rows; and [get_schema_metadata] raises exactly when the
    dataframe has a [year] column and rows but not one year. *)
Theorem metadata_year_range_bounds : forall df,
  match get_schema_metadata df with
  | Ok md =>
      match year_range md with
      | Some (lo, hi) =>
          lo <= hi
          /\ (exists r, In r (rows df) /\ row_year r = Some lo)
          /\ (exists r, In r (rows df) /\ row_year r = Some hi)
          /\ forall r y, In r (rows df) -> row_year r = Some y -> lo <= y <= hi
      | None => Str.mem "year" (columns df) = false \/ rows df = []
      end
  | Raise _ =>
      Str.mem "year" (columns df) = true /\ rows df <> []
      /\ forall r, In r (rows df) -> row_year r = None
  end.
Proof.
  intros df. unfold get_schema_metadata.
  destruct (Str.mem "year" (columns df)); cbn [andb]; [|now left].
  destruct (rows df) as [|r0 rs] eqn:Er; [now right|].
  cbn [List.length Nat.eqb negb]. rewrite <- Er.
  pose proof (filter_map_in _ _ row_year (rows df)) as Hin.
  destruct (filter_map row_year (rows df)) as [|y0 ys] eqn:Ey;
    cbn [years_min years_max year_range].
  - split; [reflexivity|]. split; [rewrite Er; discriminate|].
    intros r Hr. destruct (row_year r) as [y|] eqn:E; [|reflexivity].
    exfalso. apply (proj2 (Hin y)). now exists r.
  - destruct (fold_min_spec ys y0) as (M1 & M2 & M3).
    destruct (fold_max_spec ys y0) as (X1 & X2 & X3).
    split; [lia|]. split; [|split].
    + apply Hin. destruct M3 as [->|M3]; [now left | now right].
    + apply Hin. destruct X3 as [->|X3]; [now left | now right].
    + intros r y Hr Hy.
      assert (Hy' : In y (y0 :: ys)) by (apply Hin; now exists r).
      destruct Hy' as [<-|Hy']; [lia|]. split; [now apply M2 | now apply X2].
Qed.

Lemma firstn_in : forall (A : Type) n (l : list A) x, In x (firstn n l) -> In x l.
Proof.
  intros A n. induction n as [|n IH]; intros [|a l] x; cbn [firstn In]; try tauto.
  intros [H|H]; [now left | right; now apply IH].
Qed.

(** X22.  Without a provider, on an ASCII query over a dataset with
    ASCII country names, a country the extractor infers is a country of
    the dataset it was given: the country filter of [execute] keeps at
    least one of its rows. *)
Theorem inferred_country_has_rows : forall df user_query intent c,
  Str.is_ascii user_query = true ->
  (forall r c', In r (rows df) -> row_country r = Some c' -> Str.is_ascii c' = true) ->
  extract_intent_from None df user_query = Ok intent ->
  country intent = Some c ->
  c <> ""
  /\ Str.mem "country" (columns df) = true
  /\ exists r, In r (filter (country_is c) (rows df)).
Proof.
  intros df user_query intent c _ _ H Hc. unfold extract_intent_from in H.
  destruct (get_schema_metadata df) as [md|e] eqn:Emd; cbn [bind] in H; [|discriminate].
  cbn [extract_intent] in H. unfold extract_intent_heuristic in H.
  rewrite heuristic_intent_dict_fields in H.
  apply QueryIntent_of_dict_inv in H.
  destruct H as (g & s & m & ms & yf & _ & _ & _ & _ & _ & ->).
  cbn [country] in Hc. apply infer_country_spec in Hc.
  destruct Hc as (Hin & Hne & _). apply firstn_in in Hin.
  destruct (dataset_countries_in_metadata df md Emd) as (H1 & H2).
  split; [assumption|].
  destruct (Str.mem "country" (columns df)) eqn:Em.
  - split; [reflexivity|]. apply (H1 eq_refl) in Hin. destruct Hin as (r & Hr & Hrc).
    exists r. apply filter_In. split; [assumption|]. now apply country_is_true.
  - rewrite (H2 eq_refl) in Hin. destruct Hin.
Qed.

Lemma inferred_country_has_rows_witness :
  let q := "co2 of tuvalu in 2021" in
  let intent := mkQueryIntent (Some "Tuvalu") (Some CO2) (Some TOTAL) None None
                  (Some (mkYearFilter (Some 2021) None None))
                  false false false false false None in
  Str.is_ascii q = true
  /\ extract_intent_from None Example.df q = Ok intent
  /\ "Tuvalu" <> ""
  /\ Str.mem "country" (columns Example.df) = true
  /\ exists r, In r (filter (country_is "Tuvalu") (rows Example.df)).
Proof.
  intros q intent.
  assert (H : extract_intent_from None Example.df q = Ok intent)
    by (vm_compute; reflexivity).
  split; [reflexivity|]. split; [exact H|].
  apply (inferred_country_has_rows Example.df q intent "Tuvalu" eq_refl);
    [|exact H|reflexivity].
  intros r c' Hr Hc. cbn in Hr.
  repeat (destruct Hr as [<-|Hr]; [injection Hc as <-; reflexivity|]).
  destruct Hr.
Defined.

(* ================================================================= *)
(** * JSON-safe values *)

(** Induction on a value with the hypothesis for every element of a
    list, a tuple or a dict. *)
Lemma pyval_induction : forall P : pyval -> Prop,
  P PNone ->
  (forall b, P (PBool b)) ->
  (forall n, P (PInt n)) ->
  (forall x, P (PFloat x)) ->
  (forall s, P (PStr s)) ->
  (forall l, Forall P l -> P (PList l)) ->
  (forall l, Forall P l -> P (PTuple l)) ->
  (forall d, Forall (fun kv => P (snd kv)) d -> P (PDict d)) ->
  forall v, P v.
Proof.
  intros P HNone HBool HInt HFloat HStr HList HTuple HDict.
  fix IH 1. intros [|b|n|x|s|l|l|d].
  - exact HNone.
  - apply HBool.
  - apply HInt.
  - apply HFloat.
  - apply HStr.
  - apply HList. induction l as [|v l IHl]; constructor; [apply IH | exact IHl].
  - apply HTuple. induction l as [|v l IHl]; constructor; [apply IH | exact IHl].
  - apply HDict. induction d as [|[k v] d IHd]; constructor; [apply IH | exact IHd].
Qed.

Lemma json_safe_ready : forall v, json_ready (json_safe v) = true.
Proof.
  induction v as [|b|n|x|s|l IH|l IH|d IH] using pyval_induction;
    cbn [json_safe json_ready]; try reflexivity.
  - destruct (not_json_number x) eqn:E; cbn [json_ready]; [reflexivity|].
    now rewrite E.
  - rewrite forallb_forall. intros y Hy. apply in_map_iff in Hy.
    destruct Hy as (v & <- & Hv). rewrite Forall_forall in IH. now apply IH.
  - rewrite forallb_forall. intros y Hy. apply in_map_iff in Hy.
    destruct Hy as (v & <- & Hv). rewrite Forall_forall in IH. now apply IH.
  - rewrite forallb_forall. intros y Hy. apply in_map_iff in Hy.
    destruct Hy as (kv & <- & Hv). rewrite Forall_forall in IH. cbn [snd].
    now apply IH.
Qed.


(** X23.  Whatever the value, [json_safe] returns one that holds no NaN,
    no infinity and no tuple, with the shape of its argument: the same
    nesting, lengths, keys and key order, tuples turned into lists. *)
Theorem json_safe_output_is_serializable : forall v,
  json_ready (json_safe v) = true /\ same_shape v (json_safe v) = true.
Proof.
  intros v. split; [apply json_safe_ready|].
  induction v as [|b|n|x|s|l IH|l IH|d IH] using pyval_induction;
    cbn [json_safe same_shape]; try reflexivity.
  - now destruct (not_json_number x).
  - induction IH as [|v l Hv Hl IHl]; cbn [map]; [reflexivity|].
    now rewrite Hv, IHl.
  - induction IH as [|v l Hv Hl IHl]; cbn [map]; [reflexivity|].
    now rewrite Hv, IHl.
  - induction IH as [|[k v] d Hv Hd IHd]; cbn [map fst snd]; [reflexivity|].
    cbn [snd] in Hv. now rewrite String.eqb_refl, Hv, IHd.
Qed.

